(** * Color Dash: the simulation core of [chatgpt.py] and [gemini.py]

    The repository holds two independent implementations of one arcade game.
    Each is embedded below, in a module of its own, as the functions its main
    loop runs in one frame:

    - [Chatgpt]: the classes [CollectorZones] and [FallingShape], the
      high-score file helpers and one iteration of the [while running] loop of
      [main];
    - [Gemini]: pygame's [Rect.colliderect], the high-score file helpers and
      one iteration of the [while not game_over] loop of [game_loop].

    What the loops read from the outside world (pending events, the clock, the
    random draws of a spawn) is an explicit input of a frame; what they send to
    it (sounds, the high-score file) is part of the state.  Drawing is left
    out of the frames: it reads the state and changes nothing.  What the
    collector zones look like, the title screen of gemini.py and its sound
    settings follow the two loops, in modules of their own. *)

From Stdlib Require Import ZArith QArith Qround List Bool Lia Lqa.
From Stdlib Require Import String Ascii DecimalString Permutation.
Import ListNotations.
Open Scope Z_scope.

(** ** Vocabulary shared by the two programs *)

(** The three entries of [COLOUR_LIST] / [zone_colors]: the RGB tuples
    [(255,0,0)], [(0,255,0)] and [(0,0,255)].  Python compares them
    componentwise, which on these three is equality of the name. *)
Inductive Colour : Set := RED | GREEN | BLUE.

Definition colour_eqb (a b : Colour) : bool :=
  match a, b with
  | RED, RED | GREEN, GREEN | BLUE, BLUE => true
  | _, _ => false
  end.

(** The strings ["circle"], ["square"], ["triangle"]. *)
Inductive ShapeType : Set := circle | square | triangle.

Definition shape_type_eqb (a b : ShapeType) : bool :=
  match a, b with
  | circle, circle | square, square | triangle, triangle => true
  | _, _ => false
  end.

(** The keys either program looks at, and the pygame events it tells apart. *)
Inductive Key : Set := K_LEFT | K_RIGHT | K_SPACE | K_s | K_other.

Inductive Event : Set :=
| QUIT
| KEYDOWN (key : Key)
| OTHER_EVENT.

(** A sound the loop asks the mixer for.  The log of a run records the request
    at the place where the program makes it ([if match_sound:
    match_sound.play()] in chatgpt.py, [play_sound(match_sound)] in
    gemini.py); whether a sample is loaded and audible is the mixer's side. *)
Inductive Notification : Set := OnMatch | OnMiss | OnGameOver.

(** Exceptions that escape a function. *)
Inductive Exn : Set := ValueError.

(** *** Text of the high-score file: [str(int)] and [int(str)] *)

(** [str(n)] for a Python int: decimal digits, a leading [-] below zero. *)
Definition py_str (n : Z) : string := NilZero.string_of_int (Z.to_int n).

(** ASCII white space as [str.strip()] and [int()] skip it. *)
Definition is_space (c : ascii) : bool :=
  let n := nat_of_ascii c in
  (Nat.eqb n 32 || (Nat.leb 9 n && Nat.leb n 13) || (Nat.leb 28 n && Nat.leb n 31))%bool.

Fixpoint lstrip (s : list ascii) : list ascii :=
  match s with
  | c :: r => if is_space c then lstrip r else s
  | [] => []
  end.

Definition strip (s : list ascii) : list ascii := rev (lstrip (rev (lstrip s))).

Definition digit_of (c : ascii) : option Z :=
  let n := nat_of_ascii c in
  if (Nat.leb 48 n && Nat.leb n 57)%bool then Some (Z.of_nat (n - 48)) else None.

(** Digits of a base-10 literal, most significant first; a single underscore
    may stand between two digits.  [acc] is the value read so far and
    [after_digit] says whether the previous character was a digit. *)
Fixpoint digits (s : list ascii) (acc : Z) (after_digit : bool) : option Z :=
  match s with
  | [] => if after_digit then Some acc else None
  | c :: r =>
      match digit_of c with
      | Some d => digits r (10 * acc + d) true
      | None =>
          if (Ascii.eqb c "_" && after_digit)%bool then digits r acc false else None
      end
  end.

(** [int(s)] on ASCII text: surrounding white space, an optional sign, then the
    digits; [None] stands for [ValueError].  (Python accepts other Unicode
    decimal digits and white space as well; no statement below depends on how
    a given text parses, only on whether it does.) *)
Definition py_int (s : string) : option Z :=
  match strip (list_ascii_of_string s) with
  | "-"%char :: r => option_map Z.opp (digits r 0 false)
  | "+"%char :: r => digits r 0 false
  | r => digits r 0 false
  end.

(** [s.strip()] on a string. *)
Definition py_strip (s : string) : string :=
  string_of_list_ascii (strip (list_ascii_of_string s)).

(** The high-score file: [None] when no such file exists, otherwise its
    text. *)
Definition File : Set := option string.

(** Comparisons on the rationals that stand for Python floats. *)
Definition Qge_bool (a b : Q) : bool := Qle_bool b a.
Definition Qgt_bool (a b : Q) : bool := negb (Qle_bool a b).

(** * chatgpt.py *)

Module Chatgpt.

(** ** Game configuration *)

Definition WIDTH : Z := 600.
Definition HEIGHT : Z := 800.
Definition SHAPE_FALL_SPEED : Q := 3.
Definition SPEED_INCREMENT_INTERVAL : Z := 5.
(** [0.5]: from the first increment on, speeds and ordinates are floats.  All
    of them are small multiples of one half, which binary64 stores and adds
    without rounding, so exact rationals compute what the program computes. *)
Definition SPEED_INCREMENT_AMOUNT : Q := 1 # 2.
Definition NUM_LIVES : Z := 3.
Definition COLOUR_LIST : list Colour := [RED; GREEN; BLUE].
Definition ZONE_WIDTH : Z := 100.
Definition ZONE_HEIGHT : Z := 50.
Definition BOTTOM_MARGIN : Z := 50.
Definition SHAPE_SPAWN_INTERVAL : Z := 1000.

Inductive GameState : Set := STATE_TITLE | STATE_PLAYING | STATE_GAMEOVER.

Definition game_state_eqb (a b : GameState) : bool :=
  match a, b with
  | STATE_TITLE, STATE_TITLE
  | STATE_PLAYING, STATE_PLAYING
  | STATE_GAMEOVER, STATE_GAMEOVER => true
  | _, _ => false
  end.

(** ** The high-score file *)

(** [load_high_score]: 0 when the file does not exist; otherwise
    [int(f.read().strip())], and 0 again on [ValueError]. *)
Definition load_high_score (f : File) : Z :=
  match f with
  | None => 0
  | Some text =>
      match py_int (py_strip text) with
      | Some n => n
      | None => 0
      end
  end.

(** [save_high_score]: the file now holds [str(score)]. *)
Definition save_high_score (score : Z) (f : File) : File := Some (py_str score).

(** ** class CollectorZones *)

Module CollectorZones.

Record t : Set := mk {
  index : Z;              (* which colour is in the left-most position *)
  x : Z;
  y : Z;
  colours : list Colour
}.

Definition init : t :=
  {| index := 0;
     x := WIDTH / 2 - ZONE_WIDTH;
     y := HEIGHT - BOTTOM_MARGIN;
     colours := COLOUR_LIST |}.

(** Python's [%] with a positive modulus is [Z.modulo]. *)
Definition move_left (self : t) : t :=
  {| index := (index self - 1) mod 3;
     x := x self; y := y self; colours := colours self |}.

Definition move_right (self : t) : t :=
  {| index := (index self + 1) mod 3;
     x := x self; y := y self; colours := colours self |}.

(** [self.colours[(self.index + 1) % 3]].  The subscript is in [0, 3) and
    [colours] always has three entries (lemma [centre_subscript_in_range]), so
    the default of [nth] is never used. *)
Definition get_centre_colour (self : t) : Colour :=
  nth (Z.to_nat ((index self + 1) mod 3)) (colours self) RED.

End CollectorZones.

(** ** class FallingShape *)

Module FallingShape.

(** [ident] stands for the identity of the Python object: the class defines no
    [__eq__], so [in] and [list.remove] compare shapes by identity. *)
Record t : Set := mk {
  ident : nat;
  colour : Colour;
  shape_type : ShapeType;
  x : Z;
  y : Q;
  speed : Q;
  size : Z
}.

(** [FallingShape(fall_speed)], with the three random draws given. *)
Definition init (id : nat) (c : Colour) (k : ShapeType) (x0 : Z) (fall_speed : Q) : t :=
  {| ident := id; colour := c; shape_type := k; x := x0;
     y := inject_Z (-50); speed := fall_speed; size := 30 |}.

Definition update (self : t) : t :=
  {| ident := ident self; colour := colour self; shape_type := shape_type self;
     x := x self; y := (y self + speed self)%Q; speed := speed self;
     size := size self |}.

(** [self.y - self.size > HEIGHT] *)
Definition is_off_screen (self : t) : bool :=
  Qgt_bool (y self - inject_Z (size self))%Q (inject_Z HEIGHT).

End FallingShape.

(** ** main *)

(** The local variables of [main], the high-score file, the log of sound
    requests and the next fresh object identity. *)
Record State : Set := mkState {
  running : bool;
  high_score : Z;
  game_state : GameState;
  collector : CollectorZones.t;
  shapes : list FallingShape.t;
  score : Z;
  lives : Z;
  current_fall_speed : Q;
  last_spawn_time : Z;
  file : File;
  sounds : list Notification;
  fresh : nat
}.

(** What one frame reads: the pending events, [pygame.time.get_ticks()] as read
    while they are handled and as read by the update logic, and the draws
    [random.choice(COLOUR_LIST)], [random.choice([...])] and
    [random.randint(50, WIDTH - 50)] a spawn would make. *)
Record Input : Set := mkInput {
  events : list Event;
  ticks_at_events : Z;
  current_time : Z;
  draw_colour : Colour;
  draw_shape_type : ShapeType;
  draw_x : Z
}.

(** State on entry to the [while running] loop. *)
Definition initial (f : File) (ticks : Z) : State :=
  {| running := true;
     high_score := load_high_score f;
     game_state := STATE_TITLE;
     collector := CollectorZones.init;
     shapes := [];
     score := 0;
     lives := NUM_LIVES;
     current_fall_speed := SHAPE_FALL_SPEED;
     last_spawn_time := ticks;
     file := f;
     sounds := [];
     fresh := 0%nat |}.

Definition set_collector (c : CollectorZones.t) (st : State) : State :=
  {| running := running st; high_score := high_score st;
     game_state := game_state st; collector := c; shapes := shapes st;
     score := score st; lives := lives st;
     current_fall_speed := current_fall_speed st;
     last_spawn_time := last_spawn_time st; file := file st;
     sounds := sounds st; fresh := fresh st |}.

(** The body of [for event in pygame.event.get()]. *)
Definition handle_event (ticks : Z) (st : State) (ev : Event) : State :=
  match ev with
  | QUIT =>
      {| running := false; high_score := high_score st;
         game_state := game_state st; collector := collector st;
         shapes := shapes st; score := score st; lives := lives st;
         current_fall_speed := current_fall_speed st;
         last_spawn_time := last_spawn_time st; file := file st;
         sounds := sounds st; fresh := fresh st |}
  | KEYDOWN key =>
      match game_state st with
      | STATE_TITLE =>
          (* any key starts the game: reset everything *)
          {| running := running st; high_score := high_score st;
             game_state := STATE_PLAYING; collector := CollectorZones.init;
             shapes := []; score := 0; lives := NUM_LIVES;
             current_fall_speed := SHAPE_FALL_SPEED;
             last_spawn_time := ticks; file := file st;
             sounds := sounds st; fresh := fresh st |}
      | STATE_PLAYING =>
          match key with
          | K_LEFT => set_collector (CollectorZones.move_left (collector st)) st
          | K_RIGHT => set_collector (CollectorZones.move_right (collector st)) st
          | _ => st
          end
      | STATE_GAMEOVER =>
          match key with
          | K_SPACE =>
              {| running := running st; high_score := high_score st;
                 game_state := STATE_TITLE; collector := collector st;
                 shapes := shapes st; score := score st; lives := lives st;
                 current_fall_speed := current_fall_speed st;
                 last_spawn_time := last_spawn_time st; file := file st;
                 sounds := sounds st; fresh := fresh st |}
          | _ => st
          end
      end
  | OTHER_EVENT => st
  end.

Definition handle_events (inp : Input) (st : State) : State :=
  fold_left (handle_event (ticks_at_events inp)) (events inp) st.

(** [if current_time - last_spawn_time > SHAPE_SPAWN_INTERVAL: shapes.append(...)] *)
Definition spawn (inp : Input) (st : State) : State :=
  if current_time inp - last_spawn_time st >? SHAPE_SPAWN_INTERVAL then
    {| running := running st; high_score := high_score st;
       game_state := game_state st; collector := collector st;
       shapes := shapes st ++
                 [FallingShape.init (fresh st) (draw_colour inp)
                    (draw_shape_type inp) (draw_x inp) (current_fall_speed st)];
       score := score st; lives := lives st;
       current_fall_speed := current_fall_speed st;
       last_spawn_time := current_time inp; file := file st;
       sounds := sounds st; fresh := S (fresh st) |}
  else st.

(** [for shape in shapes: shape.update()] *)
Definition update_shapes (st : State) : State :=
  {| running := running st; high_score := high_score st;
     game_state := game_state st; collector := collector st;
     shapes := map FallingShape.update (shapes st);
     score := score st; lives := lives st;
     current_fall_speed := current_fall_speed st;
     last_spawn_time := last_spawn_time st; file := file st;
     sounds := sounds st; fresh := fresh st |}.

(** [shape.y + shape.size >= collector.y] *)
Definition reaches_zone (c : CollectorZones.t) (shape : FallingShape.t) : bool :=
  Qge_bool (FallingShape.y shape + inject_Z (FallingShape.size shape))%Q
           (inject_Z (CollectorZones.y c)).

(** What the collision loop carries from one shape to the next. *)
Record Tally : Set := mkTally {
  t_score : Z;
  t_lives : Z;
  t_speed : Q;
  t_sounds : list Notification;
  to_remove : list FallingShape.t
}.

(** The body of the second [for shape in shapes]. *)
Definition check_shape (c : CollectorZones.t) (a : Tally) (shape : FallingShape.t) : Tally :=
  if reaches_zone c shape then
    if colour_eqb (FallingShape.colour shape) (CollectorZones.get_centre_colour c) then
      let score' := t_score a + 1 in
      {| t_score := score';
         t_lives := t_lives a;
         t_speed := if score' mod SPEED_INCREMENT_INTERVAL =? 0
                    then (t_speed a + SPEED_INCREMENT_AMOUNT)%Q else t_speed a;
         t_sounds := t_sounds a ++ [OnMatch];
         to_remove := to_remove a ++ [shape] |}
    else
      {| t_score := t_score a;
         t_lives := t_lives a - 1;
         t_speed := t_speed a;
         t_sounds := t_sounds a ++ [OnMiss];
         to_remove := to_remove a ++ [shape] |}
  else if FallingShape.is_off_screen shape then
    {| t_score := t_score a;
       t_lives := t_lives a - 1;
       t_speed := t_speed a;
       t_sounds := t_sounds a ++ [OnMiss];
       to_remove := to_remove a ++ [shape] |}
  else a.

(** [shape in shapes] and [shapes.remove(shape)], by identity. *)
Definition same_object (a b : FallingShape.t) : bool :=
  Nat.eqb (FallingShape.ident a) (FallingShape.ident b).

Fixpoint remove_object (shape : FallingShape.t) (l : list FallingShape.t) : list FallingShape.t :=
  match l with
  | [] => []
  | h :: r => if same_object shape h then r else h :: remove_object shape r
  end.

(** [for shape in to_remove: if shape in shapes: shapes.remove(shape)] *)
Definition remove_all (gone l : list FallingShape.t) : list FallingShape.t :=
  fold_left (fun acc shape =>
               if existsb (same_object shape) acc then remove_object shape acc else acc)
            gone l.

(** [if lives <= 0: ...] at the end of the update logic. *)
Definition check_game_over (st : State) : State :=
  if lives st <=? 0 then
    let beaten := score st >? high_score st in
    {| running := running st;
       high_score := if beaten then score st else high_score st;
       game_state := STATE_GAMEOVER; collector := collector st;
       shapes := shapes st; score := score st; lives := lives st;
       current_fall_speed := current_fall_speed st;
       last_spawn_time := last_spawn_time st;
       file := if beaten then save_high_score (score st) (file st) else file st;
       sounds := sounds st ++ [OnGameOver]; fresh := fresh st |}
  else st.

(** The collision loop and the removal loop, on a state whose shapes have been
    spawned and moved. *)
Definition resolve_shapes (st : State) : State :=
  let a := fold_left (check_shape (collector st)) (shapes st)
             {| t_score := score st; t_lives := lives st;
                t_speed := current_fall_speed st; t_sounds := sounds st;
                to_remove := [] |} in
  {| running := running st; high_score := high_score st;
     game_state := game_state st; collector := collector st;
     shapes := remove_all (to_remove a) (shapes st);
     score := t_score a; lives := t_lives a;
     current_fall_speed := t_speed a;
     last_spawn_time := last_spawn_time st; file := file st;
     sounds := t_sounds a; fresh := fresh st |}.

(** [if game_state == STATE_PLAYING: ...] *)
Definition update_logic (inp : Input) (st : State) : State :=
  match game_state st with
  | STATE_PLAYING =>
      check_game_over (resolve_shapes (update_shapes (spawn inp st)))
  | _ => st
  end.

(** One iteration of [while running]. *)
Definition frame (st : State) (inp : Input) : State :=
  update_logic inp (handle_events inp st).

(** The loop over a list of frame inputs; it stops once [running] is false. *)
Fixpoint run (st : State) (inps : list Input) : State :=
  match inps with
  | [] => st
  | inp :: rest => if running st then run (frame st inp) rest else st
  end.

(** States the program can be in at the top of the loop. *)
Inductive reachable : State -> Prop :=
| reach_initial : forall f ticks, reachable (initial f ticks)
| reach_frame : forall st inp,
    reachable st -> running st = true -> reachable (frame st inp).

End Chatgpt.

(** * gemini.py *)

(** A computation that may raise. *)
Inductive Result (A : Type) : Type :=
| Ok (a : A)
| Raise (e : Exn).

Arguments Ok {A} a.
Arguments Raise {A} e.

Definition bind {A B : Type} (r : Result A) (k : A -> Result B) : Result B :=
  match r with
  | Ok a => k a
  | Raise e => Raise e
  end.

Notation "x <- r ;; k" := (bind r (fun x => k))
  (at level 61, r at next level, right associativity).

(** What [f] shows of the result of a computation. *)
Definition observe {A B : Type} (f : A -> B) (r : Result A) : Result B :=
  a <- r ;; Ok (f a).

Module Gemini.

Definition screen_width : Z := 600.
Definition screen_height : Z := 800.
Definition zone_colors : list Colour := [RED; GREEN; BLUE].
Definition shape_colors : list Colour := zone_colors.

(** ** pygame.Rect *)

Module Rect.

Record t : Set := mk { x : Z; y : Z; width : Z; height : Z }.

Definition eqb (a b : t) : bool :=
  ((x a =? x b) && (y a =? y b) && (width a =? width b) && (height a =? height b))%bool.

(** [a.colliderect(b)] as pygame 2 computes it: the rectangles overlap in
    more than an edge, and a rectangle without area overlaps nothing.  (With
    positive sizes, as everywhere in this program, the minima and maxima are
    the left, right, top and bottom edges.) *)
Definition colliderect (a b : t) : bool :=
  if ((width a =? 0) || (height a =? 0) || (width b =? 0) || (height b =? 0))%bool
  then false
  else ((Z.min (x a) (x a + width a) <? Z.max (x b) (x b + width b)) &&
        (Z.min (y a) (y a + height a) <? Z.max (y b) (y b + height b)) &&
        (Z.max (x a) (x a + width a) >? Z.min (x b) (x b + width b)) &&
        (Z.max (y a) (y a + height a) >? Z.min (y b) (y b + height b)))%bool.

Definition set_x (r : t) (v : Z) : t :=
  {| x := v; y := y r; width := width r; height := height r |}.

Definition set_y (r : t) (v : Z) : t :=
  {| x := x r; y := v; width := width r; height := height r |}.

End Rect.

(** ** The high-score file *)

(** [load_high_score]: only [FileNotFoundError] is caught; a [ValueError] of
    [int(file.read())] escapes. *)
Definition load_high_score (f : File) : Result Z :=
  match f with
  | None => Ok 0
  | Some text =>
      match py_int text with
      | Some n => Ok n
      | None => Raise ValueError
      end
  end.

Definition save_high_score (score : Z) (f : File) : File := Some (py_str score).

(** ** game_loop *)

(** A collector zone: the dict [{"color": ..., "rect": ...}]. *)
Record Zone : Set := mkZone { color : Colour; rect : Rect.t }.

(** A falling shape: the dict [{"type": ..., "color": ..., "rect": ...}].
    [obj] stands for the identity of the dict object; it is no key of the dict
    and takes no part in [==]. *)
Record Shape : Set := mkShape {
  obj : nat;
  s_type : ShapeType;
  s_color : Colour;
  s_rect : Rect.t
}.

(** [==] on two shape dicts: key by key. *)
Definition dict_eqb (a b : Shape) : bool :=
  (shape_type_eqb (s_type a) (s_type b) && colour_eqb (s_color a) (s_color b) &&
   Rect.eqb (s_rect a) (s_rect b))%bool.

Definition zone_width : Z := screen_width / 3.
Definition zone_height : Z := 50.
Definition shape_size : Z := 40.
Definition speed_increase_interval : Z := 20.

(** The local variables of [game_loop], the high-score file, the log of sound
    requests and the next fresh object identity.  The two floats of the spawn
    timer ([last_shape_time], [shape_spawn_delay]) are left out: whether the
    timer has run out is an input of the frame. *)
Record State : Set := mkState {
  game_over : bool;
  score : Z;
  high_score : Z;
  lives : Z;
  shape_speed : Z;
  zones : list Zone;
  zone_position : Z;
  shapes : list Shape;
  file : File;
  sounds : list Notification;
  fresh : nat
}.

(** What one frame reads: the pending events, the outcome of
    [current_time - last_shape_time > shape_spawn_delay] on the wall clock,
    and the draws [random.choice(shape_types)], [random.choice(shape_colors)]
    and [random.randint(0, screen_width - shape_size)] a spawn would make. *)
Record Input : Set := mkInput {
  events : list Event;
  spawn_due : bool;
  draw_type : ShapeType;
  draw_color : Colour;
  draw_x : Z
}.

Definition initial_zones : list Zone :=
  [ {| color := nth 0 zone_colors RED;
       rect := Rect.mk 0 (screen_height - zone_height) zone_width zone_height |};
    {| color := nth 1 zone_colors RED;
       rect := Rect.mk zone_width (screen_height - zone_height) zone_width zone_height |};
    {| color := nth 2 zone_colors RED;
       rect := Rect.mk (zone_width * 2) (screen_height - zone_height) zone_width zone_height |} ].

(** The variables as [game_loop] sets them before its loop. *)
Definition game_loop_entry (f : File) : Result State :=
  hs <- load_high_score f ;;
  Ok {| game_over := false; score := 0; high_score := hs; lives := 3;
        shape_speed := 5; zones := initial_zones; zone_position := 1;
        shapes := []; file := f; sounds := []; fresh := 0%nat |}.

(** The body of [for event in pygame.event.get()]. *)
Definition handle_event (st : State) (ev : Event) : State :=
  match ev with
  | QUIT =>
      {| game_over := true; score := score st; high_score := high_score st;
         lives := lives st; shape_speed := shape_speed st; zones := zones st;
         zone_position := zone_position st; shapes := shapes st;
         file := file st; sounds := sounds st; fresh := fresh st |}
  | KEYDOWN K_LEFT =>
      {| game_over := game_over st; score := score st; high_score := high_score st;
         lives := lives st; shape_speed := shape_speed st; zones := zones st;
         zone_position := Z.max 0 (zone_position st - 1); shapes := shapes st;
         file := file st; sounds := sounds st; fresh := fresh st |}
  | KEYDOWN K_RIGHT =>
      {| game_over := game_over st; score := score st; high_score := high_score st;
         lives := lives st; shape_speed := shape_speed st; zones := zones st;
         zone_position := Z.min (Z.of_nat (List.length (zones st)) - 1) (zone_position st + 1);
         shapes := shapes st;
         file := file st; sounds := sounds st; fresh := fresh st |}
  | _ => st
  end.

(** [for i, zone in enumerate(zones): zone["rect"].x = (zone_position - 1 + i) * zone_width] *)
Fixpoint place_zones (position : Z) (i : Z) (zs : list Zone) : list Zone :=
  match zs with
  | [] => []
  | zone :: rest =>
      {| color := color zone;
         rect := Rect.set_x (rect zone) ((position - 1 + i) * zone_width) |}
      :: place_zones position (i + 1) rest
  end.

Definition move_zones (st : State) : State :=
  {| game_over := game_over st; score := score st; high_score := high_score st;
     lives := lives st; shape_speed := shape_speed st;
     zones := place_zones (zone_position st) 0 (zones st);
     zone_position := zone_position st; shapes := shapes st;
     file := file st; sounds := sounds st; fresh := fresh st |}.

(** [if current_time - last_shape_time > shape_spawn_delay: shapes.append(new_shape)] *)
Definition spawn (inp : Input) (st : State) : State :=
  if spawn_due inp then
    {| game_over := game_over st; score := score st; high_score := high_score st;
       lives := lives st; shape_speed := shape_speed st; zones := zones st;
       zone_position := zone_position st;
       shapes := shapes st ++
                 [ {| obj := fresh st; s_type := draw_type inp;
                      s_color := draw_color inp;
                      s_rect := Rect.mk (draw_x inp) (0 - shape_size)
                                        shape_size shape_size |} ];
       file := file st; sounds := sounds st; fresh := S (fresh st) |}
  else st.

Definition fall (speed : Z) (shape : Shape) : Shape :=
  {| obj := obj shape; s_type := s_type shape; s_color := s_color shape;
     s_rect := Rect.set_y (s_rect shape) (Rect.y (s_rect shape) + speed) |}.

(** [for shape in shapes: shape["rect"].y += shape_speed] *)
Definition move_shapes (st : State) : State :=
  {| game_over := game_over st; score := score st; high_score := high_score st;
     lives := lives st; shape_speed := shape_speed st; zones := zones st;
     zone_position := zone_position st;
     shapes := map (fall (shape_speed st)) (shapes st);
     file := file st; sounds := sounds st; fresh := fresh st |}.

(** [shapes.remove(shape)]: the first item equal to [shape] goes;
    [ValueError] when there is none. *)
Fixpoint list_remove (shape : Shape) (l : list Shape) : Result (list Shape) :=
  match l with
  | [] => Raise ValueError
  | h :: r =>
      if dict_eqb h shape then Ok r
      else r' <- list_remove shape r ;; Ok (h :: r')
  end.

(** [shape["rect"].y = v] as seen through the list that holds the same
    object. *)
Definition assign_y (shape : Shape) (v : Z) (l : list Shape) : list Shape :=
  map (fun s => if Nat.eqb (obj s) (obj shape)
                then {| obj := obj s; s_type := s_type s; s_color := s_color s;
                        s_rect := Rect.set_y (s_rect s) v |}
                else s) l.

(** [lives -= 1; play_sound(wrong_match_sound); if lives == 0: ...] with the
    live list already updated to [l]. *)
Definition lose_life (l : list Shape) (st : State) : State :=
  let lives' := lives st - 1 in
  {| game_over := if lives' =? 0 then true else game_over st;
     score := score st; high_score := high_score st;
     lives := lives'; shape_speed := shape_speed st; zones := zones st;
     zone_position := zone_position st; shapes := l; file := file st;
     sounds := if lives' =? 0 then sounds st ++ [OnMiss; OnGameOver]
               else sounds st ++ [OnMiss];
     fresh := fresh st |}.

(** The body of [for shape in shapes[:]]. *)
Definition collide (st : State) (shape : Shape) : Result State :=
  if Rect.y (s_rect shape) >? screen_height then
    l <- list_remove shape (shapes st) ;;
    Ok (lose_life l st)
  else
    match find (fun zone => Rect.colliderect (s_rect shape) (rect zone)) (zones st) with
    | None => Ok st
    | Some zone =>
        if colour_eqb (s_color shape) (color zone) then
          let score' := score st + 1 in
          let moved := {| obj := obj shape; s_type := s_type shape;
                          s_color := s_color shape;
                          s_rect := Rect.set_y (s_rect shape) screen_height |} in
          l <- list_remove moved (assign_y shape screen_height (shapes st)) ;;
          Ok {| game_over := game_over st; score := score';
                high_score := if score' >? high_score st then score' else high_score st;
                lives := lives st;
                shape_speed := if score' mod speed_increase_interval =? 0
                               then shape_speed st + 1 else shape_speed st;
                zones := zones st; zone_position := zone_position st;
                shapes := l; file := file st;
                sounds := sounds st ++ [OnMatch]; fresh := fresh st |}
        else
          l <- list_remove shape (shapes st) ;;
          Ok (lose_life l st)
    end.

(** The whole collision loop, over the copy [shapes[:]]. *)
Fixpoint collisions (st : State) (copy : list Shape) : Result State :=
  match copy with
  | [] => Ok st
  | shape :: rest => st' <- collide st shape ;; collisions st' rest
  end.

(** One iteration of [while not game_over]. *)
Definition frame (st : State) (inp : Input) : Result State :=
  let st1 := move_shapes (spawn inp (move_zones (fold_left handle_event (events inp) st))) in
  collisions st1 (shapes st1).

(** The game over sequence after the loop: [save_high_score(high_score)]. *)
Definition game_over_sequence (st : State) : State :=
  {| game_over := game_over st; score := score st; high_score := high_score st;
     lives := lives st; shape_speed := shape_speed st; zones := zones st;
     zone_position := zone_position st; shapes := shapes st;
     file := save_high_score (high_score st) (file st);
     sounds := sounds st; fresh := fresh st |}.

(** The loop over a list of frame inputs; it stops once [game_over] is set. *)
Fixpoint run (st : State) (inps : list Input) : Result State :=
  match inps with
  | [] => Ok st
  | inp :: rest =>
      if game_over st then Ok st
      else st' <- frame st inp ;; run st' rest
  end.

(** States the program can be in at the top of the loop of one call of
    [game_loop]. *)
Inductive reachable : State -> Prop :=
| reach_entry : forall f st, game_loop_entry f = Ok st -> reachable st
| reach_frame : forall st inp st',
    reachable st -> game_over st = false -> frame st inp = Ok st' -> reachable st'.

End Gemini.

(** * Vocabulary of the statements *)

(** What the collision loop of chatgpt.py does with one shape. *)
Inductive Verdict : Set := Matched | Mismatched | MissedBelow | StillFalling.

Definition verdict_eqb (a b : Verdict) : bool :=
  match a, b with
  | Matched, Matched | Mismatched, Mismatched
  | MissedBelow, MissedBelow | StillFalling, StillFalling => true
  | _, _ => false
  end.

Module ChatgptSpec.
Import Chatgpt.

(** The branch of [check_shape] a shape takes, read off its three tests. *)
Definition verdict (c : CollectorZones.t) (shape : FallingShape.t) : Verdict :=
  if reaches_zone c shape then
    if colour_eqb (FallingShape.colour shape) (CollectorZones.get_centre_colour c)
    then Matched else Mismatched
  else if FallingShape.is_off_screen shape then MissedBelow
  else StillFalling.

Definition tally (v : Verdict) (c : CollectorZones.t) (l : list FallingShape.t) : Z :=
  Z.of_nat (List.length (filter (fun s => verdict_eqb (verdict c s) v) l)).

Definition resolved (c : CollectorZones.t) (shape : FallingShape.t) : bool :=
  negb (verdict_eqb (verdict c shape) StillFalling).

(** The sound requested for one shape. *)
Definition request (c : CollectorZones.t) (shape : FallingShape.t) : list Notification :=
  match verdict c shape with
  | Matched => [OnMatch]
  | Mismatched | MissedBelow => [OnMiss]
  | StillFalling => []
  end.

(** No two entries of the live list are the same object, and every identity in
    use is below the next fresh one. *)
Definition distinct_objects (st : State) : Prop :=
  NoDup (map FallingShape.ident (shapes st)) /\
  Forall (fun s => (FallingShape.ident s < fresh st)%nat) (shapes st).

(** The live shapes the collision loop of a frame iterates over: the list
    after event handling, spawn and movement. *)
Definition live_shapes (st : State) (inp : Input) : list FallingShape.t :=
  shapes (update_shapes (spawn inp (handle_events inp st))).

(** The frames of one session: the frames the loop runs until the state is no
    longer [STATE_PLAYING] (or the window was closed). *)
Fixpoint play (st : State) (inps : list Input) : State :=
  match inps with
  | [] => st
  | inp :: rest =>
      if (running st && game_state_eqb (game_state st) STATE_PLAYING)%bool
      then play (frame st inp) rest
      else st
  end.

(** [k] calls of [update]. *)
Fixpoint fall (k : nat) (shape : FallingShape.t) : FallingShape.t :=
  match k with
  | O => shape
  | S k' => FallingShape.update (fall k' shape)
  end.

End ChatgptSpec.


Module ChatgptInv.
Import Chatgpt ChatgptSpec.

(** What holds of the variables of [main] at the top of every iteration. *)
Definition invariant (st : State) : Prop :=
  distinct_objects st /\
  lives st <= NUM_LIVES /\
  (game_state st = STATE_PLAYING -> 1 <= lives st) /\
  (game_state st = STATE_GAMEOVER -> lives st <= 0) /\
  0 <= score st.

(** The layout [main] keeps: the collector row has its top edge 50 pixels
    above the bottom of the screen, and every shape has size 30. *)
Definition geometry (st : State) : Prop :=
  CollectorZones.y (collector st) = HEIGHT - BOTTOM_MARGIN /\
  Forall (fun s => FallingShape.size s = 30) (shapes st).

End ChatgptInv.

Module GeminiSpec.
Import Gemini.

(** The zone the inner [for zone in zones] loop stops at: the first one, in
    list order, whose rectangle the shape's rectangle overlaps. *)
Definition first_zone (zs : list Zone) (shape : Shape) : option Zone :=
  find (fun zone => Rect.colliderect (s_rect shape) (rect zone)) zs.

(** The branch of [collide] a shape takes, read off its tests. *)
Definition verdict (zs : list Zone) (shape : Shape) : Verdict :=
  if Rect.y (s_rect shape) >? screen_height then MissedBelow
  else match first_zone zs shape with
       | None => StillFalling
       | Some zone =>
           if colour_eqb (s_color shape) (color zone) then Matched else Mismatched
       end.

Definition tally (v : Verdict) (zs : list Zone) (l : list Shape) : Z :=
  Z.of_nat (List.length (filter (fun s => verdict_eqb (verdict zs s) v) l)).

Definition falling (zs : list Zone) (shape : Shape) : bool :=
  verdict_eqb (verdict zs shape) StillFalling.

(** The sound requested for one shape, the game-over sound apart. *)
Definition request (zs : list Zone) (shape : Shape) : list Notification :=
  match verdict zs shape with
  | Matched => [OnMatch]
  | Mismatched | MissedBelow => [OnMiss]
  | StillFalling => []
  end.

Definition is_game_over_sound (n : Notification) : bool :=
  match n with OnGameOver => true | _ => false end.

(** A shape dict without the identity of the object: what [==] sees. *)
Definition value (shape : Shape) : ShapeType * Colour * Rect.t :=
  (s_type shape, s_color shape, s_rect shape).

(** The state after the events, the zone placement, the spawn and the
    movement of a frame: what its collision loop starts from. *)
Definition before_collisions (st : State) (inp : Input) : State :=
  move_shapes (spawn inp (move_zones (fold_left handle_event (events inp) st))).

(** The state of [collide]'s first branch for a matching colour, with the live
    list already updated to [l]. *)
Definition score_point (l : list Shape) (st : State) : State :=
  let score' := score st + 1 in
  {| game_over := game_over st; score := score';
     high_score := if score' >? high_score st then score' else high_score st;
     lives := lives st;
     shape_speed := if score' mod speed_increase_interval =? 0
                    then shape_speed st + 1 else shape_speed st;
     zones := zones st; zone_position := zone_position st;
     shapes := l; file := file st;
     sounds := sounds st ++ [OnMatch]; fresh := fresh st |}.

(** The shape after [shape["rect"].y = screen_height]. *)
Definition parked (shape : Shape) : Shape :=
  {| obj := obj shape; s_type := s_type shape; s_color := s_color shape;
     s_rect := Rect.set_y (s_rect shape) screen_height |}.

(** The zone row as [game_loop] lays it out: every zone is 200 wide, 50 high
    and has its top edge at 750. *)
Definition zone_row (zs : list Zone) : Prop :=
  Forall (fun zone => Rect.y (rect zone) = screen_height - zone_height /\
                      Rect.height (rect zone) = zone_height /\
                      Rect.width (rect zone) = zone_width) zs.

(** Every shape is a square of side [shape_size]. *)
Definition squares (l : list Shape) : Prop :=
  Forall (fun s => Rect.width (s_rect s) = shape_size /\
                   Rect.height (s_rect s) = shape_size) l.

(** What holds of the variables of [game_loop] at the top of every
    iteration. *)
Definition invariant (st : State) : Prop :=
  NoDup (map obj (shapes st)) /\
  Forall (fun s => (obj s < fresh st)%nat) (shapes st) /\
  squares (shapes st) /\
  zone_row (zones st) /\
  List.length (zones st) = 3%nat /\
  0 <= zone_position st <= 2 /\
  lives st <= 3 /\
  (game_over st = false -> 1 <= lives st) /\
  0 <= score st /\
  5 <= shape_speed st /\
  exists stored, load_high_score (file st) = Ok stored /\
    ((score st = 0 /\ high_score st = stored) \/
     (1 <= score st /\ high_score st = Z.max stored (score st))).

End GeminiSpec.

Module GeminiRel.
Import Gemini GeminiSpec.

(** The high score follows the score: it is the stored value until the first
    point, and the larger of the stored value and the score from then on. *)
Definition tracks (stored : Z) (st : State) : Prop :=
  (score st = 0 /\ high_score st = stored) \/
  (1 <= score st /\ high_score st = Z.max stored (score st)).

(** The flag is down only while lives are left. *)
Definition flag_sound (st : State) : Prop := game_over st = false -> 1 <= lives st.

(** How a later state of the collision loop relates to an earlier one,
    whatever the shapes in between. *)
Definition carries_on (st st1 : State) : Prop :=
  zones st1 = zones st /\ zone_position st1 = zone_position st /\
  file st1 = file st /\ fresh st1 = fresh st /\
  lives st1 <= lives st /\ score st <= score st1 /\
  shape_speed st <= shape_speed st1 /\
  (flag_sound st ->
   flag_sound st1 /\ (game_over st1 = true <-> game_over st = true \/ lives st1 <= 0)) /\
  (forall stored, 0 <= score st -> tracks stored st -> tracks stored st1).

End GeminiRel.

Definition is_quit (ev : Event) : bool :=
  match ev with QUIT => true | _ => false end.

(** ** Rotation *)

Module Rotation.
Import Gemini GeminiSpec.

(** gemini.py: the state after one key press. *)
Definition press (key : Key) (st : State) : State := handle_event st (KEYDOWN key).

(** A frame of gemini.py with the given key presses and no spawn. *)
Definition keys (ks : list Key) : Input :=
  {| events := map KEYDOWN ks; spawn_due := false;
     draw_type := circle; draw_color := RED; draw_x := 0 |}.

(** A shape-sized rectangle in the middle column of the screen, inside the
    zone row: the colour of the zone it overlaps is the colour shown in the
    centre. *)
Definition centre_probe : Shape :=
  {| obj := 0%nat; s_type := square; s_color := RED;
     s_rect := Rect.mk (screen_width / 2 - shape_size / 2)
                       (screen_height - zone_height) shape_size shape_size |}.

Definition centre_colour (st : State) : option Colour :=
  option_map color (first_zone (zones st) centre_probe).

(** Position and centre colour after a game of gemini.py, started without a
    high-score file, has run through frames with the given key presses. *)
Definition rotated (presses : list (list Key)) : Result (Z * option Colour) :=
  observe (fun st => (zone_position st, centre_colour st))
          (st0 <- game_loop_entry None ;; run st0 (map keys presses)).

End Rotation.

(** ** Arrival at the zone row (chatgpt.py) *)

Module Arrival.
Import Chatgpt ChatgptSpec.

(** The number of ticks after which a shape first meets the test
    [shape.y + shape.size >= collector.y]: the distance its lower edge has to
    cover, over its speed, rounded up. *)
Definition ticks_to_zone (c : CollectorZones.t) (shape : FallingShape.t) : Z :=
  Qceiling ((inject_Z (CollectorZones.y c) - inject_Z (FallingShape.size shape)
             - FallingShape.y shape) / FallingShape.speed shape).

(** The same with the distance measured from [shape.y] itself, as
    [ceil((zoneY - startY) / S)] reads. *)
Definition ticks_from_centre (c : CollectorZones.t) (shape : FallingShape.t) : Z :=
  Qceiling ((inject_Z (CollectorZones.y c) - FallingShape.y shape)
            / FallingShape.speed shape).

(** A shape as the spawner makes it at the start of a game. *)
Definition first_shape : FallingShape.t :=
  FallingShape.init 0 RED circle 300 SHAPE_FALL_SPEED.

End Arrival.

(** ** Scenarios on gemini.py *)

Module GeminiRuns.
Import Gemini GeminiSpec.

(** A frame without events in which the spawn timer may fire. *)
Definition quiet (due : bool) (c : Colour) (x0 : Z) : Input :=
  {| events := []; spawn_due := due; draw_type := circle;
     draw_color := c; draw_x := x0 |}.

(** [game_loop] from its first line, over the given frames. *)
Definition play (f : File) (inps : list Input) : Result State :=
  st <- game_loop_entry f ;; run st inps.

(** The state a run ends in; [game_loop]'s starting state, with the flag set,
    stands in for a run that raised. *)
Definition stopped : State :=
  {| game_over := true; score := 0; high_score := 0; lives := 3;
     shape_speed := 5; zones := initial_zones; zone_position := 1;
     shapes := []; file := None; sounds := []; fresh := 0%nat |}.

Definition final (f : File) (inps : list Input) : State :=
  match play f inps with
  | Ok st => st
  | Raise _ => stopped
  end.

(** [n] frames; a shape of colour [c] is spawned at [x0] in each of the first
    [m] of them. *)
Definition stream (m : nat) (c : Colour) (x0 : Z) (n : nat) : list Input :=
  map (fun k => quiet (Nat.ltb k m) c x0) (seq 0 n).

(** Three red shapes in the middle column, where the green zone stands: each
    is a wrong match, and the third ends the game with no point scored. *)
Definition three_wrong : list Input := stream 3 RED 250 153.

(** One green shape in the middle column, where the green zone stands: it is
    0 pixels into the zone row after 150 frames and matched in the next. *)
Definition one_right (n : nat) : list Input := stream 1 GREEN 250 n.

(** One red shape in the left column, where the red zone stands. *)
Definition one_left (n : nat) : list Input := stream 1 RED 50 n.

End GeminiRuns.

(** ** A scenario on chatgpt.py: one slow frame *)

Module Stutter.
Import Chatgpt.

(** Frame [k] of a game that runs at 17 ms a frame, apart from frame 568,
    which takes 389 ms.  A key press in frame 0 starts the game; the collector
    is never moved, so green is the centre colour throughout.  The spawn timer
    fires in frames 59, 118, ..., 531, then in frame 568 and every 59 frames
    after it.  The shapes spawned in frames 354, 413, 531 and 568 are red, all
    others green. *)
Definition frame_input (k : nat) : Input :=
  let t := 17 * Z.of_nat k + (if Nat.leb 568 k then 372 else 0) in
  {| events := if Nat.eqb k 0 then [KEYDOWN K_SPACE] else [];
     ticks_at_events := t;
     current_time := t;
     draw_colour := if (Nat.eqb k 354 || Nat.eqb k 413 || Nat.eqb k 531
                        || Nat.eqb k 568)%bool then RED else GREEN;
     draw_shape_type := circle;
     draw_x := 300 |}.

(** The state after frames 0 .. k-1, started without a high-score file. *)
Definition after (k : nat) : State :=
  run (initial None 0) (map frame_input (seq 0 k)).

End Stutter.

(** ** A scenario on gemini.py: two misses in one frame *)

Module DoubleMiss.
Import Gemini.

(** Frame [k].  A press of LEFT in frame 0 puts the zones at the left end, so
    that no zone stands under the columns from x = 400 on.  Red shapes are
    spawned at x = 100, above the green zone, in frames 0, 90 and 198, and one
    shape at x = 450 in frame 180 (the spawn timer fires 18 frames later: those
    frames took 1.5 s together). *)
Definition frame_input (k : nat) : Input :=
  {| events := if Nat.eqb k 0 then [KEYDOWN K_LEFT] else [];
     spawn_due := (Nat.eqb k 0 || Nat.eqb k 90 || Nat.eqb k 180 || Nat.eqb k 198)%bool;
     draw_type := circle;
     draw_color := RED;
     draw_x := if Nat.eqb k 180 then 450 else 100 |}.

Definition inputs (k : nat) : list Input := map frame_input (seq 0 k).

Definition after (k : nat) : Result State := GeminiRuns.play None (inputs k).

End DoubleMiss.

(** ** Scenarios for the off-screen branches *)

Module Fallthrough.
Import Gemini.

(** gemini.py, frame [k]: a press of LEFT in frame 0 puts the zones at the
    left end, and the one shape of the game is spawned at x = 450, where no
    zone stands.  It falls past the zone row and is at y = 800 after 168
    frames. *)
Definition frame_input (k : nat) : Input :=
  {| events := if Nat.eqb k 0 then [KEYDOWN K_LEFT] else [];
     spawn_due := Nat.eqb k 0;
     draw_type := square; draw_color := BLUE; draw_x := 450 |}.

Definition inputs (k : nat) : list Input := map frame_input (seq 0 k).

(** The shape in the frame that finds it below the screen. *)
Definition lost : Shape :=
  {| obj := 0%nat; s_type := square; s_color := BLUE;
     s_rect := Rect.mk 450 805 shape_size shape_size |}.

End Fallthrough.

Module LowCollector.
Import Chatgpt.

(** chatgpt.py: a state [main] never builds, with the collector row placed
    below the screen (y = 900), and one shape about to leave the screen. *)
Definition state : State :=
  {| running := true; high_score := 0; game_state := STATE_PLAYING;
     collector := {| CollectorZones.index := 0; CollectorZones.x := 200;
                     CollectorZones.y := 900;
                     CollectorZones.colours := COLOUR_LIST |};
     shapes := [ {| FallingShape.ident := 0%nat; FallingShape.colour := RED;
                    FallingShape.shape_type := circle; FallingShape.x := 300;
                    FallingShape.y := 828; FallingShape.speed := 3;
                    FallingShape.size := 30 |} ];
     score := 0; lives := 3; current_fall_speed := 3; last_spawn_time := 0;
     file := None; sounds := []; fresh := 1%nat |}.

Definition idle : Input :=
  {| events := []; ticks_at_events := 16; current_time := 16;
     draw_colour := RED; draw_shape_type := circle; draw_x := 300 |}.

(** The shape after the movement of the frame. *)
Definition below : FallingShape.t :=
  {| FallingShape.ident := 0%nat; FallingShape.colour := RED;
     FallingShape.shape_type := circle; FallingShape.x := 300;
     FallingShape.y := (828 + 3)%Q; FallingShape.speed := 3;
     FallingShape.size := 30 |}.

End LowCollector.

(** ** The zone-row contract, as stated for one active colour (gemini.py) *)

Module ZoneRowContract.
Import Gemini GeminiSpec.

(** The state a frame ends in; see [GeminiRuns.stopped]. *)
Definition next (st : State) (inp : Input) : State :=
  match frame st inp with
  | Ok st' => st'
  | Raise _ => GeminiRuns.stopped
  end.

(** The lower edge of the shape has reached or passed the upper edge of the
    zone row. *)
Definition at_zone_row (shape : Shape) : bool :=
  Rect.y (s_rect shape) + Rect.height (s_rect shape) >=? screen_height - zone_height.

(** The contract with one active colour, determined by the rotation of the
    zones: the only live shape, once at the zone row, scores when it has that
    colour and costs a life when it has not. *)
Definition contract (active : Z -> Colour) : Prop :=
  forall (st st' : State) (inp : Input) (shape : Shape),
    reachable st ->
    frame st inp = Ok st' ->
    shapes (before_collisions st inp) = [shape] ->
    at_zone_row shape = true ->
    if colour_eqb (s_color shape) (active (zone_position (before_collisions st inp)))
    then score st' = score st + 1 /\ lives st' = lives st
    else score st' = score st /\ lives st' = lives st - 1.

(** The shapes of the two runs [one_left] and [one_right] in frame 150. *)
Definition red_on_the_left : Shape :=
  {| obj := 0%nat; s_type := circle; s_color := RED;
     s_rect := Rect.mk 50 715 shape_size shape_size |}.

Definition green_in_the_middle : Shape :=
  {| obj := 0%nat; s_type := circle; s_color := GREEN;
     s_rect := Rect.mk 250 715 shape_size shape_size |}.

End ZoneRowContract.

Module FirstArrival.
Import Chatgpt.

(** chatgpt.py: the first shape of the game with one slow frame, as the
    collision loop of frame 315 finds it. *)
Definition shape : FallingShape.t :=
  {| FallingShape.ident := 0%nat; FallingShape.colour := GREEN;
     FallingShape.shape_type := circle; FallingShape.x := 300;
     FallingShape.y := 721; FallingShape.speed := 3; FallingShape.size := 30 |}.

End FirstArrival.

(** ** Scenarios for the fall speed *)

Module SpeedUp.
Import Gemini.

(** gemini.py, frame [k]: green shapes in the middle column in frames 0 to
    19, each matched 150 frames later, and one red shape in frame 100.  The
    twentieth match, in frame 169, raises [shape_speed] from 5 to 6. *)
Definition frame_input (k : nat) : Input :=
  {| events := [];
     spawn_due := (Nat.ltb k 20 || Nat.eqb k 100)%bool;
     draw_type := circle;
     draw_color := if Nat.eqb k 100 then RED else GREEN;
     draw_x := 250 |}.

Definition inputs (k : nat) : list Input := map frame_input (seq 0 k).

(** Speed, and identity and ordinate of every live shape. *)
Definition view (st : State) : Z * list (nat * Z) :=
  (shape_speed st, map (fun s => (obj s, Rect.y (s_rect s))) (shapes st)).

(** chatgpt.py: the shape spawned in frame 568 of the game with one slow
    frame, after the fifth match has raised the speed to 3.5, as that frame
    leaves it. *)
Definition newcomer : Chatgpt.FallingShape.t :=
  {| Chatgpt.FallingShape.ident := 9%nat; Chatgpt.FallingShape.colour := RED;
     Chatgpt.FallingShape.shape_type := circle; Chatgpt.FallingShape.x := 300;
     Chatgpt.FallingShape.y := -93 # 2; Chatgpt.FallingShape.speed := 7 # 2;
     Chatgpt.FallingShape.size := 30 |}.

End SpeedUp.

(** Closed facts about concrete runs are settled by evaluation, conjunct by
    conjunct. *)
Ltac by_evaluation :=
  repeat match goal with |- _ /\ _ => split end; vm_compute; reflexivity.

(** * More of the two programs *)

From Stdlib Require DecimalPos.

(** ** The text of a number *)

(** The characters of a string of decimal digits. *)
Definition chars (d : Decimal.uint) : list ascii :=
  list_ascii_of_string (NilEmpty.string_of_uint d).

Definition is_digit (c : ascii) : bool :=
  match digit_of c with Some _ => true | None => false end.


(** ** chatgpt.py: [CollectorZones.draw] *)

Module ChatgptDraw.
Import Chatgpt.

(** A call [pygame.draw.rect(surface, colour, (left, top, width, height))]. *)
Record RectCall : Set := mkRectCall {
  fill : Colour;
  left : Z;
  top : Z;
  width : Z;
  height : Z
}.

(** [CollectorZones.draw]: the calls it makes, for [i] in [range(3)]. *)
Definition draw (self : CollectorZones.t) : list RectCall :=
  map (fun i =>
         {| fill := nth (Z.to_nat ((CollectorZones.index self + i) mod 3))
                        (CollectorZones.colours self) RED;
            left := CollectorZones.x self + i * ZONE_WIDTH;
            top := CollectorZones.y self;
            width := ZONE_WIDTH;
            height := ZONE_HEIGHT |})
      [0; 1; 2].

(** The collector as [main] keeps it: the colour list and the place of
    [__init__], and an index in 0..2. *)
Definition well_placed (c : CollectorZones.t) : Prop :=
  CollectorZones.colours c = COLOUR_LIST /\
  CollectorZones.x c = WIDTH / 2 - ZONE_WIDTH /\
  CollectorZones.y c = HEIGHT - BOTTOM_MARGIN /\
  0 <= CollectorZones.index c < 3.

End ChatgptDraw.

(** ** gemini.py: sounds and the title screen *)

Module GeminiIntro.

(** The module-level variables [sound_on], [match_sound], [wrong_match_sound]
    and [game_over_sound]; a sound object is [None] or a loaded sample. *)
Record Audio : Set := mkAudio {
  sound_on : bool;
  match_sound : option Notification;
  wrong_match_sound : option Notification;
  game_over_sound : option Notification
}.

(** [sound_on = False] as the module sets it before loading. *)
Definition sound_on_at_import : bool := false.

(** The block [if sound_on: try: ... except pygame.error: ... else: ...] run
    at import; [files_load] says whether the three [pygame.mixer.Sound] calls
    succeed. *)
Definition load_sounds (files_load : bool) : Audio :=
  if sound_on_at_import then
    if files_load then
      {| sound_on := true; match_sound := Some OnMatch;
         wrong_match_sound := Some OnMiss; game_over_sound := Some OnGameOver |}
    else
      {| sound_on := false; match_sound := None;
         wrong_match_sound := None; game_over_sound := None |}
  else
    {| sound_on := sound_on_at_import; match_sound := None;
       wrong_match_sound := None; game_over_sound := None |}.

(** [play_sound(sound)]: the samples actually played. *)
Definition play_sound (a : Audio) (sound : option Notification) : list Notification :=
  if sound_on a then
    match sound with
    | Some s => [s]
    | None => []
    end
  else [].

(** Where [game_intro] stands: still in its loop, with the flag [intro], or
    out of the program through [pygame.quit(); quit()]. *)
Inductive Intro : Set :=
| Showing (a : Audio) (intro : bool)
| Exited.

(** The body of [for event in pygame.event.get()] in [game_intro]. *)
Definition intro_event (s : Intro) (ev : Event) : Intro :=
  match s with
  | Exited => Exited
  | Showing a intro =>
      match ev with
      | QUIT => Exited
      | KEYDOWN K_SPACE => Showing a false
      | KEYDOWN K_s =>
          Showing {| sound_on := negb (sound_on a); match_sound := match_sound a;
                     wrong_match_sound := wrong_match_sound a;
                     game_over_sound := game_over_sound a |} intro
      | _ => s
      end
  end.

(** [game_intro] over the event batches of successive passes of its loop. *)
Fixpoint game_intro (a : Audio) (batches : list (list Event)) : Intro :=
  match batches with
  | [] => Showing a true
  | evs :: rest =>
      match fold_left intro_event evs (Showing a true) with
      | Showing a' true => game_intro a' rest
      | other => other
      end
  end.

Definition is_s (ev : Event) : bool :=
  match ev with KEYDOWN K_s => true | _ => false end.

Definition is_space_press (ev : Event) : bool :=
  match ev with KEYDOWN K_SPACE => true | _ => false end.

(** The events [game_intro] gets to handle: every batch up to and including
    the first one that holds a press of SPACE, each batch to its end. *)
Fixpoint handled (batches : list (list Event)) : list Event :=
  match batches with
  | [] => []
  | evs :: rest => if existsb is_space_press evs then evs else evs ++ handled rest
  end.

(** The audio variables with [sound_on] set to [on]. *)
Definition with_sound (a : Audio) (on : bool) : Audio :=
  {| sound_on := on; match_sound := match_sound a;
     wrong_match_sound := wrong_match_sound a;
     game_over_sound := game_over_sound a |}.

(** The number of presses of S among the events. *)
Definition presses_of_s (evs : list Event) : nat := List.length (filter is_s evs).

End GeminiIntro.

(** ** gemini.py: [draw_collector_zones] *)

Module GeminiDraw.
Import Gemini.

(** The calls [pygame.draw.rect(screen, zone["color"], zone["rect"])], in the
    order of the list. *)
Definition draw_collector_zones (zs : list Zone) : list (Colour * Rect.t) :=
  map (fun zone => (color zone, rect zone)) zs.

End GeminiDraw.

(** ** Vocabulary of the further statements *)

Module More.

(** chatgpt.py: the speed the score stands for, [3 + 0.5 * (score // 5)]. *)
Definition chatgpt_speed_of (score : Z) : Q :=
  (Chatgpt.SHAPE_FALL_SPEED
   + inject_Z (score / Chatgpt.SPEED_INCREMENT_INTERVAL) * Chatgpt.SPEED_INCREMENT_AMOUNT)%Q.

(** chatgpt.py: the file holds the high score, and the fall speed is the one
    the score stands for. *)
Definition in_step (st : Chatgpt.State) : Prop :=
  Chatgpt.load_high_score (Chatgpt.file st) = Chatgpt.high_score st /\
  (Chatgpt.current_fall_speed st == chatgpt_speed_of (Chatgpt.score st))%Q.

(** gemini.py: [5 + score // 20]. *)
Definition gemini_speed_of (score : Z) : Z := 5 + score / Gemini.speed_increase_interval.

(** gemini.py: a shape of the spawner's size somewhere on the screen, with
    its lower part inside the zone row. *)
Definition in_the_row (shape : Gemini.Shape) : Prop :=
  Gemini.Rect.width (Gemini.s_rect shape) = Gemini.shape_size /\
  Gemini.Rect.height (Gemini.s_rect shape) = Gemini.shape_size /\
  0 <= Gemini.Rect.x (Gemini.s_rect shape) <= Gemini.screen_width - Gemini.shape_size /\
  Gemini.screen_height - Gemini.zone_height - Gemini.shape_size
    < Gemini.Rect.y (Gemini.s_rect shape) < Gemini.screen_height.

(** gemini.py: the zones as the frame lays them out for a position. *)
Definition zones_at (position : Z) : list Gemini.Zone :=
  Gemini.place_zones position 0 Gemini.initial_zones.

(** gemini.py: the colour of the zone that judges a shape with left edge
    [x0] in the zone row, by zone position: the leftmost zone the shape
    reaches into, if any. *)
Definition zone_under (position x0 : Z) : option Colour :=
  match position with
  | 0 => if x0 <? 200 then Some GREEN else if x0 <? 400 then Some BLUE else None
  | 1 => if x0 <? 200 then Some RED else if x0 <? 400 then Some GREEN else Some BLUE
  | _ => if x0 <=? 160 then None else if x0 <? 400 then Some RED else Some GREEN
  end.

(** gemini.py: the speed is the one the score stands for, and the zones are
    laid out for the current position. *)
Definition laid_out (st : Gemini.State) : Prop :=
  Gemini.shape_speed st = gemini_speed_of (Gemini.score st) /\
  Gemini.zones st = zones_at (Gemini.zone_position st).


End More.
(** * chatgpt.py: properties of the collision and removal loops *)

Section ChatgptLoops.
Import Chatgpt ChatgptSpec.

Variable c : CollectorZones.t.

Lemma check_shape_verdict (a : Tally) (shape : FallingShape.t) :
  let a' := check_shape c a shape in
  t_score a' = t_score a + (if verdict_eqb (verdict c shape) Matched then 1 else 0) /\
  t_lives a' = t_lives a - (if verdict_eqb (verdict c shape) Mismatched then 1 else 0)
                         - (if verdict_eqb (verdict c shape) MissedBelow then 1 else 0) /\
  t_sounds a' = t_sounds a ++ request c shape /\
  to_remove a' = to_remove a ++ (if resolved c shape then [shape] else []).
Proof.
  unfold check_shape, verdict, request, resolved, verdict.
  destruct (reaches_zone c shape).
  - destruct (colour_eqb _ _); cbn; repeat split; lia.
  - destruct (FallingShape.is_off_screen shape); cbn; repeat split;
      try lia; now rewrite ?app_nil_r.
Qed.

Lemma collision_loop (l : list FallingShape.t) (a : Tally) :
  let a' := fold_left (check_shape c) l a in
  t_score a' = t_score a + tally Matched c l /\
  t_lives a' = t_lives a - tally Mismatched c l - tally MissedBelow c l /\
  t_sounds a' = t_sounds a ++ flat_map (request c) l /\
  to_remove a' = to_remove a ++ filter (resolved c) l.
Proof.
  revert a; induction l as [|shape l IH]; intros a.
  - cbn. unfold tally; cbn. rewrite !app_nil_r. repeat split; lia.
  - cbn [fold_left].
    destruct (IH (check_shape c a shape)) as (Hs & Hl & Hn & Hr).
    destruct (check_shape_verdict a shape) as (Hs1 & Hl1 & Hn1 & Hr1).
    cbv zeta in *. rewrite Hs, Hl, Hn, Hr, Hs1, Hl1, Hn1, Hr1.
    unfold tally; cbn [filter flat_map]. unfold resolved.
    destruct (verdict c shape); cbn [verdict_eqb negb List.length];
      rewrite <- ?app_assoc; cbn [app]; repeat split; lia.
Qed.

End ChatgptLoops.

Section ChatgptRemoval.
Import Chatgpt ChatgptSpec.

Lemma NoDup_map_In_eq {A B : Type} (f : A -> B) (l : list A) (a b : A) :
  NoDup (map f l) -> In a l -> In b l -> f a = f b -> a = b.
Proof.
  induction l as [|h r IH]; cbn; intros Hnd Ha Hb Hf; [contradiction|].
  inversion Hnd as [|? ? Hnotin Hnd']; subst.
  destruct Ha as [<-|Ha], Hb as [<-|Hb]; auto.
  - exfalso; apply Hnotin. rewrite Hf. now apply in_map.
  - exfalso; apply Hnotin. rewrite <- Hf. now apply in_map.
Qed.

Lemma filter_keeps_distinct (keep : FallingShape.t -> bool) (l : list FallingShape.t) :
  NoDup (map FallingShape.ident l) ->
  NoDup (map FallingShape.ident (filter keep l)).
Proof.
  set (p := keep). set (f := FallingShape.ident).
  induction l as [|h r IH]; cbn; intros Hnd; [constructor|].
  inversion Hnd as [|? ? Hnotin Hnd']; subst.
  destruct (p h); cbn; auto.
  constructor; auto.
  intros Hin. apply Hnotin.
  apply in_map_iff in Hin as (s & Hs & Hin). apply filter_In in Hin as [Hin _].
  rewrite <- Hs. now apply in_map.
Qed.

Lemma same_object_spec (a b : FallingShape.t) :
  same_object a b = true <-> FallingShape.ident a = FallingShape.ident b.
Proof. unfold same_object. apply Nat.eqb_eq. Qed.

Lemma remove_one_object (g : FallingShape.t) (l : list FallingShape.t) :
  NoDup (map FallingShape.ident l) ->
  (if existsb (same_object g) l then remove_object g l else l)
  = filter (fun s => negb (same_object g s)) l.
Proof.
  induction l as [|h r IH]; intros Hnd; [reflexivity|].
  inversion Hnd as [|? ? Hnotin Hnd']; subst.
  cbn [existsb remove_object filter].
  destruct (same_object g h) eqn:Hgh; cbn [orb negb].
  - symmetry. apply same_object_spec in Hgh.
    rewrite <- (filter_ext_in (fun _ => true)).
    + clear. induction r as [|a r IHr]; cbn; congruence.
    + intros s Hs. symmetry. apply negb_true_iff.
      destruct (same_object g s) eqn:Hgs; [|reflexivity].
      apply same_object_spec in Hgs. exfalso. apply Hnotin.
      rewrite <- Hgh, Hgs. now apply in_map.
  - rewrite <- (IH Hnd'). now destruct (existsb (same_object g) r).
Qed.

Lemma remove_all_filter (gone l : list FallingShape.t) :
  NoDup (map FallingShape.ident l) ->
  remove_all gone l
  = filter (fun s => negb (existsb (fun g => same_object g s) gone)) l.
Proof.
  unfold remove_all. revert l; induction gone as [|g gone IH]; intros l Hnd.
  - cbn. symmetry. clear. induction l as [|a r IHr]; cbn; congruence.
  - cbn [fold_left]. rewrite remove_one_object by assumption.
    rewrite IH by now apply filter_keeps_distinct.
    clear. induction l as [|a r IHr]; [reflexivity|].
    cbn [filter existsb]. destruct (same_object g a); cbn [negb orb filter].
    + exact IHr.
    + now rewrite IHr.
Qed.

(** The removal loop keeps exactly the shapes the collision loop left
    alone. *)
Lemma remove_resolved (c : CollectorZones.t) (l : list FallingShape.t) :
  NoDup (map FallingShape.ident l) ->
  remove_all (filter (resolved c) l) l = filter (fun s => negb (resolved c s)) l.
Proof.
  intros Hnd. rewrite remove_all_filter by assumption.
  apply filter_ext_in. intros s Hs. f_equal.
  destruct (resolved c s) eqn:Hr.
  - apply existsb_exists. exists s. split.
    + apply filter_In; auto.
    + now apply same_object_spec.
  - apply not_true_is_false. intros Hex.
    apply existsb_exists in Hex as (g & Hg & Hsame).
    apply filter_In in Hg as [Hg Hrg]. apply same_object_spec in Hsame.
    assert (g = s) by (eapply NoDup_map_In_eq; eauto). congruence.
Qed.

(** The collision and removal loops of one frame, as totals over the live
    list. *)
Lemma resolve_shapes_spec (st : State) :
  NoDup (map FallingShape.ident (shapes st)) ->
  let c := collector st in
  let st' := resolve_shapes st in
  score st' = score st + tally Matched c (shapes st) /\
  lives st' = lives st - tally Mismatched c (shapes st) - tally MissedBelow c (shapes st) /\
  sounds st' = sounds st ++ flat_map (request c) (shapes st) /\
  shapes st' = filter (fun s => negb (resolved c s)) (shapes st).
Proof.
  intros Hnd. cbv zeta. unfold resolve_shapes; cbn [score lives sounds shapes].
  match goal with |- context [fold_left ?f ?l ?a] =>
    destruct (collision_loop (collector st) l a) as (Hs & Hl & Hn & Hr) end.
  cbv zeta in *. cbn [t_score t_lives t_sounds to_remove app] in *.
  rewrite Hs, Hl, Hn, Hr. repeat split.
  now apply remove_resolved.
Qed.

End ChatgptRemoval.

(** * chatgpt.py: what every reachable state satisfies *)

Section ChatgptInvariant.
Import Chatgpt ChatgptSpec ChatgptInv.

Lemma tally_nonneg (v : Verdict) (c : CollectorZones.t) (l : list FallingShape.t) :
  0 <= tally v c l.
Proof. unfold tally. lia. Qed.

Lemma handle_event_invariant (ticks : Z) (st : State) (ev : Event) :
  invariant st -> invariant (handle_event ticks st ev).
Proof.
  unfold invariant, distinct_objects, NUM_LIVES.
  intros (Hd & Hl & Hp & Hg & Hs).
  destruct ev as [|key|]; cbn; auto.
  destruct (game_state st) eqn:Hgs.
  - cbn. repeat split; try constructor; try lia; try discriminate.
  - destruct key; cbn; rewrite ?Hgs; auto.
  - destruct key; cbn; rewrite ?Hgs; auto.
    repeat split; try tauto; try lia; try discriminate.
Qed.

Lemma handle_events_invariant (inp : Input) (st : State) :
  invariant st -> invariant (handle_events inp st).
Proof.
  unfold handle_events. generalize (events inp) as evs.
  intros evs; revert st; induction evs as [|ev evs IH]; cbn; intros st H; auto.
  apply IH. now apply handle_event_invariant.
Qed.

Lemma spawn_distinct (inp : Input) (st : State) :
  distinct_objects st -> distinct_objects (spawn inp st).
Proof.
  unfold distinct_objects, spawn. intros [Hnd Hlt].
  destruct (_ >? _); cbn; [|auto]. split.
  - rewrite map_app; cbn. apply NoDup_app_remove_l with (l := []); cbn.
    apply Permutation_NoDup with (l := fresh st :: map FallingShape.ident (shapes st)).
    + apply Permutation_cons_append.
    + constructor; auto. intros Hin. apply in_map_iff in Hin as (s & Hs & Hin).
      rewrite Forall_forall in Hlt. specialize (Hlt s Hin). lia.
  - apply Forall_app. split.
    + eapply Forall_impl; [|exact Hlt]. cbn; intros; lia.
    + constructor; [cbn; lia|constructor].
Qed.

Lemma update_shapes_distinct (st : State) :
  distinct_objects st -> distinct_objects (update_shapes st).
Proof.
  unfold distinct_objects, update_shapes; cbn. intros [Hnd Hlt]. split.
  - now rewrite map_map; cbn.
  - apply Forall_map. exact Hlt.
Qed.

Lemma resolve_shapes_distinct (st : State) :
  distinct_objects st -> distinct_objects (resolve_shapes st).
Proof.
  intros [Hnd Hlt]. destruct (resolve_shapes_spec st Hnd) as (_ & _ & _ & Hsh).
  cbv zeta in Hsh. unfold distinct_objects. rewrite Hsh. split.
  - now apply filter_keeps_distinct.
  - unfold resolve_shapes; cbn [fresh]. rewrite Forall_forall in *.
    intros s Hs. apply filter_In in Hs as [Hs _]. auto.
Qed.

Lemma update_logic_invariant (inp : Input) (st : State) :
  invariant st -> invariant (update_logic inp st).
Proof.
  intros Hinv. unfold update_logic. destruct (game_state st) eqn:Hgs; auto.
  destruct Hinv as (Hd & Hl & Hp & Hg & Hs).
  set (st1 := update_shapes (spawn inp st)).
  assert (Hd1 : distinct_objects st1)
    by now apply update_shapes_distinct, spawn_distinct.
  assert (Hl1 : lives st1 = lives st /\ score st1 = score st /\
                game_state st1 = STATE_PLAYING).
  { unfold st1, update_shapes, spawn. destruct (_ >? _); cbn; auto. }
  destruct Hl1 as (Hl1 & Hs1 & Hg1).
  pose proof (resolve_shapes_distinct st1 Hd1) as Hd2.
  destruct (resolve_shapes_spec st1 (proj1 Hd1)) as (Hs2 & Hl2 & _ & _).
  cbv zeta in *.
  pose proof (tally_nonneg Matched (collector st1) (shapes st1)).
  pose proof (tally_nonneg Mismatched (collector st1) (shapes st1)).
  pose proof (tally_nonneg MissedBelow (collector st1) (shapes st1)).
  assert (Hg2 : game_state (resolve_shapes st1) = STATE_PLAYING) by exact Hg1.
  remember (resolve_shapes st1) as st2 eqn:E; clear E.
  unfold invariant, check_game_over, distinct_objects in *.
  destruct (lives st2 <=? 0) eqn:Hle; cbn.
  - apply Z.leb_le in Hle. repeat split; try tauto; try lia; discriminate.
  - apply Z.leb_gt in Hle. repeat split; try tauto; try lia.
    rewrite Hg2; discriminate.
Qed.

Lemma frame_invariant (st : State) (inp : Input) :
  invariant st -> invariant (frame st inp).
Proof.
  intros H. now apply update_logic_invariant, handle_events_invariant.
Qed.

Lemma reachable_invariant (st : State) : reachable st -> invariant st.
Proof.
  induction 1 as [f ticks|st inp _ IH _].
  - unfold invariant, distinct_objects, initial, NUM_LIVES; cbn.
    repeat split; try constructor; try lia; discriminate.
  - now apply frame_invariant.
Qed.

Lemma reachable_run (st : State) (inps : list Input) :
  reachable st -> reachable (run st inps).
Proof.
  revert st; induction inps as [|inp rest IH]; cbn; intros st H; auto.
  destruct (running st) eqn:Hr; auto.
  apply IH. now constructor.
Qed.

End ChatgptInvariant.

(** * chatgpt.py: one frame of play *)

Section ChatgptFrame.
Import Chatgpt ChatgptSpec ChatgptInv.

Lemma spawn_keeps (inp : Input) (st : State) :
  let st' := spawn inp st in
  game_state st' = game_state st /\ collector st' = collector st /\
  score st' = score st /\ lives st' = lives st /\ sounds st' = sounds st /\
  high_score st' = high_score st /\ file st' = file st /\
  current_fall_speed st' = current_fall_speed st /\ running st' = running st.
Proof. cbv zeta. unfold spawn. destruct (_ >? _); cbn; tauto. Qed.

Lemma handle_events_distinct (inp : Input) (st : State) :
  distinct_objects st -> distinct_objects (handle_events inp st).
Proof.
  unfold handle_events. generalize (events inp) as evs.
  intros evs; revert st; induction evs as [|ev evs IH]; cbn; auto.
  intros st Hd. apply IH. unfold distinct_objects in *.
  destruct ev as [|key|]; cbn; auto.
  destruct (game_state st); [|destruct key; cbn; auto ..].
  cbn. split; constructor.
Qed.

(** The update logic of a frame that is in play once its events are handled:
    totals over the live list, the survivors, the sounds, and the state the
    frame ends in. *)
Lemma frame_playing (st : State) (inp : Input) :
  distinct_objects st ->
  game_state (handle_events inp st) = STATE_PLAYING ->
  let st0 := handle_events inp st in
  let c := collector st0 in
  let live := live_shapes st inp in
  let st' := frame st inp in
  score st' = score st0 + tally Matched c live /\
  lives st' = lives st0 - tally Mismatched c live - tally MissedBelow c live /\
  shapes st' = filter (fun s => negb (resolved c s)) live /\
  sounds st' = sounds st0 ++ flat_map (request c) live
                 ++ (if lives st' <=? 0 then [OnGameOver] else []) /\
  game_state st' = (if lives st' <=? 0 then STATE_GAMEOVER else STATE_PLAYING).
Proof.
  intros Hd Hplay. cbv zeta. unfold frame, update_logic, live_shapes.
  rewrite Hplay.
  assert (Hd0 : distinct_objects (handle_events inp st))
    by now apply handle_events_distinct.
  remember (handle_events inp st) as st0 eqn:E; clear E.
  destruct (spawn_keeps inp st0) as (Hg & Hc & Hs & Hl & Hn & _).
  cbv zeta in *.
  assert (Hd1 : distinct_objects (update_shapes (spawn inp st0)))
    by now apply update_shapes_distinct, spawn_distinct.
  destruct (resolve_shapes_spec _ (proj1 Hd1)) as (Hs2 & Hl2 & Hn2 & Hsh2).
  cbv zeta in *.
  change (collector (update_shapes (spawn inp st0))) with (collector (spawn inp st0)) in *.
  change (score (update_shapes (spawn inp st0))) with (score (spawn inp st0)) in *.
  change (lives (update_shapes (spawn inp st0))) with (lives (spawn inp st0)) in *.
  change (sounds (update_shapes (spawn inp st0))) with (sounds (spawn inp st0)) in *.
  rewrite Hc, ?Hs, ?Hl, ?Hn in *.
  assert (Hg2 : game_state (resolve_shapes (update_shapes (spawn inp st0))) = STATE_PLAYING)
    by (cbn; congruence).
  remember (resolve_shapes (update_shapes (spawn inp st0))) as st2 eqn:E; clear E.
  unfold check_game_over.
  destruct (lives st2 <=? 0) eqn:Hle; cbn [score lives shapes sounds game_state];
    rewrite ?Hle, ?app_nil_r; repeat split; try congruence.
  rewrite Hn2. now rewrite app_assoc.
Qed.

(** While the game is in play, handling events changes neither score nor
    lives nor the live list: only the collector moves. *)
Lemma handle_events_playing (st : State) (inp : Input) :
  game_state st = STATE_PLAYING ->
  let st0 := handle_events inp st in
  game_state st0 = STATE_PLAYING /\ score st0 = score st /\ lives st0 = lives st /\
  shapes st0 = shapes st /\ sounds st0 = sounds st /\
  high_score st0 = high_score st /\ file st0 = file st /\
  current_fall_speed st0 = current_fall_speed st /\ fresh st0 = fresh st.
Proof.
  cbv zeta. unfold handle_events. generalize (events inp) as evs.
  intros evs; revert st; induction evs as [|ev evs IH]; cbn; intros st Hg.
  - tauto.
  - assert (H : let s := handle_event (ticks_at_events inp) st ev in
               game_state s = STATE_PLAYING /\ score s = score st /\
               lives s = lives st /\ shapes s = shapes st /\ sounds s = sounds st /\
               high_score s = high_score st /\ file s = file st /\
               current_fall_speed s = current_fall_speed st /\ fresh s = fresh st).
    { cbv zeta. destruct ev as [|key|]; cbn; rewrite ?Hg; try tauto.
      destruct key; cbn; tauto. }
    cbv zeta in H. destruct H as (H0 & H1 & H2 & H3 & H4 & H5 & H6 & H7 & H8).
    rewrite <- H1, <- H2, <- H3, <- H4, <- H5, <- H6, <- H7, <- H8. now apply IH.
Qed.

End ChatgptFrame.

(** * chatgpt.py: where the shapes of a frame come from and go *)

Section ChatgptShapes.
Import Chatgpt ChatgptSpec ChatgptInv.

Lemma handle_events_shapes (inp : Input) (st : State) :
  let st0 := handle_events inp st in
  (shapes st0 = shapes st \/ shapes st0 = []) /\ fresh st0 = fresh st.
Proof.
  cbv zeta. unfold handle_events. generalize (events inp) as evs.
  intros evs; revert st; induction evs as [|ev evs IH]; cbn; intros st; [auto|].
  destruct (IH (handle_event (ticks_at_events inp) st ev)) as [Hs Hf].
  assert (H : (shapes (handle_event (ticks_at_events inp) st ev) = shapes st \/
               shapes (handle_event (ticks_at_events inp) st ev) = []) /\
              fresh (handle_event (ticks_at_events inp) st ev) = fresh st).
  { destruct ev as [|key|]; cbn; auto.
    destruct (game_state st); [cbn; auto|destruct key; cbn; auto ..]. }
  destruct H as [Hs1 Hf1]. rewrite Hf, Hf1. split; [|reflexivity].
  destruct Hs as [->| ->]; auto.
Qed.

Lemma live_shapes_spec (st : State) (inp : Input) :
  let st0 := handle_events inp st in
  live_shapes st inp
  = map FallingShape.update
      (shapes st0 ++
       if current_time inp - last_spawn_time st0 >? SHAPE_SPAWN_INTERVAL
       then [FallingShape.init (fresh st0) (draw_colour inp) (draw_shape_type inp)
               (draw_x inp) (current_fall_speed st0)]
       else []).
Proof.
  cbv zeta. unfold live_shapes, update_shapes, spawn.
  destruct (_ >? _); cbn; [reflexivity|now rewrite app_nil_r].
Qed.

Lemma live_shapes_distinct (st : State) (inp : Input) :
  distinct_objects st ->
  NoDup (map FallingShape.ident (live_shapes st inp)).
Proof.
  intros Hd. unfold live_shapes.
  now apply update_shapes_distinct, spawn_distinct, handle_events_distinct.
Qed.

(** A frame leaves the live list alone when the game is not in play;
    otherwise every shape it leaves is the moved copy of a shape that was
    there, or of the one shape spawned in this frame at the current speed. *)
Lemma frame_shapes_origin (st : State) (inp : Input) (s' : FallingShape.t) :
  distinct_objects st ->
  In s' (shapes (frame st inp)) ->
  let st0 := handle_events inp st in
  (game_state st0 <> STATE_PLAYING /\ In s' (shapes st)) \/
  (game_state st0 = STATE_PLAYING /\
   ((exists s0, In s0 (shapes st) /\ s' = FallingShape.update s0) \/
    ((current_time inp - last_spawn_time st0 >? SHAPE_SPAWN_INTERVAL) = true /\
     s' = FallingShape.update
            (FallingShape.init (fresh st) (draw_colour inp) (draw_shape_type inp)
               (draw_x inp) (current_fall_speed st0))))).
Proof.
  intros Hd Hin. cbv zeta.
  destruct (handle_events_shapes inp st) as [Hsh Hfr]. cbv zeta in *.
  destruct (game_state (handle_events inp st)) eqn:Hg.
  - left. split; [discriminate|].
    unfold frame, update_logic in Hin. rewrite Hg in Hin.
    destruct Hsh as [E|E]; rewrite E in Hin; [exact Hin|contradiction].
  - right. split; [reflexivity|].
    destruct (frame_playing st inp Hd Hg) as (_ & _ & Hshapes & _).
    cbv zeta in Hshapes. rewrite Hshapes in Hin.
    apply filter_In in Hin as [Hin _].
    rewrite live_shapes_spec in Hin. cbv zeta in Hin.
    apply in_map_iff in Hin as (s0 & <- & Hin0).
    apply in_app_or in Hin0 as [Hin0|Hin0].
    + left. exists s0. split; [|reflexivity].
      destruct Hsh as [E|E]; rewrite E in Hin0; [exact Hin0|contradiction].
    + right. destruct (_ >? _); [|contradiction].
      destruct Hin0 as [<-|[]]. rewrite Hfr. auto.
  - left. split; [discriminate|].
    unfold frame, update_logic in Hin. rewrite Hg in Hin.
    destruct Hsh as [E|E]; rewrite E in Hin; [exact Hin|contradiction].
Qed.

Lemma check_game_over_keeps (st : State) :
  let st' := check_game_over st in
  shapes st' = shapes st /\ fresh st' = fresh st /\ collector st' = collector st /\
  score st' = score st /\ lives st' = lives st /\
  current_fall_speed st' = current_fall_speed st /\ running st' = running st.
Proof. cbv zeta. unfold check_game_over. destruct (_ <=? 0); cbn; tauto. Qed.

Lemma spawn_fresh (inp : Input) (st : State) : (fresh st <= fresh (spawn inp st))%nat.
Proof. unfold spawn. destruct (_ >? _); cbn; lia. Qed.

Lemma frame_fresh (st : State) (inp : Input) :
  (fresh st <= fresh (frame st inp))%nat.
Proof.
  destruct (handle_events_shapes inp st) as [_ Hfr]. cbv zeta in Hfr.
  unfold frame, update_logic.
  destruct (game_state (handle_events inp st)); try lia.
  destruct (check_game_over_keeps
              (resolve_shapes (update_shapes (spawn inp (handle_events inp st)))))
    as (_ & -> & _).
  change (fresh (resolve_shapes (update_shapes (spawn inp (handle_events inp st)))))
    with (fresh (spawn inp (handle_events inp st))).
  pose proof (spawn_fresh inp (handle_events inp st)). lia.
Qed.

Lemma frame_distinct (st : State) (inp : Input) :
  distinct_objects st -> distinct_objects (frame st inp).
Proof.
  intros Hd. apply (handle_events_distinct inp) in Hd.
  unfold frame, update_logic. destruct (game_state (handle_events inp st)); auto.
  assert (H : distinct_objects
                (resolve_shapes (update_shapes (spawn inp (handle_events inp st)))))
    by now apply resolve_shapes_distinct, update_shapes_distinct, spawn_distinct.
  unfold check_game_over. now destruct (_ <=? 0).
Qed.

(** An identity that is below the fresh counter and absent from the live list
    stays absent: an object that was removed never comes back. *)
Lemma ident_never_returns (i : nat) (inps : list Input) (st : State) :
  distinct_objects st ->
  (i < fresh st)%nat ->
  (forall s, In s (shapes st) -> FallingShape.ident s <> i) ->
  forall s, In s (shapes (run st inps)) -> FallingShape.ident s <> i.
Proof.
  revert st; induction inps as [|inp inps IH]; cbn [run]; intros st Hd Hlt Hout; auto.
  destruct (running st); auto.
  apply IH.
  - now apply frame_distinct.
  - pose proof (frame_fresh st inp). lia.
  - intros s Hs.
    destruct (frame_shapes_origin st inp s Hd Hs) as [[_ Hin]|[_ [(s0 & Hin & ->)|[_ ->]]]].
    + now apply Hout.
    + cbn. now apply Hout.
    + cbn. lia.
Qed.

End ChatgptShapes.

(** * chatgpt.py: the off-screen branch *)

Section ChatgptGeometry.
Import Chatgpt ChatgptSpec ChatgptInv.

Lemma handle_events_geometry (inp : Input) (st : State) :
  geometry st -> geometry (handle_events inp st).
Proof.
  unfold handle_events. generalize (events inp) as evs.
  intros evs; revert st; induction evs as [|ev evs IH]; cbn; intros st H; auto.
  apply IH. unfold geometry in *. destruct H as [Hy Hs].
  destruct ev as [|key|]; cbn; auto.
  destruct (game_state st); [cbn; auto|destruct key; cbn; auto ..].
Qed.

Lemma frame_geometry (st : State) (inp : Input) :
  distinct_objects st -> geometry st -> geometry (frame st inp).
Proof.
  intros Hd Hgeo. pose proof (handle_events_geometry inp st Hgeo) as [Hy Hs].
  destruct (game_state (handle_events inp st)) eqn:Hg.
  - unfold frame, update_logic. rewrite Hg. split; assumption.
  - destruct (frame_playing st inp Hd Hg) as (_ & _ & Hsh & _).
    cbv zeta in Hsh. split.
    + unfold frame, update_logic. rewrite Hg.
      destruct (check_game_over_keeps
                  (resolve_shapes (update_shapes (spawn inp (handle_events inp st)))))
        as (_ & _ & -> & _).
      change (collector (resolve_shapes (update_shapes (spawn inp (handle_events inp st)))))
        with (collector (spawn inp (handle_events inp st))).
      destruct (spawn_keeps inp (handle_events inp st)) as (_ & -> & _). exact Hy.
    + rewrite Hsh, Forall_forall. intros s Hin.
      apply filter_In in Hin as [Hin _].
      rewrite live_shapes_spec in Hin. cbv zeta in Hin.
      apply in_map_iff in Hin as (s0 & <- & Hin0). cbn.
      apply in_app_or in Hin0 as [Hin0|Hin0].
      * rewrite Forall_forall in Hs. now apply Hs.
      * destruct (_ >? _); [|contradiction]. now destruct Hin0 as [<-|[]].
  - unfold frame, update_logic. rewrite Hg. split; assumption.
Qed.

Lemma reachable_geometry (st : State) : reachable st -> geometry st.
Proof.
  induction 1 as [f ticks|st inp Hr IH _].
  - split; [reflexivity|constructor].
  - apply frame_geometry; auto. now destruct (reachable_invariant st Hr).
Qed.

(** With size 30 and the collector row at 750, a shape that is below the
    screen ([y - 30 > 800]) is at the zone row as well ([y + 30 >= 750]): the
    first test of the collision loop wins, and the [elif] branch is not
    taken. *)
Lemma below_is_at_zone_row (c : CollectorZones.t) (shape : FallingShape.t) :
  CollectorZones.y c = HEIGHT - BOTTOM_MARGIN ->
  FallingShape.size shape = 30 ->
  FallingShape.is_off_screen shape = true ->
  reaches_zone c shape = true.
Proof.
  unfold FallingShape.is_off_screen, reaches_zone, Qgt_bool, Qge_bool.
  intros -> ->. rewrite negb_true_iff, Qle_bool_iff.
  intros H. destruct (Qle_bool _ _) eqn:E in H; [discriminate|clear H].
  assert (Hn : ~ (FallingShape.y shape - inject_Z 30 <= inject_Z HEIGHT)%Q)
    by (rewrite <- Qle_bool_iff; congruence).
  unfold HEIGHT, BOTTOM_MARGIN in *.
  assert (E1 : (inject_Z 30 == 30)%Q) by reflexivity.
  assert (E2 : (inject_Z 800 == 800)%Q) by reflexivity.
  assert (E3 : (inject_Z (800 - 50) == 750)%Q) by reflexivity.
  rewrite E1, E2 in Hn. rewrite E1, E3.
  apply Qnot_le_lt in Hn. lra.
Qed.

End ChatgptGeometry.

(** * gemini.py: [list.remove] on shape dicts *)

Section GeminiLists.
Import Gemini GeminiSpec.

Lemma colour_eqb_eq (a b : Colour) : colour_eqb a b = true <-> a = b.
Proof. destruct a, b; cbn; split; congruence. Qed.

Lemma shape_type_eqb_eq (a b : ShapeType) : shape_type_eqb a b = true <-> a = b.
Proof. destruct a, b; cbn; split; congruence. Qed.

Lemma rect_eqb_eq (a b : Rect.t) : Rect.eqb a b = true <-> a = b.
Proof.
  destruct a, b; unfold Rect.eqb; cbn.
  rewrite !andb_true_iff, !Z.eqb_eq. split.
  - intros [[[-> ->] ->] ->]; reflexivity.
  - intros H; injection H; auto.
Qed.

Lemma dict_eqb_value (a b : Shape) : dict_eqb a b = true <-> value a = value b.
Proof.
  unfold dict_eqb, value.
  rewrite !andb_true_iff, shape_type_eqb_eq, colour_eqb_eq, rect_eqb_eq.
  split.
  - intros [[-> ->] ->]; reflexivity.
  - intros H; injection H; auto.
Qed.

Lemma verdict_value (zs : list Zone) (a b : Shape) :
  value a = value b -> verdict zs a = verdict zs b.
Proof.
  unfold value, verdict, first_zone. intros H; injection H as _ Hc Hr.
  now rewrite Hc, Hr.
Qed.

Lemma list_remove_app_found (v : Shape) (p p' r : list Shape) :
  list_remove v p = Ok p' -> list_remove v (p ++ r) = Ok (p' ++ r).
Proof.
  revert p'; induction p as [|h p IH]; cbn; intros p' H; [discriminate|].
  destruct (dict_eqb h v).
  - now injection H as ->.
  - destruct (list_remove v p) as [q|e]; cbn in *; [|discriminate].
    injection H as <-. now rewrite (IH q eq_refl).
Qed.

Lemma list_remove_app_absent (v : Shape) (p r : list Shape) :
  Forall (fun s => dict_eqb s v = false) p ->
  list_remove v (p ++ r) = (r' <- list_remove v r ;; Ok (p ++ r')).
Proof.
  induction 1 as [|h p Hh _ IH]; cbn.
  - now destruct (list_remove v r).
  - rewrite Hh, IH. now destruct (list_remove v r).
Qed.

(** Either some item of [p] equals [v], and the first such goes, or none
    does. *)
Lemma list_remove_cases (v : Shape) (p : list Shape) :
  (exists p1 a p2, p = p1 ++ a :: p2 /\ dict_eqb a v = true /\
                   list_remove v p = Ok (p1 ++ p2)) \/
  Forall (fun s => dict_eqb s v = false) p.
Proof.
  induction p as [|h p IH]; [right; constructor|].
  destruct (dict_eqb h v) eqn:Hh.
  - left. exists [], h, p. cbn. now rewrite Hh.
  - destruct IH as [(p1 & a & p2 & -> & Ha & Hr)|Hall].
    + left. exists (h :: p1), a, p2. cbn. now rewrite Hh, Hr.
    + right. now constructor.
Qed.

(** Assigning through one object changes that entry alone. *)
Lemma assign_y_app (shape : Shape) (v : Z) (p r : list Shape) :
  NoDup (map obj (p ++ shape :: r)) ->
  assign_y shape v (p ++ shape :: r)
  = p ++ {| obj := obj shape; s_type := s_type shape; s_color := s_color shape;
            s_rect := Rect.set_y (s_rect shape) v |} :: r.
Proof.
  intros Hnd. unfold assign_y. rewrite map_app; cbn [map].
  rewrite Nat.eqb_refl.
  rewrite map_app in Hnd; cbn [map] in Hnd.
  apply NoDup_remove_2 in Hnd.
  assert (Hid : forall l, ~ In (obj shape) (map obj l) ->
                map (fun s => if Nat.eqb (obj s) (obj shape)
                              then {| obj := obj s; s_type := s_type s;
                                      s_color := s_color s;
                                      s_rect := Rect.set_y (s_rect s) v |}
                              else s) l = l).
  { induction l as [|h l IHl]; cbn; intros Hn; [reflexivity|].
    destruct (Nat.eqb (obj h) (obj shape)) eqn:E.
    - apply Nat.eqb_eq in E. tauto.
    - rewrite IHl; tauto. }
  rewrite !Hid; auto; intros Hin; apply Hnd, in_or_app; tauto.
Qed.

End GeminiLists.

(** * gemini.py: the collision loop *)

Section GeminiCollisions.
Import Gemini GeminiSpec.

Lemma collide_cases (st : State) (shape : Shape) :
  collide st shape =
  match verdict (zones st) shape with
  | StillFalling => Ok st
  | Matched =>
      l <- list_remove (parked shape) (assign_y shape screen_height (shapes st)) ;;
      Ok (score_point l st)
  | Mismatched | MissedBelow =>
      l <- list_remove shape (shapes st) ;; Ok (lose_life l st)
  end.
Proof.
  unfold collide, verdict, first_zone.
  destruct (_ >? _); [reflexivity|].
  destruct (find _ _) as [zone|]; [|reflexivity].
  now destruct (colour_eqb _ _).
Qed.

(** A shape parked at [screen_height] touches the zone row from below and is
    not yet below the screen: the loop leaves it alone. *)
Lemma parked_falling (zs : list Zone) (shape : Shape) :
  zone_row zs -> Rect.height (s_rect shape) = shape_size ->
  verdict zs (parked shape) = StillFalling.
Proof.
  intros Hz Hh. unfold verdict, first_zone, parked; cbn.
  replace (find _ zs) with (@None Zone); [reflexivity|].
  symmetry. induction Hz as [|zone zs (Hy & Hzh & _) _ IH]; [reflexivity|].
  cbn [find]. rewrite IH.
  unfold Rect.colliderect; cbn. rewrite Hy, Hzh, Hh.
  unfold screen_height, zone_height, shape_size.
  destruct ((Rect.width (s_rect shape) =? 0) || (40 =? 0) ||
            (Rect.width (rect zone) =? 0) || (50 =? 0))%bool; [reflexivity|].
  replace (Z.min 800 (800 + 40) <? Z.max (800 - 50) (800 - 50 + 50)) with false
    by reflexivity.
  now rewrite andb_false_r.
Qed.

Lemma lose_life_fields (l : list Shape) (st : State) :
  let st' := lose_life l st in
  shapes st' = l /\ zones st' = zones st /\ score st' = score st /\
  lives st' = lives st - 1 /\
  exists added, sounds st' = sounds st ++ added /\
                filter (fun n => negb (is_game_over_sound n)) added = [OnMiss].
Proof.
  cbv zeta. unfold lose_life; cbn. repeat split.
  destruct (lives st - 1 =? 0); eexists; split; reflexivity.
Qed.

Lemma Forall_sub {A : Type} (P : A -> Prop) (l1 l2 : list A) (a : A) :
  Forall P (l1 ++ a :: l2) -> Forall P (l1 ++ l2).
Proof.
  rewrite !Forall_app. intros [H1 H2]. inversion H2; auto.
Qed.

(** One turn of the loop, on a live list that consists of the survivors [p]
    of the shapes handled so far, the shape at hand and the shapes still to
    come. *)
Lemma collide_step (st : State) (shape : Shape) (p rest : list Shape) :
  shapes st = p ++ shape :: rest ->
  NoDup (map obj (shapes st)) ->
  squares (shapes st) ->
  zone_row (zones st) ->
  Forall (fun s => verdict (zones st) s = StillFalling) p ->
  exists st1 p1,
    collide st shape = Ok st1 /\
    shapes st1 = p1 ++ rest /\
    zones st1 = zones st /\
    NoDup (map obj (shapes st1)) /\
    squares (shapes st1) /\
    (forall n, Forall (fun s => (obj s < n)%nat) (shapes st) ->
               Forall (fun s => (obj s < n)%nat) (shapes st1)) /\
    Forall (fun s => verdict (zones st) s = StillFalling) p1 /\
    Permutation (map value p1)
                (map value (p ++ if falling (zones st) shape then [shape] else [])) /\
    score st1 = score st + (if verdict_eqb (verdict (zones st) shape) Matched then 1 else 0) /\
    lives st1 = lives st
                - (if verdict_eqb (verdict (zones st) shape) Mismatched then 1 else 0)
                - (if verdict_eqb (verdict (zones st) shape) MissedBelow then 1 else 0) /\
    exists added, sounds st1 = sounds st ++ added /\
                  filter (fun n => negb (is_game_over_sound n)) added
                  = request (zones st) shape.
Proof.
  intros Hsh Hnd Hsq Hz Hp.
  assert (Hmiss : verdict (zones st) shape <> StillFalling ->
                  list_remove shape (shapes st) = Ok (p ++ rest)).
  { intros Hv. rewrite Hsh, list_remove_app_absent.
    - cbn. replace (dict_eqb shape shape) with true; [reflexivity|].
      symmetry. now apply dict_eqb_value.
    - eapply Forall_impl; [|exact Hp]. cbn. intros q Hq.
      apply not_true_is_false. intros He. apply dict_eqb_value in He.
      apply (verdict_value (zones st)) in He. congruence. }
  assert (Hnd' : NoDup (map obj (p ++ rest))).
  { rewrite Hsh, map_app in Hnd; cbn in Hnd. rewrite map_app.
    eapply NoDup_remove_1; eauto. }
  assert (Hsq' : squares (p ++ rest)).
  { unfold squares in *. rewrite Hsh in Hsq. eapply Forall_sub; eauto. }
  assert (Hlt' : forall n, Forall (fun s => (obj s < n)%nat) (p ++ shape :: rest) ->
                           Forall (fun s => (obj s < n)%nat) (p ++ rest)).
  { intros n Hn. eapply Forall_sub; eauto. }
  rewrite collide_cases. unfold request, falling.
  destruct (verdict (zones st) shape) eqn:Hv; cbn [verdict_eqb].
  - (* Matched *)
    rewrite Hsh, assign_y_app by (rewrite <- Hsh; exact Hnd).
    change {| obj := obj shape; s_type := s_type shape; s_color := s_color shape;
              s_rect := Rect.set_y (s_rect shape) screen_height |} with (parked shape).
    assert (Hpk : verdict (zones st) (parked shape) = StillFalling).
    { apply parked_falling; auto. unfold squares in Hsq. rewrite Hsh in Hsq.
      apply Forall_app in Hsq as [_ Hsq]. inversion Hsq as [|? ? [_ Hh] _]. exact Hh. }
    destruct (list_remove_cases (parked shape) p)
      as [(p1 & a & p2 & -> & Ha & Hr)|Habs].
    + rewrite (list_remove_app_found _ _ _ _ Hr). cbn [bind].
      exists (score_point ((p1 ++ p2) ++ parked shape :: rest) st),
             (p1 ++ p2 ++ [parked shape]).
      cbn [score_point shapes zones score lives sounds].
      split; [reflexivity|]. split; [now rewrite <- !app_assoc|].
      split; [reflexivity|].
      assert (Hperm : Permutation ((p1 ++ a :: p2) ++ shape :: rest)
                                  (a :: (p1 ++ p2) ++ shape :: rest)).
      { rewrite <- !app_assoc. cbn. symmetry. apply Permutation_middle. }
      split.
      { rewrite Hsh in Hnd.
        apply (Permutation_map obj) in Hperm. apply (Permutation_NoDup Hperm) in Hnd.
        cbn in Hnd. inversion Hnd as [|? ? _ Hnd2]; subst.
        rewrite map_app in *; cbn in *. exact Hnd2. }
      split.
      { unfold squares in *. rewrite Hsh in Hsq.
        rewrite Forall_app in *. destruct Hsq as [Hq1 Hq2].
        split; [eapply Forall_sub; eauto|].
        inversion Hq2; subst. constructor; auto. }
      split.
      { intros n Hn. rewrite ?Hsh in Hn. rewrite Forall_app in *.
        destruct Hn as [Hn1 Hn2].
        split; [eapply Forall_sub; eauto|].
        inversion Hn2; subst. constructor; auto. }
      split.
      { rewrite app_assoc. apply Forall_app.
        split; [eapply Forall_sub; eauto|repeat constructor; auto]. }
      split.
      { rewrite app_nil_r, !map_app; cbn [map].
        apply dict_eqb_value in Ha. rewrite Ha.
        apply Permutation_app_head. symmetry. apply Permutation_cons_append. }
      split; [lia|]. split; [lia|].
      exists [OnMatch]. split; reflexivity.
    + rewrite (list_remove_app_absent _ _ _ Habs). cbn [list_remove].
      replace (dict_eqb (parked shape) (parked shape)) with true
        by (symmetry; now apply dict_eqb_value).
      cbn [bind].
      exists (score_point (p ++ rest) st), p.
      cbn [score_point shapes zones score lives sounds].
      rewrite app_nil_r. repeat split; auto; try lia.
      exists [OnMatch]. split; reflexivity.
  - (* Mismatched *)
    rewrite Hmiss by discriminate. cbn [bind].
    destruct (lose_life_fields (p ++ rest) st) as (H1 & H2 & H3 & H4 & H5).
    cbv zeta in *.
    exists (lose_life (p ++ rest) st), p.
    rewrite H1, H2, H3, H4, app_nil_r. repeat split; auto; try lia.
    intros n Hn. rewrite Hsh in Hn. auto.
  - (* MissedBelow *)
    rewrite Hmiss by discriminate. cbn [bind].
    destruct (lose_life_fields (p ++ rest) st) as (H1 & H2 & H3 & H4 & H5).
    cbv zeta in *.
    exists (lose_life (p ++ rest) st), p.
    rewrite H1, H2, H3, H4, app_nil_r. repeat split; auto; try lia.
    intros n Hn. rewrite Hsh in Hn. auto.
  - (* StillFalling *)
    exists st, (p ++ [shape]).
    rewrite <- app_assoc. cbn [app].
    repeat split; auto; try lia.
    + apply Forall_app. split; auto.
    + exists []. now rewrite app_nil_r.
Qed.

End GeminiCollisions.

Section GeminiLoop.
Import Gemini GeminiSpec GeminiRel.

Lemma carries_on_refl (st : State) : carries_on st st.
Proof.
  unfold carries_on, flag_sound. repeat split; auto; try lia.
  intros [Hg|Hl]; [exact Hg|].
  destruct (game_over st); [reflexivity|]. specialize (H eq_refl). lia.
Qed.

Lemma carries_on_trans (a b d : State) :
  carries_on a b -> carries_on b d -> carries_on a d.
Proof.
  unfold carries_on.
  intros (Z1 & P1 & F1 & N1 & L1 & S1 & V1 & G1 & T1)
         (Z2 & P2 & F2 & N2 & L2 & S2 & V2 & G2 & T2).
  repeat split; try congruence; try lia.
  - apply G2, G1; assumption.
  - destruct (G1 H) as [Hb Hab]. destruct (G2 Hb) as [_ Hbd].
    rewrite Hbd, Hab. intros [[?|?]|?]; auto. right; lia.
  - destruct (G1 H) as [Hb Hab]. destruct (G2 Hb) as [_ Hbd].
    rewrite Hbd, Hab. tauto.
  - intros stored Hs Ht. apply T2; [lia|]. now apply T1.
Qed.

Lemma lose_life_carries_on (l : list Shape) (st : State) :
  carries_on st (lose_life l st).
Proof.
  unfold carries_on, lose_life, flag_sound, tracks; cbn.
  repeat split; auto; try lia.
  - destruct (lives st - 1 =? 0) eqn:E; [discriminate|].
    apply Z.eqb_neq in E. intros Hg. specialize (H Hg). lia.
  - destruct (lives st - 1 =? 0) eqn:E.
    + apply Z.eqb_eq in E. intros _. right; lia.
    + auto.
  - destruct (lives st - 1 =? 0) eqn:E; [reflexivity|].
    apply Z.eqb_neq in E. intros [Hg|Hl]; [exact Hg|].
    destruct (game_over st); [reflexivity|]. specialize (H eq_refl). lia.
Qed.

Lemma score_point_carries_on (l : list Shape) (st : State) :
  carries_on st (score_point l st).
Proof.
  unfold carries_on, score_point, flag_sound, tracks; cbn.
  repeat split; auto; try lia; try tauto.
  - destruct (_ =? 0); lia.
  - intros [Hg|Hl]; [exact Hg|].
    destruct (game_over st); [reflexivity|]. specialize (H eq_refl). lia.
  - intros stored Hs [[H0 Hh]|[H1 Hh]]; right; (split; [lia|]);
      rewrite Hh; destruct (_ >? _) eqn:E;
      [apply Z.gtb_lt in E|rewrite Z.gtb_ltb in E; apply Z.ltb_ge in E
      |apply Z.gtb_lt in E|rewrite Z.gtb_ltb in E; apply Z.ltb_ge in E]; lia.
Qed.

Lemma collide_carries_on (st st1 : State) (shape : Shape) :
  collide st shape = Ok st1 -> carries_on st st1.
Proof.
  rewrite collide_cases.
  destruct (verdict (zones st) shape).
  - destruct (list_remove _ _); cbn; [|discriminate].
    intros H; injection H as <-. apply score_point_carries_on.
  - destruct (list_remove _ _); cbn; [|discriminate].
    intros H; injection H as <-. apply lose_life_carries_on.
  - destruct (list_remove _ _); cbn; [|discriminate].
    intros H; injection H as <-. apply lose_life_carries_on.
  - intros H; injection H as <-. apply carries_on_refl.
Qed.

Lemma collisions_carries_on (rest : list Shape) (st st' : State) :
  collisions st rest = Ok st' -> carries_on st st'.
Proof.
  revert st; induction rest as [|shape rest IH]; cbn; intros st H.
  - injection H as <-. apply carries_on_refl.
  - destruct (collide st shape) as [st1|e] eqn:E; cbn in H; [|discriminate].
    eapply carries_on_trans; [eapply collide_carries_on; eauto|now apply IH].
Qed.

(** The collision loop never raises: when it comes to a shape, that very
    object is still in the live list.  Its totals are those of the verdicts;
    the live list it leaves holds the values of the survivors [p] and of the
    shapes still falling. *)
Lemma collisions_spec (rest : list Shape) :
  forall (st : State) (p : list Shape),
  shapes st = p ++ rest ->
  NoDup (map obj (shapes st)) ->
  squares (shapes st) ->
  zone_row (zones st) ->
  Forall (fun s => verdict (zones st) s = StillFalling) p ->
  exists st',
    collisions st rest = Ok st' /\
    score st' = score st + tally Matched (zones st) rest /\
    lives st' = lives st - tally Mismatched (zones st) rest
                         - tally MissedBelow (zones st) rest /\
    Permutation (map value (shapes st'))
                (map value (p ++ filter (falling (zones st)) rest)) /\
    NoDup (map obj (shapes st')) /\
    squares (shapes st') /\
    (forall n, Forall (fun s => (obj s < n)%nat) (shapes st) ->
               Forall (fun s => (obj s < n)%nat) (shapes st')) /\
    exists added, sounds st' = sounds st ++ added /\
                  filter (fun n => negb (is_game_over_sound n)) added
                  = flat_map (request (zones st)) rest.
Proof.
  induction rest as [|shape rest IH]; intros st p Hsh Hnd Hsq Hz Hp.
  - exists st. cbn. unfold tally; cbn. rewrite app_nil_r in *.
    repeat split; auto; try lia.
    + now rewrite Hsh.
    + exists []. now rewrite app_nil_r.
  - destruct (collide_step st shape p rest Hsh Hnd Hsq Hz Hp)
      as (st1 & p1 & Hc & Hsh1 & Hz1 & Hnd1 & Hsq1 & Hlt1 & Hp1 & Hperm
          & Hs1 & Hl1 & added1 & Hn1 & Hf1).
    rewrite <- Hz1 in Hz, Hp1.
    destruct (IH st1 p1 Hsh1 Hnd1 Hsq1 Hz Hp1)
      as (st' & Hcs & Hs & Hl & Hpm & Hnd' & Hsq' & Hlt' & added & Hn & Hf).
    exists st'. cbn [collisions]. rewrite Hc. cbn [bind].
    rewrite Hz1 in *.
    split; [exact Hcs|].
    unfold tally in *. cbn [filter flat_map]. unfold falling, request in *.
    split; [|split; [|split; [|split; [|split; [|split]]]]]; auto.
    + rewrite Hs, Hs1.
      destruct (verdict (zones st) shape); cbn [verdict_eqb List.length]; lia.
    + rewrite Hl, Hl1.
      destruct (verdict (zones st) shape); cbn [verdict_eqb List.length]; lia.
    + rewrite Hpm, !map_app. rewrite map_app in Hperm.
      destruct (verdict (zones st) shape); cbn [verdict_eqb] in *;
        rewrite ?app_nil_r in Hperm; rewrite Hperm; cbn [map];
        rewrite <- ?app_assoc; reflexivity.
    + exists (added1 ++ added). split.
      * rewrite Hn, Hn1. now rewrite app_assoc.
      * rewrite filter_app, Hf, Hf1. reflexivity.
Qed.

End GeminiLoop.

(** * gemini.py: one frame, and what every reachable state satisfies *)

Section GeminiFrame.
Import Gemini GeminiSpec GeminiRel.

Lemma handle_event_fields (st : State) (ev : Event) :
  let st' := handle_event st ev in
  score st' = score st /\ high_score st' = high_score st /\ lives st' = lives st /\
  shape_speed st' = shape_speed st /\ zones st' = zones st /\
  shapes st' = shapes st /\ file st' = file st /\ sounds st' = sounds st /\
  fresh st' = fresh st /\
  game_over st' = (game_over st || is_quit ev)%bool /\
  (List.length (zones st) = 3%nat -> 0 <= zone_position st <= 2 ->
   0 <= zone_position st' <= 2).
Proof.
  cbv zeta. destruct ev as [|[]|]; cbn;
    rewrite ?orb_false_r, ?orb_true_r; repeat split; auto; try lia.
Qed.

Lemma handle_events_fields (evs : list Event) (st : State) :
  let st' := fold_left handle_event evs st in
  score st' = score st /\ high_score st' = high_score st /\ lives st' = lives st /\
  shape_speed st' = shape_speed st /\ zones st' = zones st /\
  shapes st' = shapes st /\ file st' = file st /\ sounds st' = sounds st /\
  fresh st' = fresh st /\
  game_over st' = (game_over st || existsb is_quit evs)%bool /\
  (List.length (zones st) = 3%nat -> 0 <= zone_position st <= 2 ->
   0 <= zone_position st' <= 2).
Proof.
  cbv zeta. revert st; induction evs as [|ev evs IH]; intros st.
  - cbn. rewrite orb_false_r. tauto.
  - cbn [fold_left existsb].
    destruct (handle_event_fields st ev)
      as (H1 & H2 & H3 & H4 & H5 & H6 & H7 & H8 & H9 & H10 & H11).
    destruct (IH (handle_event st ev))
      as (I1 & I2 & I3 & I4 & I5 & I6 & I7 & I8 & I9 & I10 & I11).
    cbv zeta in *.
    rewrite I1, I2, I3, I4, I5, I6, I7, I8, I9, I10, H10, orb_assoc.
    repeat split; auto; intros; apply I11; try apply H11; congruence.
Qed.

Lemma place_zones_row (position i : Z) (zs : list Zone) :
  zone_row zs -> zone_row (place_zones position i zs).
Proof.
  unfold zone_row. intros H; revert i.
  induction H as [|zone zs Hz _ IH]; intros i; cbn; constructor; auto.
Qed.

Lemma place_zones_length (position i : Z) (zs : list Zone) :
  List.length (place_zones position i zs) = List.length zs.
Proof. revert i; induction zs as [|zone zs IH]; intros i; cbn; auto. Qed.

(** One iteration of the loop, from a state that satisfies the invariant: no
    exception escapes, the invariant holds again, and the totals of the frame
    are those of the verdicts over the live list its collision loop starts
    from. *)
Lemma frame_spec (st : State) (inp : Input) :
  invariant st ->
  exists st',
    frame st inp = Ok st' /\
    invariant st' /\
    let st0 := before_collisions st inp in
    score st' = score st + tally Matched (zones st0) (shapes st0) /\
    lives st' = lives st - tally Mismatched (zones st0) (shapes st0)
                         - tally MissedBelow (zones st0) (shapes st0) /\
    Permutation (map value (shapes st'))
                (map value (filter (falling (zones st0)) (shapes st0))) /\
    (exists added, sounds st' = sounds st ++ added /\
                   filter (fun n => negb (is_game_over_sound n)) added
                   = flat_map (request (zones st0)) (shapes st0)) /\
    (game_over st = false ->
     (game_over st' = true <-> In QUIT (events inp) \/ lives st' <= 0)) /\
    carries_on st0 st'.
Proof.
  intros (Hnd & Hlt & Hsq & Hz & Hlen & Hpos & Hl3 & Hflag & Hsc & Hsp & stored & Hload & Htr).
  unfold frame. fold (before_collisions st inp).
  destruct (handle_events_fields (events inp) st)
    as (E1 & E2 & E3 & E4 & E5 & E6 & E7 & E8 & E9 & E10 & E11).
  cbv zeta in *.
  set (st_e := fold_left handle_event (events inp) st) in *.
  assert (B : let st0 := before_collisions st inp in
              score st0 = score st /\ high_score st0 = high_score st /\
              lives st0 = lives st /\ shape_speed st0 = shape_speed st /\
              file st0 = file st /\ sounds st0 = sounds st /\
              game_over st0 = game_over st_e /\
              zone_position st0 = zone_position st_e /\
              zones st0 = place_zones (zone_position st_e) 0 (zones st) /\
              NoDup (map obj (shapes st0)) /\
              Forall (fun s => (obj s < fresh st0)%nat) (shapes st0) /\
              squares (shapes st0)).
  { cbv zeta. unfold before_collisions. fold st_e.
    unfold move_shapes, spawn, move_zones.
    destruct (spawn_due inp); cbn; rewrite ?E1, ?E2, ?E3, ?E4, ?E5, ?E6, ?E7, ?E8, ?E9;
      repeat split; auto.
    - rewrite map_map; cbn. rewrite map_app; cbn.
      apply Permutation_NoDup with (l := fresh st :: map obj (shapes st)).
      + apply Permutation_cons_append.
      + constructor; auto. intros Hin. apply in_map_iff in Hin as (s & Hs & Hin).
        rewrite Forall_forall in Hlt. specialize (Hlt s Hin). lia.
    - apply Forall_map; cbn. apply Forall_app. split.
      + eapply Forall_impl; [|exact Hlt]. cbn; intros; lia.
      + constructor; [cbn; lia|constructor].
    - unfold squares in *. apply Forall_map; cbn. apply Forall_app.
      split; [exact Hsq|]. repeat constructor.
    - now rewrite map_map; cbn.
    - apply Forall_map; cbn. exact Hlt.
    - unfold squares in *. apply Forall_map; cbn. exact Hsq. }
  cbv zeta in B.
  destruct B as (B1 & B2 & B3 & B4 & B5 & B6 & B7 & B8 & B9 & B10 & B11 & B12).
  remember (before_collisions st inp) as st0 eqn:E0. clear E0.
  assert (Hz0 : zone_row (zones st0)) by (rewrite B9; now apply place_zones_row).
  destruct (collisions_spec (shapes st0) st0 [] eq_refl B10 B12 Hz0 (Forall_nil _))
    as (st' & Hc & Hs & Hl & Hperm & Hnd' & Hsq' & Hlt' & Hadd).
  pose proof (collisions_carries_on _ _ _ Hc) as Hcar.
  destruct Hcar as (C1 & C2 & C3 & C4 & C5 & C6 & C7 & C8 & C9).
  assert (Hflag0 : flag_sound st0).
  { unfold flag_sound. rewrite B7, E10, B3. intros Hg.
    apply orb_false_iff in Hg as [Hg _]. auto. }
  destruct (C8 Hflag0) as [Hflag' Hover].
  exists st'. split; [exact Hc|].
  pose proof (tally_nonneg_g := fun v => Nat2Z.is_nonneg
     (List.length (filter (fun s => verdict_eqb (verdict (zones st0) s) v) (shapes st0)))).
  pose proof (tally_nonneg_g Matched) as N1.
  pose proof (tally_nonneg_g Mismatched) as N2.
  pose proof (tally_nonneg_g MissedBelow) as N3.
  fold (tally Matched (zones st0) (shapes st0)) in N1.
  fold (tally Mismatched (zones st0) (shapes st0)) in N2.
  fold (tally MissedBelow (zones st0) (shapes st0)) in N3.
  split; [|split; [|split; [|split; [|split; [|split]]]]].
  - unfold invariant. rewrite C1, C2, C3, C4.
    split; [exact Hnd'|]. split; [now apply Hlt'|]. split; [exact Hsq'|].
    split; [exact Hz0|].
    split; [rewrite B9, place_zones_length; exact Hlen|].
    split; [rewrite B8; now apply E11|].
    split; [lia|]. split; [exact Hflag'|]. split; [lia|]. split; [lia|].
    exists stored. rewrite B5. split; [exact Hload|].
    apply C9; [lia|]. unfold tracks in *. now rewrite B1, B2.
  - rewrite Hs, B1. reflexivity.
  - rewrite Hl, B3. reflexivity.
  - exact Hperm.
  - destruct Hadd as (added & Ha & Hf). exists added. now rewrite <- B6.
  - intros Hg. rewrite Hover, B7, E10, Hg. cbn [orb].
    assert (Hq : existsb is_quit (events inp) = true <-> In QUIT (events inp)).
    { rewrite existsb_exists. split.
      - intros (ev & Hin & Hq). destruct ev; try discriminate. exact Hin.
      - intros Hin. exists QUIT. auto. }
    rewrite Hq. tauto.
  - unfold carries_on. repeat split; auto; apply C8; assumption.
Qed.

Lemma reachable_invariant_g (st : State) : reachable st -> invariant st.
Proof.
  induction 1 as [f st Hentry|st inp st' _ IH _ Hframe].
  - unfold game_loop_entry in Hentry.
    destruct (load_high_score f) as [hs|e] eqn:Hload; cbn in Hentry; [|discriminate].
    injection Hentry as <-. unfold invariant, squares, zone_row; cbn.
    repeat split; try constructor; try lia; try discriminate;
      repeat (constructor; cbn; auto).
    exists hs. split; [exact Hload|]. left. auto.
  - destruct (frame_spec st inp IH) as (st2 & Hf & Hinv & _).
    congruence.
Qed.

Lemma reachable_run_g (inps : list Input) (st st' : State) :
  reachable st -> run st inps = Ok st' -> reachable st'.
Proof.
  revert st; induction inps as [|inp inps IH]; cbn [run]; intros st Hr H.
  - now injection H as <-.
  - destruct (game_over st) eqn:Hg; [now injection H as <-|].
    destruct (frame st inp) as [s1|e] eqn:E1; [|discriminate H].
    cbn [bind] in H. eapply IH; [|exact H]. eapply reach_frame; eauto.
Qed.

Lemma reachable_play (f : File) (inps : list Input) (st : State) :
  GeminiRuns.play f inps = Ok st -> reachable st.
Proof.
  unfold GeminiRuns.play.
  destruct (game_loop_entry f) as [s0|e] eqn:E0; [|discriminate].
  cbn [bind]. apply reachable_run_g. eapply reach_entry; eauto.
Qed.

(** From a reachable state the loop runs through any frames without an
    exception. *)
Lemma run_total (inps : list Input) (st : State) :
  invariant st -> exists st', run st inps = Ok st' /\ invariant st' /\
                              score st <= score st' /\ lives st' <= lives st.
Proof.
  revert st; induction inps as [|inp inps IH]; cbn [run]; intros st Hinv.
  - exists st. split; [reflexivity|]. split; [exact Hinv|]. lia.
  - destruct (game_over st);
      [exists st; split; [reflexivity|]; split; [exact Hinv|]; lia|].
    destruct (frame_spec st inp Hinv) as (s1 & Hf & Hinv1 & Hs & Hl & _).
    cbv zeta in *. rewrite Hf. cbn [bind].
    destruct (IH s1 Hinv1) as (st' & Hr & Hinv' & Hs' & Hl').
    exists st'. split; [exact Hr|]. split; [exact Hinv'|]. split.
    + pose proof (Nat2Z.is_nonneg (List.length (filter
        (fun s => verdict_eqb (verdict (zones (before_collisions st inp)) s) Matched)
        (shapes (before_collisions st inp))))) as N.
      unfold tally in Hs. lia.
    + unfold tally in Hl. lia.
Qed.

End GeminiFrame.

(** * Both programs: counting, and what is gone after a frame *)

Section Tallies.

Lemma filter_counts_member {A : Type} (p : A -> bool) (l : list A) (a : A) :
  In a l -> p a = true -> (1 <= List.length (filter p l))%nat.
Proof.
  intros Hin Hp.
  assert (H : In a (filter p l)) by (apply filter_In; auto).
  destruct (filter p l); [contradiction|cbn; lia].
Qed.

Lemma verdict_eqb_refl (v : Verdict) : verdict_eqb v v = true.
Proof. now destruct v. Qed.

Lemma chatgpt_tally_member (v : Verdict) (c : Chatgpt.CollectorZones.t)
      (l : list Chatgpt.FallingShape.t) (s : Chatgpt.FallingShape.t) :
  In s l -> ChatgptSpec.verdict c s = v -> 1 <= ChatgptSpec.tally v c l.
Proof.
  intros Hin Hv. unfold ChatgptSpec.tally.
  pose proof (filter_counts_member
                (fun s => verdict_eqb (ChatgptSpec.verdict c s) v) l s Hin) as H.
  cbv beta in H. rewrite Hv, verdict_eqb_refl in H. specialize (H eq_refl). lia.
Qed.

Lemma gemini_tally_member (v : Verdict) (zs : list Gemini.Zone)
      (l : list Gemini.Shape) (s : Gemini.Shape) :
  In s l -> GeminiSpec.verdict zs s = v -> 1 <= GeminiSpec.tally v zs l.
Proof.
  intros Hin Hv. unfold GeminiSpec.tally.
  pose proof (filter_counts_member
                (fun s => verdict_eqb (GeminiSpec.verdict zs s) v) l s Hin) as H.
  cbv beta in H. rewrite Hv, verdict_eqb_refl in H. specialize (H eq_refl). lia.
Qed.

(** chatgpt.py: a shape the collision loop resolved is not in the live list
    the frame leaves. *)
Lemma chatgpt_resolved_gone (st : Chatgpt.State) (inp : Chatgpt.Input)
      (s : Chatgpt.FallingShape.t) :
  ChatgptSpec.distinct_objects st ->
  Chatgpt.game_state (Chatgpt.handle_events inp st) = Chatgpt.STATE_PLAYING ->
  In s (ChatgptSpec.live_shapes st inp) ->
  ChatgptSpec.resolved (Chatgpt.collector (Chatgpt.handle_events inp st)) s = true ->
  forall s', In s' (Chatgpt.shapes (Chatgpt.frame st inp)) ->
             Chatgpt.FallingShape.ident s' <> Chatgpt.FallingShape.ident s.
Proof.
  intros Hd Hg Hin Hres s' Hin' Hid.
  destruct (frame_playing st inp Hd Hg) as (_ & _ & Hsh & _).
  cbv zeta in Hsh. rewrite Hsh in Hin'.
  apply filter_In in Hin' as [Hin' Hfalse].
  assert (s' = s).
  { eapply NoDup_map_In_eq; eauto. now apply live_shapes_distinct. }
  subst s'. rewrite Hres in Hfalse. discriminate.
Qed.

(** gemini.py: after a frame no live shape equals, as a dict, a shape the
    collision loop resolved. *)
Lemma gemini_resolved_gone (zs : list Gemini.Zone) (live final : list Gemini.Shape)
      (s : Gemini.Shape) :
  Permutation (map GeminiSpec.value final)
              (map GeminiSpec.value (filter (GeminiSpec.falling zs) live)) ->
  GeminiSpec.verdict zs s <> StillFalling ->
  forall s', In s' final -> GeminiSpec.value s' <> GeminiSpec.value s.
Proof.
  intros Hperm Hv s' Hin Heq.
  assert (H : In (GeminiSpec.value s') (map GeminiSpec.value final)) by now apply in_map.
  apply (Permutation_in _ Hperm) in H.
  apply in_map_iff in H as (q & Hq & Hinq).
  apply filter_In in Hinq as [_ Hfall]. unfold GeminiSpec.falling in Hfall.
  rewrite Heq in Hq. apply (verdict_value zs) in Hq.
  destruct (GeminiSpec.verdict zs q); try discriminate. congruence.
Qed.

End Tallies.

(** * The claims *)

Section ClaimC3.
Import Chatgpt Gemini Rotation.

Lemma centre_subscript_in_range (c : CollectorZones.t) :
  List.length (CollectorZones.colours c) = 3%nat ->
  nth_error (CollectorZones.colours c)
            (Z.to_nat ((CollectorZones.index c + 1) mod 3))
  = Some (CollectorZones.get_centre_colour c).
Proof.
  intros Hlen. unfold CollectorZones.get_centre_colour.
  apply nth_error_nth'. rewrite Hlen.
  pose proof (Z.mod_pos_bound (CollectorZones.index c + 1) 3). lia.
Qed.

(** C3, counterexample.  gemini.py clamps: one press of LEFT from the
    starting position puts the zones at the left end; from there LEFT does
    nothing and RIGHT moves, so LEFT then RIGHT ends one position to the right
    and the colour in the centre of the screen changes from blue to green. *)
Lemma C3_gemini_clamps_at_the_end :
  rotated [[K_LEFT]] = Ok (0, Some BLUE) /\
  rotated [[K_LEFT]; [K_LEFT]] = Ok (0, Some BLUE) /\
  rotated [[K_LEFT]; [K_LEFT]; [K_RIGHT]] = Ok (1, Some GREEN).
Proof. by_evaluation. Qed.

(** C3, amended.  chatgpt.py rotates cyclically over three positions: the
    index stays in 0..2, wraps at both ends, three moves to one side are a
    full turn, and a move left followed by a move right (or the reverse)
    restores both index and centre colour, from any index.  gemini.py clamps
    its position to 0..2: LEFT then RIGHT restores the position except from
    0, and RIGHT then LEFT restores it except from 2. *)
Theorem C3_rotation_round_trip :
  (forall c : CollectorZones.t,
      let l := CollectorZones.move_left c in
      let r := CollectorZones.move_right c in
      CollectorZones.get_centre_colour (CollectorZones.move_right l)
        = CollectorZones.get_centre_colour c /\
      CollectorZones.get_centre_colour (CollectorZones.move_left r)
        = CollectorZones.get_centre_colour c /\
      CollectorZones.index (CollectorZones.move_right l) = CollectorZones.index c mod 3 /\
      CollectorZones.index (CollectorZones.move_left r) = CollectorZones.index c mod 3 /\
      CollectorZones.index (CollectorZones.move_left (CollectorZones.move_left l))
        = CollectorZones.index c mod 3 /\
      0 <= CollectorZones.index l < 3 /\ 0 <= CollectorZones.index r < 3 /\
      (CollectorZones.index c = 0 -> CollectorZones.index l = 2) /\
      (CollectorZones.index c = 2 -> CollectorZones.index r = 0)) /\
  (forall st : Gemini.State,
      List.length (Gemini.zones st) = 3%nat ->
      0 <= Gemini.zone_position st <= 2 ->
      0 <= Gemini.zone_position (press K_LEFT st) <= 2 /\
      0 <= Gemini.zone_position (press K_RIGHT st) <= 2 /\
      (Gemini.zone_position (press K_RIGHT (press K_LEFT st)) = Gemini.zone_position st
       <-> Gemini.zone_position st <> 0) /\
      (Gemini.zone_position (press K_LEFT (press K_RIGHT st)) = Gemini.zone_position st
       <-> Gemini.zone_position st <> 2)).
Proof.
  split.
  - intros c l r.
    unfold l, r, CollectorZones.get_centre_colour, CollectorZones.move_left,
      CollectorZones.move_right; cbn.
    repeat split;
      try match goal with |- nth _ _ _ = nth _ _ _ => f_equal; f_equal end;
      Z.to_euclidean_division_equations; lia.
  - intros st Hlen Hpos. unfold press; cbn. rewrite Hlen.
    repeat split; lia.
Qed.

(** C3, witness: gemini.py at its starting position, chatgpt.py's collector
    as [main] builds it. *)
Lemma C3_rotation_round_trip_witness :
  CollectorZones.get_centre_colour
    (CollectorZones.move_right (CollectorZones.move_left CollectorZones.init))
  = GREEN /\
  forall st, game_loop_entry None = Ok st ->
    Gemini.zone_position (press K_RIGHT (press K_LEFT st)) = Gemini.zone_position st.
Proof.
  split.
  - exact (proj1 (proj1 C3_rotation_round_trip CollectorZones.init)).
  - intros st H. injection H as <-.
    apply (proj2 C3_rotation_round_trip); cbn; lia.
Defined.

End ClaimC3.

Section ClaimC9.
Import Chatgpt ChatgptSpec Arrival.

Lemma fall_y (k : nat) (shape : FallingShape.t) :
  (FallingShape.y (fall k shape)
   == FallingShape.y shape + inject_Z (Z.of_nat k) * FallingShape.speed shape)%Q.
Proof.
  induction k as [|k IH].
  - cbn. ring.
  - cbn [fall FallingShape.update FallingShape.y FallingShape.speed].
    assert (Hs : FallingShape.speed (fall k shape) = FallingShape.speed shape).
    { clear IH. induction k as [|k IHk]; cbn; auto. }
    rewrite Hs, IH, Nat2Z.inj_succ. unfold Z.succ. rewrite inject_Z_plus. ring.
Qed.

Lemma fall_keeps (k : nat) (shape : FallingShape.t) :
  FallingShape.speed (fall k shape) = FallingShape.speed shape /\
  FallingShape.size (fall k shape) = FallingShape.size shape /\
  FallingShape.ident (fall k shape) = FallingShape.ident shape /\
  FallingShape.colour (fall k shape) = FallingShape.colour shape.
Proof. induction k as [|k IH]; cbn; tauto. Qed.

(** After [k] ticks the shape is at the zone row exactly when [d <= k * S],
    [d] being the distance its lower edge had to cover. *)
Lemma reaches_zone_after (c : CollectorZones.t) (shape : FallingShape.t) (k : nat) :
  reaches_zone c (fall k shape) = true <->
  (inject_Z (CollectorZones.y c) - inject_Z (FallingShape.size shape)
   - FallingShape.y shape <= inject_Z (Z.of_nat k) * FallingShape.speed shape)%Q.
Proof.
  unfold reaches_zone, Qge_bool. rewrite Qle_bool_iff.
  destruct (fall_keeps k shape) as (_ & -> & _).
  rewrite fall_y. split; intros H; lra.
Qed.

(** C9, counterexample.  A shape as [main] spawns it at the start of a game
    (y = -50, size 30, speed 3) under the zone row at 750: counted from its
    centre, [ceil((750 - (-50)) / 3)] is 267, but the test
    [y + size >= collector.y] already holds after 257 ticks. *)
Lemma C9_centre_distance_is_late :
  ticks_from_centre CollectorZones.init first_shape = 267 /\
  reaches_zone CollectorZones.init (fall 257 first_shape) = true /\
  reaches_zone CollectorZones.init (fall 256 first_shape) = false.
Proof. by_evaluation. Qed.

(** C9, amended.  A shape that falls at a fixed positive speed S meets the
    zone-row test after [k] ticks exactly when [k] is at least
    [ceil((zoneY - size - startY) / S)]: it first meets it after exactly that
    many ticks (the tick it is spawned in counts, since a new shape is moved
    in the frame that creates it). *)
Theorem C9_ticks_to_zone_row (c : CollectorZones.t) (shape : FallingShape.t) :
  (0 < FallingShape.speed shape)%Q ->
  forall k : nat,
    reaches_zone c (fall k shape) = true <-> ticks_to_zone c shape <= Z.of_nat k.
Proof.
  intros Hpos k. rewrite reaches_zone_after. unfold ticks_to_zone.
  set (d := (inject_Z (CollectorZones.y c) - inject_Z (FallingShape.size shape)
             - FallingShape.y shape)%Q).
  set (S := FallingShape.speed shape) in *.
  assert (HS : ~ (S == 0)%Q) by lra.
  split.
  - intros H.
    assert (Hx : (d / S <= inject_Z (Z.of_nat k))%Q).
    { apply Qle_shift_div_r; auto. }
    apply Qceiling_resp_le in Hx. now rewrite Qceiling_Z in Hx.
  - intros H.
    assert (Hx : (d / S <= inject_Z (Z.of_nat k))%Q).
    { eapply Qle_trans; [apply Qle_ceiling|]. now rewrite <- Zle_Qle. }
    apply (Qmult_le_compat_r _ _ S) in Hx; [|lra].
    assert (E : (d / S * S == d)%Q) by (field; exact HS).
    lra.
Qed.

(** C9, witness: the first shape of a game reaches the zone row after 257
    ticks, which is [ceil(770 / 3)]. *)
Lemma C9_ticks_to_zone_row_witness :
  (0 < FallingShape.speed first_shape)%Q /\
  ticks_to_zone CollectorZones.init first_shape = 257 /\
  reaches_zone CollectorZones.init (fall 257 first_shape) = true.
Proof.
  assert (Hpos : (0 < FallingShape.speed first_shape)%Q) by reflexivity.
  split; [exact Hpos|]. split; [reflexivity|].
  apply (C9_ticks_to_zone_row CollectorZones.init first_shape Hpos 257).
  vm_compute. discriminate.
Defined.

End ClaimC9.

Section ClaimC8.

(** chatgpt.py: a missing file and text that [int] rejects both load as 0. *)
Lemma chatgpt_load_recovers (f : File) :
  f = None \/ (exists text, f = Some text /\ py_int (py_strip text) = None) ->
  Chatgpt.load_high_score f = 0.
Proof.
  intros [->|(text & -> & H)]; cbn; [reflexivity|]. now rewrite H.
Qed.

(** gemini.py: a missing file loads as 0, but text that [int] rejects makes
    [load_high_score] raise. *)
Lemma gemini_load_cases (f : File) :
  (f = None -> Gemini.load_high_score f = Ok 0) /\
  (forall text, f = Some text -> py_int text = None ->
                Gemini.load_high_score f = Raise ValueError).
Proof.
  split.
  - intros ->. reflexivity.
  - intros text -> H. cbn. now rewrite H.
Qed.

(** C8, the failing input.  With the file holding the text [abc], the loader
    of chatgpt.py returns 0, while the loader of gemini.py raises
    [ValueError], and so does [game_loop], which calls it first thing.  An
    empty file does the same. *)
Theorem C8_gemini_load_raises_on_bad_text :
  Chatgpt.load_high_score (Some "abc"%string) = 0 /\
  Gemini.load_high_score (Some "abc"%string) = Raise ValueError /\
  Gemini.game_loop_entry (Some "abc"%string) = Raise ValueError /\
  Gemini.load_high_score (Some ""%string) = Raise ValueError /\
  Chatgpt.load_high_score None = 0 /\
  Gemini.load_high_score None = Ok 0.
Proof. repeat split; reflexivity. Qed.

End ClaimC8.

Section ClaimC5.
Import GeminiSpec GeminiRel GeminiRuns.

(** C5, counterexample.  gemini.py, no high-score file: three wrong matches
    end the game with score 0, which does not exceed the known high score 0;
    the game over sequence writes the file all the same. *)
Lemma C5_gemini_writes_without_a_record :
  observe (fun st => (Gemini.game_over st, Gemini.lives st, Gemini.score st,
                      Gemini.high_score st, Gemini.file st,
                      Gemini.file (Gemini.game_over_sequence st)))
          (play None three_wrong)
  = Ok (true, 0, 0, 0, None, Some "0"%string).
Proof. vm_compute. reflexivity. Qed.

(** chatgpt.py: the end-of-frame test is the only place that touches the
    high score and its file. *)
Lemma chatgpt_frame_high_score (st : Chatgpt.State) (inp : Chatgpt.Input) :
  Chatgpt.game_state st = Chatgpt.STATE_PLAYING ->
  ChatgptSpec.distinct_objects st ->
  let st' := Chatgpt.frame st inp in
  (Chatgpt.game_state st' = Chatgpt.STATE_GAMEOVER <-> Chatgpt.lives st' <= 0) /\
  (Chatgpt.game_state st' <> Chatgpt.STATE_GAMEOVER ->
   Chatgpt.game_state st' = Chatgpt.STATE_PLAYING /\
   Chatgpt.high_score st' = Chatgpt.high_score st /\
   Chatgpt.file st' = Chatgpt.file st) /\
  (Chatgpt.game_state st' = Chatgpt.STATE_GAMEOVER ->
   (Chatgpt.score st' > Chatgpt.high_score st ->
    Chatgpt.high_score st' = Chatgpt.score st' /\
    Chatgpt.file st' = Some (py_str (Chatgpt.score st'))) /\
   (Chatgpt.score st' <= Chatgpt.high_score st ->
    Chatgpt.high_score st' = Chatgpt.high_score st /\
    Chatgpt.file st' = Chatgpt.file st)).
Proof.
  intros Hplay Hd. cbv zeta.
  destruct (handle_events_playing st inp Hplay)
    as (Hg0 & _ & _ & _ & _ & Hh0 & Hf0 & _).
  cbv zeta in *. unfold Chatgpt.frame, Chatgpt.update_logic. rewrite Hg0.
  set (st0 := Chatgpt.handle_events inp st) in *.
  assert (H2 : let st2 := Chatgpt.resolve_shapes (Chatgpt.update_shapes (Chatgpt.spawn inp st0)) in
               Chatgpt.game_state st2 = Chatgpt.STATE_PLAYING /\
               Chatgpt.high_score st2 = Chatgpt.high_score st /\
               Chatgpt.file st2 = Chatgpt.file st).
  { cbv zeta. destruct (spawn_keeps inp st0) as (Hg & _ & _ & _ & _ & Hh & Hf & _).
    cbv zeta in *. cbn. rewrite Hg, Hh, Hf. auto. }
  cbv zeta in H2. destruct H2 as (Hg2 & Hh2 & Hf2).
  remember (Chatgpt.resolve_shapes (Chatgpt.update_shapes (Chatgpt.spawn inp st0)))
    as st2 eqn:E; clear E.
  unfold Chatgpt.check_game_over.
  destruct (Chatgpt.lives st2 <=? 0) eqn:Hle; cbn.
  - apply Z.leb_le in Hle. rewrite Hh2. split; [tauto|].
    split; [intros H; now elim H|]. intros _.
    destruct (Chatgpt.score st2 >? Chatgpt.high_score st) eqn:Hgt.
    + apply Z.gtb_lt in Hgt. unfold Chatgpt.save_high_score.
      split; [auto|intros; lia].
    + rewrite Z.gtb_ltb in Hgt. apply Z.ltb_ge in Hgt.
      split; [intros; lia|auto].
  - apply Z.leb_gt in Hle. rewrite Hg2. split; [split; [discriminate|lia]|].
    split; [auto|discriminate].
Qed.

(** C5, amended.  chatgpt.py: a frame of play ends in the game-over state
    exactly when it leaves no lives; in that frame, a final score above the
    known high score becomes the high score and is written to the file, and
    otherwise high score and file stay as they were; a frame that does not end
    the game touches neither.  gemini.py: the game over sequence always
    rewrites the file, with its [high_score] variable, which is the loaded
    value while no point was scored and the larger of the loaded value and the
    score afterwards. *)
Theorem C5_high_score_persistence :
  (forall (st : Chatgpt.State) (inp : Chatgpt.Input),
      Chatgpt.reachable st ->
      Chatgpt.game_state st = Chatgpt.STATE_PLAYING ->
      let st' := Chatgpt.frame st inp in
      (Chatgpt.game_state st' = Chatgpt.STATE_GAMEOVER <-> Chatgpt.lives st' <= 0) /\
      (Chatgpt.game_state st' <> Chatgpt.STATE_GAMEOVER ->
       Chatgpt.game_state st' = Chatgpt.STATE_PLAYING /\
       Chatgpt.high_score st' = Chatgpt.high_score st /\
       Chatgpt.file st' = Chatgpt.file st) /\
      (Chatgpt.game_state st' = Chatgpt.STATE_GAMEOVER ->
       (Chatgpt.score st' > Chatgpt.high_score st ->
        Chatgpt.high_score st' = Chatgpt.score st' /\
        Chatgpt.file st' = Some (py_str (Chatgpt.score st'))) /\
       (Chatgpt.score st' <= Chatgpt.high_score st ->
        Chatgpt.high_score st' = Chatgpt.high_score st /\
        Chatgpt.file st' = Chatgpt.file st))) /\
  (forall st : Gemini.State,
      Gemini.reachable st ->
      Gemini.file (Gemini.game_over_sequence st) = Some (py_str (Gemini.high_score st)) /\
      exists stored,
        Gemini.load_high_score (Gemini.file st) = Ok stored /\
        ((Gemini.score st = 0 /\ Gemini.high_score st = stored) \/
         (1 <= Gemini.score st /\
          Gemini.high_score st = Z.max stored (Gemini.score st)))).
Proof.
  split.
  - intros st inp Hr Hplay.
    apply chatgpt_frame_high_score; auto.
    now destruct (reachable_invariant st Hr).
  - intros st Hr. split; [reflexivity|].
    destruct (reachable_invariant_g st Hr)
      as (_ & _ & _ & _ & _ & _ & _ & _ & _ & _ & stored & Hl & Ht).
    exists stored. auto.
Qed.

End ClaimC5.

Section ClaimC5Witness.
Import GeminiRuns.

(** C5, witness.  chatgpt.py: frame 787 of the game with one slow frame ends
    it with score 6 above the high score 0, and the file then holds [6].
    gemini.py: after three wrong matches the game over sequence writes the
    unchanged high score 0. *)
Lemma C5_high_score_persistence_witness :
  (Chatgpt.game_state (Stutter.after 787) = Chatgpt.STATE_PLAYING /\
   Chatgpt.game_state (Stutter.after 788) = Chatgpt.STATE_GAMEOVER /\
   Chatgpt.score (Stutter.after 788) = 6 /\
   Chatgpt.high_score (Stutter.after 787) = 0 /\
   Chatgpt.file (Stutter.after 788) = Some "6"%string) /\
  (forall st, play None three_wrong = Ok st ->
              Gemini.file (Gemini.game_over_sequence st) = Some "0"%string).
Proof.
  split.
  - assert (Hr : Chatgpt.reachable (Stutter.after 787))
      by (apply reachable_run; constructor).
    assert (Hp : Chatgpt.game_state (Stutter.after 787) = Chatgpt.STATE_PLAYING)
      by (vm_compute; reflexivity).
    assert (Hn : Chatgpt.frame (Stutter.after 787) (Stutter.frame_input 787)
                 = Stutter.after 788) by (vm_compute; reflexivity).
    assert (Hg : Chatgpt.game_state (Stutter.after 788) = Chatgpt.STATE_GAMEOVER)
      by (vm_compute; reflexivity).
    assert (Hs : Chatgpt.score (Stutter.after 788) = 6) by (vm_compute; reflexivity).
    assert (Hh : Chatgpt.high_score (Stutter.after 787) = 0) by (vm_compute; reflexivity).
    destruct (proj1 C5_high_score_persistence (Stutter.after 787)
                (Stutter.frame_input 787) Hr Hp) as (_ & _ & H3).
    cbv zeta in H3. rewrite Hn in H3.
    destruct (H3 Hg) as [Hup _].
    split; [exact Hp|]. split; [exact Hg|]. split; [exact Hs|]. split; [exact Hh|].
    destruct Hup as [_ Hfile]; [lia|]. rewrite Hfile, Hs. reflexivity.
  - intros st Hrun.
    assert (Hr : Gemini.reachable st) by (eapply reachable_play; eauto).
    destruct (proj2 C5_high_score_persistence st Hr) as [Hfile _].
    rewrite Hfile. revert Hrun. vm_compute. intros H; injection H as <-. reflexivity.
Defined.

End ClaimC5Witness.

Section ClaimC2.
Import ChatgptSpec ChatgptInv GeminiSpec GeminiRuns.

(** C2, counterexample.  chatgpt.py, a game at 60 frames a second with one
    slow frame: after frame 786 one life is left and two red shapes of
    different speeds (3 and 3.5) are both one step above the zone row; frame
    787 resolves both as wrong matches and ends with lives = -1.  gemini.py:
    with one life left, a shape that leaves the screen and a wrong match in
    the same frame take lives to -1 as well. *)
Lemma C2_lives_fall_below_zero :
  (Chatgpt.reachable (Stutter.after 788) /\
   Chatgpt.lives (Stutter.after 787) = 1 /\
   Chatgpt.lives (Stutter.after 788) = -1 /\
   Chatgpt.game_state (Stutter.after 788) = Chatgpt.STATE_GAMEOVER) /\
  observe (fun st => (Gemini.game_over st, Gemini.lives st)) (DoubleMiss.after 348)
    = Ok (false, 1) /\
  observe (fun st => (Gemini.game_over st, Gemini.lives st)) (DoubleMiss.after 349)
    = Ok (true, -1).
Proof.
  split; [split; [apply reachable_run; constructor|]|]; by_evaluation.
Qed.

(** C2, amended.  In every reachable state lives is at most the starting
    number, and at least 1 while the game is still in play; it may be below 0
    once the game is over.  chatgpt.py: lives is at most 0 in the game-over
    state, a frame of play never raises lives, and it ends in the game-over
    state exactly when it leaves lives at 0 or less.  gemini.py: a frame never
    raises an exception or lives, and it sets [game_over] exactly when it
    leaves lives at 0 or less or a QUIT event arrived. *)
Theorem C2_lives_and_game_over :
  (forall st : Chatgpt.State,
      Chatgpt.reachable st ->
      Chatgpt.lives st <= Chatgpt.NUM_LIVES /\
      (Chatgpt.game_state st = Chatgpt.STATE_PLAYING -> 1 <= Chatgpt.lives st) /\
      (Chatgpt.game_state st = Chatgpt.STATE_GAMEOVER -> Chatgpt.lives st <= 0) /\
      forall inp : Chatgpt.Input,
        Chatgpt.game_state st = Chatgpt.STATE_PLAYING ->
        Chatgpt.lives (Chatgpt.frame st inp) <= Chatgpt.lives st /\
        (Chatgpt.game_state (Chatgpt.frame st inp) = Chatgpt.STATE_GAMEOVER
         <-> Chatgpt.lives (Chatgpt.frame st inp) <= 0)) /\
  (forall st : Gemini.State,
      Gemini.reachable st ->
      Gemini.lives st <= 3 /\
      (Gemini.game_over st = false -> 1 <= Gemini.lives st) /\
      forall inp : Gemini.Input,
        Gemini.game_over st = false ->
        exists st',
          Gemini.frame st inp = Ok st' /\
          Gemini.lives st' <= Gemini.lives st /\
          (Gemini.game_over st' = true
           <-> In QUIT (Gemini.events inp) \/ Gemini.lives st' <= 0)).
Proof.
  split.
  - intros st Hr.
    destruct (reachable_invariant st Hr) as (Hd & Hl & Hp & Hg & Hs).
    repeat split; auto.
    + destruct (handle_events_playing st inp H) as (Hg0 & _ & Hl0 & _).
      destruct (frame_playing st inp Hd Hg0) as (_ & Hl' & _).
      cbv zeta in *. rewrite Hl', Hl0.
      pose proof (tally_nonneg Mismatched (Chatgpt.collector (Chatgpt.handle_events inp st))
                    (live_shapes st inp)).
      pose proof (tally_nonneg MissedBelow (Chatgpt.collector (Chatgpt.handle_events inp st))
                    (live_shapes st inp)).
      lia.
    + destruct (chatgpt_frame_high_score st inp H Hd) as [Hiff _].
      cbv zeta in Hiff. apply Hiff.
    + destruct (chatgpt_frame_high_score st inp H Hd) as [Hiff _].
      cbv zeta in Hiff. apply Hiff.
  - intros st Hr.
    pose proof (reachable_invariant_g st Hr) as Hinv.
    destruct Hinv as (H1 & H2 & H3 & H4 & H5 & H6 & Hl & Hf & Hrest) eqn:E.
    split; [exact Hl|]. split; [exact Hf|]. intros inp Hgo.
    destruct (frame_spec st inp (reachable_invariant_g st Hr))
      as (st' & Hframe & _ & _ & Hl' & _ & _ & Hover & _).
    cbv zeta in *. exists st'. split; [exact Hframe|]. split; [|now apply Hover].
    unfold GeminiSpec.tally in Hl'. lia.
Qed.

(** C2, witness.  chatgpt.py: the last frame of the game with one slow frame.
    gemini.py: the last frame of the game with two misses in one frame. *)
Lemma C2_lives_and_game_over_witness :
  (Chatgpt.game_state (Stutter.after 787) = Chatgpt.STATE_PLAYING /\
   (Chatgpt.game_state (Chatgpt.frame (Stutter.after 787) (Stutter.frame_input 787))
      = Chatgpt.STATE_GAMEOVER
    <-> Chatgpt.lives (Chatgpt.frame (Stutter.after 787) (Stutter.frame_input 787)) <= 0)) /\
  (Gemini.game_over (final None (DoubleMiss.inputs 348)) = false /\
   exists st',
     Gemini.frame (final None (DoubleMiss.inputs 348)) (DoubleMiss.frame_input 348)
       = Ok st' /\
     Gemini.lives st' <= Gemini.lives (final None (DoubleMiss.inputs 348))).
Proof.
  split.
  - assert (Hr : Chatgpt.reachable (Stutter.after 787))
      by (apply reachable_run; constructor).
    assert (Hp : Chatgpt.game_state (Stutter.after 787) = Chatgpt.STATE_PLAYING)
      by (vm_compute; reflexivity).
    split; [exact Hp|].
    destruct (proj1 C2_lives_and_game_over (Stutter.after 787) Hr) as (_ & _ & _ & H).
    exact (proj2 (H (Stutter.frame_input 787) Hp)).
  - assert (E : play None (DoubleMiss.inputs 348)
                 = Ok (final None (DoubleMiss.inputs 348)))
      by (vm_compute; reflexivity).
    pose proof (reachable_play None (DoubleMiss.inputs 348) _ E) as Hr.
    assert (Hg : Gemini.game_over (final None (DoubleMiss.inputs 348)) = false)
      by (vm_compute; reflexivity).
    split; [exact Hg|].
    destruct (proj2 C2_lives_and_game_over _ Hr) as (_ & _ & H).
    destruct (H (DoubleMiss.frame_input 348) Hg) as (st' & Hf & Hl & _).
    exists st'. split; [exact Hf|exact Hl].
Defined.

End ClaimC2.

Section ClaimC7.
Import ChatgptSpec ChatgptInv GeminiSpec GeminiRuns.

Lemma chatgpt_play_score (inps : list Chatgpt.Input) (st : Chatgpt.State) :
  ChatgptInv.invariant st -> Chatgpt.score st <= Chatgpt.score (ChatgptSpec.play st inps).
Proof.
  revert st; induction inps as [|inp inps IH]; cbn [ChatgptSpec.play]; intros st Hinv; [lia|].
  destruct (Chatgpt.running st && _)%bool eqn:E; [|lia].
  apply andb_true_iff in E as [_ Hg].
  assert (Hplay : Chatgpt.game_state st = Chatgpt.STATE_PLAYING)
    by (destruct (Chatgpt.game_state st); try discriminate; reflexivity).
  specialize (IH (Chatgpt.frame st inp) (frame_invariant st inp Hinv)).
  destruct (handle_events_playing st inp Hplay) as (Hg0 & Hs0 & _).
  destruct (frame_playing st inp (proj1 Hinv) Hg0) as (Hs & _).
  cbv zeta in *.
  pose proof (tally_nonneg Matched (Chatgpt.collector (Chatgpt.handle_events inp st))
                (live_shapes st inp)).
  lia.
Qed.

Lemma gemini_collide_score (st st1 : Gemini.State) (shape : Gemini.Shape) :
  Gemini.collide st shape = Ok st1 ->
  Gemini.score st1
  = Gemini.score st
    + (if verdict_eqb (GeminiSpec.verdict (Gemini.zones st) shape) Matched then 1 else 0).
Proof.
  rewrite collide_cases.
  destruct (GeminiSpec.verdict (Gemini.zones st) shape); cbn [verdict_eqb];
    try (destruct (Gemini.list_remove _ _); cbn; [|discriminate]);
    intros H; injection H as <-; cbn; lia.
Qed.

(** C7.  In both programs the score moves only in the collision loop, and
    there by exactly 1 for each shape whose colour matches: handling events
    leaves it alone, the body of the loop adds 1 for a match and nothing
    otherwise, a frame of play adds the number of matched shapes, and over any
    run of frames of one game the score never decreases. *)
Theorem C7_score_counts_matches :
  ((forall (c : Chatgpt.CollectorZones.t) (a : Chatgpt.Tally) (shape : Chatgpt.FallingShape.t),
      Chatgpt.t_score (Chatgpt.check_shape c a shape)
      = Chatgpt.t_score a
        + (if verdict_eqb (ChatgptSpec.verdict c shape) Matched then 1 else 0)) /\
   (forall (st : Chatgpt.State) (inp : Chatgpt.Input),
      Chatgpt.reachable st ->
      Chatgpt.game_state st = Chatgpt.STATE_PLAYING ->
      Chatgpt.score (Chatgpt.handle_events inp st) = Chatgpt.score st /\
      Chatgpt.score (Chatgpt.frame st inp)
      = Chatgpt.score st
        + ChatgptSpec.tally Matched (Chatgpt.collector (Chatgpt.handle_events inp st))
            (live_shapes st inp)) /\
   (forall (st : Chatgpt.State) (inps : list Chatgpt.Input),
      Chatgpt.reachable st ->
      Chatgpt.score st <= Chatgpt.score (ChatgptSpec.play st inps))) /\
  ((forall (st st1 : Gemini.State) (shape : Gemini.Shape),
      Gemini.collide st shape = Ok st1 ->
      Gemini.score st1
      = Gemini.score st
        + (if verdict_eqb (GeminiSpec.verdict (Gemini.zones st) shape) Matched
           then 1 else 0)) /\
   (forall (st : Gemini.State) (inp : Gemini.Input),
      Gemini.reachable st ->
      Gemini.score (fold_left Gemini.handle_event (Gemini.events inp) st)
        = Gemini.score st /\
      exists st',
        Gemini.frame st inp = Ok st' /\
        Gemini.score st'
        = Gemini.score st
          + GeminiSpec.tally Matched (Gemini.zones (before_collisions st inp))
              (Gemini.shapes (before_collisions st inp))) /\
   (forall (st : Gemini.State) (inps : list Gemini.Input),
      Gemini.reachable st ->
      exists st', Gemini.run st inps = Ok st' /\ Gemini.score st <= Gemini.score st')).
Proof.
  split; [split; [|split]|split; [|split]].
  - intros c a shape. now destruct (check_shape_verdict c a shape) as [H _].
  - intros st inp Hr Hplay.
    destruct (handle_events_playing st inp Hplay) as (Hg0 & Hs0 & _).
    destruct (frame_playing st inp (proj1 (reachable_invariant st Hr)) Hg0) as (Hs & _).
    cbv zeta in *. split; [exact Hs0|]. now rewrite Hs, Hs0.
  - intros st inps Hr. apply chatgpt_play_score. now apply reachable_invariant.
  - exact gemini_collide_score.
  - intros st inp Hr. split.
    + now destruct (handle_events_fields (Gemini.events inp) st) as [H _].
    + destruct (frame_spec st inp (reachable_invariant_g st Hr))
        as (st' & Hf & _ & Hs & _).
      exists st'. split; [exact Hf|exact Hs].
  - intros st inps Hr.
    destruct (run_total inps st (reachable_invariant_g st Hr))
      as (st' & Hrun & _ & Hs & _).
    exists st'. split; [exact Hrun|exact Hs].
Qed.

(** C7, witness.  chatgpt.py: frame 315 of the game with one slow frame
    matches the first shape, and the score goes from 0 to 1.  gemini.py: a
    green shape in the middle column is matched in frame 150. *)
Lemma C7_score_counts_matches_witness :
  (Chatgpt.game_state (Stutter.after 315) = Chatgpt.STATE_PLAYING /\
   Chatgpt.score (Stutter.after 315) = 0 /\
   Chatgpt.score (Chatgpt.frame (Stutter.after 315) (Stutter.frame_input 315)) = 1 /\
   ChatgptSpec.tally Matched
     (Chatgpt.collector (Chatgpt.handle_events (Stutter.frame_input 315) (Stutter.after 315)))
     (live_shapes (Stutter.after 315) (Stutter.frame_input 315)) = 1) /\
  exists st',
    Gemini.frame (final None (one_right 150)) (quiet false GREEN 250) = Ok st' /\
    Gemini.score st' = Gemini.score (final None (one_right 150)) + 1.
Proof.
  split.
  - assert (Hr : Chatgpt.reachable (Stutter.after 315))
      by (apply reachable_run; constructor).
    assert (Hp : Chatgpt.game_state (Stutter.after 315) = Chatgpt.STATE_PLAYING)
      by (vm_compute; reflexivity).
    assert (H0 : Chatgpt.score (Stutter.after 315) = 0) by (vm_compute; reflexivity).
    assert (Ht : ChatgptSpec.tally Matched
              (Chatgpt.collector (Chatgpt.handle_events (Stutter.frame_input 315)
                                    (Stutter.after 315)))
              (live_shapes (Stutter.after 315) (Stutter.frame_input 315)) = 1)
      by (vm_compute; reflexivity).
    destruct (proj1 (proj2 (proj1 C7_score_counts_matches))
                (Stutter.after 315) (Stutter.frame_input 315) Hr Hp) as [_ Hs].
    split; [exact Hp|]. split; [exact H0|]. split; [|exact Ht].
    rewrite Hs, H0, Ht. reflexivity.
  - assert (E : GeminiRuns.play None (one_right 150) = Ok (final None (one_right 150)))
      by (vm_compute; reflexivity).
    pose proof (reachable_play None (one_right 150) _ E) as Hr.
    destruct (proj1 (proj2 (proj2 C7_score_counts_matches))
                (final None (one_right 150)) (quiet false GREEN 250) Hr)
      as (_ & st' & Hf & Hs).
    assert (Ht : GeminiSpec.tally Matched
              (Gemini.zones (before_collisions (final None (one_right 150))
                               (quiet false GREEN 250)))
              (Gemini.shapes (before_collisions (final None (one_right 150))
                                (quiet false GREEN 250))) = 1)
      by (vm_compute; reflexivity).
    exists st'. split; [exact Hf|]. rewrite Hs, Ht. reflexivity.
Defined.

End ClaimC7.

Section ClaimC4.
Import ChatgptSpec ChatgptInv GeminiSpec GeminiRuns.

Lemma gemini_collide_below (st st1 : Gemini.State) (shape : Gemini.Shape) :
  Gemini.Rect.y (Gemini.s_rect shape) > Gemini.screen_height ->
  Gemini.collide st shape = Ok st1 ->
  Gemini.lives st1 = Gemini.lives st - 1 /\
  Gemini.score st1 = Gemini.score st /\
  Gemini.list_remove shape (Gemini.shapes st) = Ok (Gemini.shapes st1) /\
  (Gemini.sounds st1 = Gemini.sounds st ++ [OnMiss] \/
   Gemini.sounds st1 = Gemini.sounds st ++ [OnMiss; OnGameOver]).
Proof.
  intros Hy. unfold Gemini.collide.
  replace (Gemini.Rect.y (Gemini.s_rect shape) >? Gemini.screen_height) with true
    by (symmetry; apply Z.gtb_lt; lia).
  destruct (Gemini.list_remove shape (Gemini.shapes st)) as [l|e]; cbn [bind];
    [|discriminate].
  intros H; injection H as <-. unfold Gemini.lose_life; cbn.
  repeat split. destruct (_ =? 0); auto.
Qed.

(** C4.  A shape that is below the screen without being at the zone row is a
    miss in both programs: the body of the collision loop takes one life,
    leaves the score alone, asks for the miss sound and removes the shape; the
    frame counts it among its misses, and the shape is not in the live list
    the frame leaves.  (chatgpt.py tests the zone row first; gemini.py tests
    the bottom of the screen first.  In the states [main] of chatgpt.py
    reaches, a shape below the screen is always at the zone row as well, see
    [below_is_at_zone_row], so there the branch is stated for every state
    with distinct shape objects.) *)
Theorem C4_off_screen_is_a_miss :
  (forall (st : Chatgpt.State) (inp : Chatgpt.Input) (s : Chatgpt.FallingShape.t),
      distinct_objects st ->
      Chatgpt.game_state (Chatgpt.handle_events inp st) = Chatgpt.STATE_PLAYING ->
      In s (live_shapes st inp) ->
      Chatgpt.reaches_zone (Chatgpt.collector (Chatgpt.handle_events inp st)) s = false ->
      Chatgpt.FallingShape.is_off_screen s = true ->
      let c := Chatgpt.collector (Chatgpt.handle_events inp st) in
      (forall a : Chatgpt.Tally,
          let a' := Chatgpt.check_shape c a s in
          Chatgpt.t_lives a' = Chatgpt.t_lives a - 1 /\
          Chatgpt.t_score a' = Chatgpt.t_score a /\
          Chatgpt.t_sounds a' = Chatgpt.t_sounds a ++ [OnMiss] /\
          Chatgpt.to_remove a' = Chatgpt.to_remove a ++ [s]) /\
      (forall s', In s' (Chatgpt.shapes (Chatgpt.frame st inp)) ->
                  Chatgpt.FallingShape.ident s' <> Chatgpt.FallingShape.ident s) /\
      Chatgpt.lives (Chatgpt.frame st inp)
      = Chatgpt.lives (Chatgpt.handle_events inp st)
        - ChatgptSpec.tally Mismatched c (live_shapes st inp)
        - ChatgptSpec.tally MissedBelow c (live_shapes st inp) /\
      1 <= ChatgptSpec.tally MissedBelow c (live_shapes st inp)) /\
  (forall (st : Gemini.State) (inp : Gemini.Input) (s : Gemini.Shape),
      Gemini.reachable st ->
      In s (Gemini.shapes (before_collisions st inp)) ->
      Gemini.Rect.y (Gemini.s_rect s) > Gemini.screen_height ->
      let zs := Gemini.zones (before_collisions st inp) in
      let live := Gemini.shapes (before_collisions st inp) in
      (forall st1 st2 : Gemini.State,
          Gemini.collide st1 s = Ok st2 ->
          Gemini.lives st2 = Gemini.lives st1 - 1 /\
          Gemini.score st2 = Gemini.score st1 /\
          Gemini.list_remove s (Gemini.shapes st1) = Ok (Gemini.shapes st2) /\
          (Gemini.sounds st2 = Gemini.sounds st1 ++ [OnMiss] \/
           Gemini.sounds st2 = Gemini.sounds st1 ++ [OnMiss; OnGameOver])) /\
      exists st',
        Gemini.frame st inp = Ok st' /\
        (forall s', In s' (Gemini.shapes st') -> value s' <> value s) /\
        Gemini.lives st'
        = Gemini.lives st - GeminiSpec.tally Mismatched zs live
                          - GeminiSpec.tally MissedBelow zs live /\
        1 <= GeminiSpec.tally MissedBelow zs live).
Proof.
  split.
  - intros st inp s Hd Hg Hin Hz Hoff c.
    assert (Hv : ChatgptSpec.verdict c s = MissedBelow).
    { unfold ChatgptSpec.verdict. fold c in Hz. now rewrite Hz, Hoff. }
    split; [|split; [|split]].
    + intros a. destruct (check_shape_verdict c a s) as (Hs & Hl & Hn & Hr).
      cbv zeta in *. unfold ChatgptSpec.request, ChatgptSpec.resolved in *.
      rewrite Hv in *. cbn [verdict_eqb negb] in *.
      repeat split; auto; lia.
    + apply chatgpt_resolved_gone; auto.
      unfold ChatgptSpec.resolved. fold c. now rewrite Hv.
    + now destruct (frame_playing st inp Hd Hg) as (_ & Hl & _).
    + eapply chatgpt_tally_member; eauto.
  - intros st inp s Hr Hin Hy zs live.
    assert (Hv : GeminiSpec.verdict zs s = MissedBelow).
    { unfold GeminiSpec.verdict.
      replace (Gemini.Rect.y (Gemini.s_rect s) >? Gemini.screen_height) with true
        by (symmetry; apply Z.gtb_lt; lia).
      reflexivity. }
    split.
    + intros st1 st2. now apply gemini_collide_below.
    + destruct (frame_spec st inp (reachable_invariant_g st Hr))
        as (st' & Hf & _ & _ & Hl & Hperm & _).
      cbv zeta in *. exists st'. split; [exact Hf|]. split; [|split].
      * eapply gemini_resolved_gone; [exact Hperm|]. fold zs. rewrite Hv. discriminate.
      * exact Hl.
      * eapply gemini_tally_member; eauto.
Qed.

(** C4, witness.  gemini.py: the shape that fell past the zone row where no
    zone stood is below the screen in frame 168, and the frame takes a life.
    chatgpt.py: the state with the collector row below the screen. *)
Lemma C4_off_screen_is_a_miss_witness :
  (In Fallthrough.lost
      (Gemini.shapes (before_collisions (final None (Fallthrough.inputs 168))
                        (Fallthrough.frame_input 168))) /\
   exists st',
     Gemini.frame (final None (Fallthrough.inputs 168)) (Fallthrough.frame_input 168)
       = Ok st' /\
     Gemini.shapes st' = [] /\
     Gemini.lives st' = Gemini.lives (final None (Fallthrough.inputs 168)) - 1) /\
  (In LowCollector.below (live_shapes LowCollector.state LowCollector.idle) /\
   Chatgpt.lives (Chatgpt.frame LowCollector.state LowCollector.idle) = 2).
Proof.
  split.
  - assert (E : GeminiRuns.play None (Fallthrough.inputs 168)
                 = Ok (final None (Fallthrough.inputs 168)))
      by (vm_compute; reflexivity).
    pose proof (reachable_play None (Fallthrough.inputs 168) _ E) as Hr.
    assert (Hlive : Gemini.shapes (before_collisions (final None (Fallthrough.inputs 168))
                                     (Fallthrough.frame_input 168))
                    = [Fallthrough.lost]) by (vm_compute; reflexivity).
    assert (Hin : In Fallthrough.lost
                     (Gemini.shapes (before_collisions (final None (Fallthrough.inputs 168))
                                       (Fallthrough.frame_input 168))))
      by (rewrite Hlive; left; reflexivity).
    assert (Hy : Gemini.Rect.y (Gemini.s_rect Fallthrough.lost) > Gemini.screen_height)
      by (vm_compute; reflexivity).
    split; [exact Hin|].
    destruct (proj2 C4_off_screen_is_a_miss _ (Fallthrough.frame_input 168)
                Fallthrough.lost Hr Hin Hy) as (_ & st' & Hf & Hgone & Hl & _).
    exists st'. split; [exact Hf|]. split.
    + destruct (Gemini.shapes st') as [|s' l] eqn:Es; [reflexivity|].
      exfalso.
      assert (Hsame : value s' = value Fallthrough.lost).
      { revert Hf Es. vm_compute. intros Hf. injection Hf as <-. discriminate. }
      exact (Hgone s' (or_introl eq_refl) Hsame).
    + rewrite Hl, Hlive. vm_compute. reflexivity.
  - assert (Hd : distinct_objects LowCollector.state).
    { split; cbn; repeat constructor; auto. }
    assert (Hg : Chatgpt.game_state (Chatgpt.handle_events LowCollector.idle
                                        LowCollector.state) = Chatgpt.STATE_PLAYING)
      by reflexivity.
    assert (Hin : In LowCollector.below (live_shapes LowCollector.state LowCollector.idle))
      by (left; reflexivity).
    split; [exact Hin|].
    destruct (proj1 C4_off_screen_is_a_miss LowCollector.state LowCollector.idle
                LowCollector.below Hd Hg Hin eq_refl eq_refl) as (_ & _ & Hl & _).
    rewrite Hl. vm_compute. reflexivity.
Defined.

End ClaimC4.

Section ClaimC1.
Import ChatgptSpec ChatgptInv GeminiSpec GeminiRuns ZoneRowContract.

(** C1, counterexample.  gemini.py has no active colour.  With the zones
    never rotated, a red shape that comes down in the left column scores, and
    so does a green shape that comes down in the middle column: whatever
    colour is called active at that rotation, one of the two has another
    colour, is at the zone row, and costs no life. *)
Lemma C1_gemini_has_no_active_colour : ~ exists active, contract active.
Proof.
  intros [active H].
  assert (El : GeminiRuns.play None (one_left 150) = Ok (final None (one_left 150)))
    by (vm_compute; reflexivity).
  assert (Er : GeminiRuns.play None (one_right 150) = Ok (final None (one_right 150)))
    by (vm_compute; reflexivity).
  pose proof (reachable_play _ _ _ El) as Rl.
  pose proof (reachable_play _ _ _ Er) as Rr.
  assert (Fl : Gemini.frame (final None (one_left 150)) (quiet false RED 50)
               = Ok (next (final None (one_left 150)) (quiet false RED 50)))
    by (vm_compute; reflexivity).
  assert (Fr : Gemini.frame (final None (one_right 150)) (quiet false GREEN 250)
               = Ok (next (final None (one_right 150)) (quiet false GREEN 250)))
    by (vm_compute; reflexivity).
  assert (Sl : Gemini.shapes (before_collisions (final None (one_left 150))
                                (quiet false RED 50)) = [red_on_the_left])
    by (vm_compute; reflexivity).
  assert (Sr : Gemini.shapes (before_collisions (final None (one_right 150))
                                (quiet false GREEN 250)) = [green_in_the_middle])
    by (vm_compute; reflexivity).
  assert (Pl : Gemini.zone_position (before_collisions (final None (one_left 150))
                                       (quiet false RED 50)) = 1)
    by (vm_compute; reflexivity).
  assert (Pr : Gemini.zone_position (before_collisions (final None (one_right 150))
                                       (quiet false GREEN 250)) = 1)
    by (vm_compute; reflexivity).
  pose proof (H _ _ _ _ Rl Fl Sl eq_refl) as Hl.
  pose proof (H _ _ _ _ Rr Fr Sr eq_refl) as Hr.
  rewrite Pl in Hl. rewrite Pr in Hr.
  assert (Ll : Gemini.lives (next (final None (one_left 150)) (quiet false RED 50)) = 3)
    by (vm_compute; reflexivity).
  assert (Lr : Gemini.lives (next (final None (one_right 150)) (quiet false GREEN 250)) = 3)
    by (vm_compute; reflexivity).
  assert (Ll0 : Gemini.lives (final None (one_left 150)) = 3) by (vm_compute; reflexivity).
  assert (Lr0 : Gemini.lives (final None (one_right 150)) = 3) by (vm_compute; reflexivity).
  rewrite Ll, Ll0 in Hl. rewrite Lr, Lr0 in Hr.
  cbn [red_on_the_left green_in_the_middle Gemini.s_color] in Hl, Hr.
  destruct (active 1); cbn [colour_eqb] in Hl, Hr; lia.
Qed.

Lemma gemini_collide_at_zone (st st1 : Gemini.State) (shape : Gemini.Shape)
      (zone : Gemini.Zone) :
  Gemini.Rect.y (Gemini.s_rect shape) <= Gemini.screen_height ->
  first_zone (Gemini.zones st) shape = Some zone ->
  Gemini.collide st shape = Ok st1 ->
  if colour_eqb (Gemini.s_color shape) (Gemini.color zone)
  then Gemini.score st1 = Gemini.score st + 1 /\
       Gemini.lives st1 = Gemini.lives st /\
       Gemini.sounds st1 = Gemini.sounds st ++ [OnMatch]
  else Gemini.score st1 = Gemini.score st /\
       Gemini.lives st1 = Gemini.lives st - 1 /\
       (Gemini.sounds st1 = Gemini.sounds st ++ [OnMiss] \/
        Gemini.sounds st1 = Gemini.sounds st ++ [OnMiss; OnGameOver]).
Proof.
  intros Hy Hz. unfold Gemini.collide. unfold first_zone in Hz.
  replace (Gemini.Rect.y (Gemini.s_rect shape) >? Gemini.screen_height) with false
    by (symmetry; rewrite Z.gtb_ltb; apply Z.ltb_ge; lia).
  rewrite Hz. destruct (colour_eqb _ _).
  - destruct (Gemini.list_remove _ _); cbn [bind]; [|discriminate].
    intros H; injection H as <-. cbn. auto.
  - destruct (Gemini.list_remove _ _); cbn [bind]; [|discriminate].
    intros H; injection H as <-. unfold Gemini.lose_life; cbn.
    repeat split. destruct (_ =? 0); auto.
Qed.

Lemma gemini_verdict_at_zone (zs : list Gemini.Zone) (shape : Gemini.Shape)
      (zone : Gemini.Zone) :
  Gemini.Rect.y (Gemini.s_rect shape) <= Gemini.screen_height ->
  first_zone zs shape = Some zone ->
  GeminiSpec.verdict zs shape
  = (if colour_eqb (Gemini.s_color shape) (Gemini.color zone)
     then Matched else Mismatched) /\
  Gemini.Rect.colliderect (Gemini.s_rect shape) (Gemini.rect zone) = true /\
  In zone zs.
Proof.
  intros Hy Hz. unfold GeminiSpec.verdict.
  replace (Gemini.Rect.y (Gemini.s_rect shape) >? Gemini.screen_height) with false
    by (symmetry; rewrite Z.gtb_ltb; apply Z.ltb_ge; lia).
  rewrite Hz. split; [reflexivity|].
  unfold first_zone in Hz. apply find_some in Hz. tauto.
Qed.

(** C1, amended.  chatgpt.py, for every live shape of a frame of play whose
    lower edge has reached the collector row ([y + size >= collector.y]): the
    body of the collision loop compares it with the centre colour; a match
    adds 1 to the score and asks for the match sound, anything else takes one
    life and asks for the miss sound; either way the shape is marked for
    removal and never takes the off-screen branch; the frame counts it once in
    its totals, the live list it leaves holds exactly the shapes not resolved,
    and the object never appears in a live list again.  gemini.py, for every
    live shape that is not below the screen and overlaps a zone rectangle: it
    is compared with the colour of the first zone it overlaps, with the same
    effects on score, lives and sounds, and no shape equal to it is left in
    the live list; a shape that overlaps no zone is left alone. *)
Theorem C1_zone_row_resolution :
  (forall (st : Chatgpt.State) (inp : Chatgpt.Input) (s : Chatgpt.FallingShape.t),
      Chatgpt.reachable st ->
      Chatgpt.game_state (Chatgpt.handle_events inp st) = Chatgpt.STATE_PLAYING ->
      In s (live_shapes st inp) ->
      Chatgpt.reaches_zone (Chatgpt.collector (Chatgpt.handle_events inp st)) s = true ->
      let st0 := Chatgpt.handle_events inp st in
      let c := Chatgpt.collector st0 in
      let st' := Chatgpt.frame st inp in
      (forall a : Chatgpt.Tally,
          let a' := Chatgpt.check_shape c a s in
          (if colour_eqb (Chatgpt.FallingShape.colour s)
                         (Chatgpt.CollectorZones.get_centre_colour c)
           then Chatgpt.t_score a' = Chatgpt.t_score a + 1 /\
                Chatgpt.t_lives a' = Chatgpt.t_lives a /\
                Chatgpt.t_sounds a' = Chatgpt.t_sounds a ++ [OnMatch]
           else Chatgpt.t_score a' = Chatgpt.t_score a /\
                Chatgpt.t_lives a' = Chatgpt.t_lives a - 1 /\
                Chatgpt.t_sounds a' = Chatgpt.t_sounds a ++ [OnMiss]) /\
          Chatgpt.to_remove a' = Chatgpt.to_remove a ++ [s]) /\
      ChatgptSpec.verdict c s
      = (if colour_eqb (Chatgpt.FallingShape.colour s)
                       (Chatgpt.CollectorZones.get_centre_colour c)
         then Matched else Mismatched) /\
      Chatgpt.score st' = Chatgpt.score st0 + ChatgptSpec.tally Matched c (live_shapes st inp) /\
      Chatgpt.lives st'
      = Chatgpt.lives st0 - ChatgptSpec.tally Mismatched c (live_shapes st inp)
                          - ChatgptSpec.tally MissedBelow c (live_shapes st inp) /\
      Chatgpt.shapes st'
      = filter (fun x => negb (ChatgptSpec.resolved c x)) (live_shapes st inp) /\
      (forall (inps : list Chatgpt.Input) (s' : Chatgpt.FallingShape.t),
          In s' (Chatgpt.shapes (Chatgpt.run st' inps)) ->
          Chatgpt.FallingShape.ident s' <> Chatgpt.FallingShape.ident s)) /\
  (forall (st : Gemini.State) (inp : Gemini.Input) (s : Gemini.Shape) (zone : Gemini.Zone),
      Gemini.reachable st ->
      In s (Gemini.shapes (before_collisions st inp)) ->
      Gemini.Rect.y (Gemini.s_rect s) <= Gemini.screen_height ->
      first_zone (Gemini.zones (before_collisions st inp)) s = Some zone ->
      let zs := Gemini.zones (before_collisions st inp) in
      let live := Gemini.shapes (before_collisions st inp) in
      (forall st1 st2 : Gemini.State,
          Gemini.zones st1 = zs ->
          Gemini.collide st1 s = Ok st2 ->
          if colour_eqb (Gemini.s_color s) (Gemini.color zone)
          then Gemini.score st2 = Gemini.score st1 + 1 /\
               Gemini.lives st2 = Gemini.lives st1 /\
               Gemini.sounds st2 = Gemini.sounds st1 ++ [OnMatch]
          else Gemini.score st2 = Gemini.score st1 /\
               Gemini.lives st2 = Gemini.lives st1 - 1 /\
               (Gemini.sounds st2 = Gemini.sounds st1 ++ [OnMiss] \/
                Gemini.sounds st2 = Gemini.sounds st1 ++ [OnMiss; OnGameOver])) /\
      Gemini.Rect.colliderect (Gemini.s_rect s) (Gemini.rect zone) = true /\
      exists st',
        Gemini.frame st inp = Ok st' /\
        (forall s', In s' (Gemini.shapes st') -> value s' <> value s) /\
        Gemini.score st' = Gemini.score st + GeminiSpec.tally Matched zs live /\
        Gemini.lives st' = Gemini.lives st - GeminiSpec.tally Mismatched zs live
                                           - GeminiSpec.tally MissedBelow zs live /\
        1 <= GeminiSpec.tally
               (if colour_eqb (Gemini.s_color s) (Gemini.color zone)
                then Matched else Mismatched) zs live) /\
  (forall (st : Gemini.State) (s : Gemini.Shape),
      Gemini.Rect.y (Gemini.s_rect s) <= Gemini.screen_height ->
      first_zone (Gemini.zones st) s = None ->
      Gemini.collide st s = Ok st).
Proof.
  split; [|split].
  - intros st inp s Hr Hg Hin Hz st0 c st'.
    pose proof (reachable_invariant st Hr) as Hinv.
    destruct Hinv as (Hd & _).
    assert (Hv : ChatgptSpec.verdict c s
                 = (if colour_eqb (Chatgpt.FallingShape.colour s)
                                  (Chatgpt.CollectorZones.get_centre_colour c)
                    then Matched else Mismatched)).
    { unfold ChatgptSpec.verdict. fold st0 c in Hz. now rewrite Hz. }
    assert (Hres : ChatgptSpec.resolved c s = true).
    { unfold ChatgptSpec.resolved. rewrite Hv. now destruct (colour_eqb _ _). }
    destruct (frame_playing st inp Hd Hg) as (Hs & Hl & Hsh & _).
    cbv zeta in Hs, Hl, Hsh. fold st0 c st' in Hs, Hl, Hsh.
    split; [|split; [exact Hv|split; [exact Hs|split; [exact Hl|split; [exact Hsh|]]]]].
    + intros a. destruct (check_shape_verdict c a s) as (Hs1 & Hl1 & Hn1 & Hr1).
      cbv zeta in *. unfold ChatgptSpec.request in Hn1. rewrite Hres in Hr1.
      rewrite Hv in Hs1, Hl1, Hn1.
      destruct (colour_eqb _ _); cbn [verdict_eqb] in *; repeat split; auto; lia.
    + intros inps s' Hin'.
      apply (ident_never_returns (Chatgpt.FallingShape.ident s) inps st'); auto.
      * now apply frame_distinct.
      * assert (Hlt : Forall (fun x => (Chatgpt.FallingShape.ident x
                                         < Chatgpt.fresh (Chatgpt.spawn inp st0))%nat)
                             (live_shapes st inp)).
        { apply (update_shapes_distinct (Chatgpt.spawn inp st0)).
          now apply spawn_distinct, handle_events_distinct. }
        rewrite Forall_forall in Hlt. specialize (Hlt s Hin).
        unfold st', Chatgpt.frame, Chatgpt.update_logic. rewrite Hg. fold st0.
        destruct (check_game_over_keeps
                    (Chatgpt.resolve_shapes (Chatgpt.update_shapes (Chatgpt.spawn inp st0))))
          as (_ & -> & _).
        exact Hlt.
      * now apply chatgpt_resolved_gone.
  - intros st inp s zone Hr Hin Hy Hz zs live.
    destruct (gemini_verdict_at_zone zs s zone Hy Hz) as (Hv & Hcol & _).
    split; [|split; [exact Hcol|]].
    + intros st1 st2 Hzs. apply gemini_collide_at_zone; auto. now rewrite Hzs.
    + destruct (frame_spec st inp (reachable_invariant_g st Hr))
        as (st' & Hf & _ & Hs & Hl & Hperm & _).
      cbv zeta in *. exists st'.
      split; [exact Hf|]. split; [|split; [exact Hs|split; [exact Hl|]]].
      * eapply gemini_resolved_gone; [exact Hperm|]. fold zs. rewrite Hv.
        destruct (colour_eqb _ _); discriminate.
      * eapply gemini_tally_member; eauto.
  - intros st s Hy Hz. unfold Gemini.collide. unfold first_zone in Hz.
    replace (Gemini.Rect.y (Gemini.s_rect s) >? Gemini.screen_height) with false
      by (symmetry; rewrite Z.gtb_ltb; apply Z.ltb_ge; lia).
    now rewrite Hz.
Qed.

End ClaimC1.

Section ClaimC1Witness.
Import ChatgptSpec GeminiSpec GeminiRuns ZoneRowContract.

(** C1, witness.  chatgpt.py: in frame 315 of the game with one slow frame the
    first shape, green, is at the collector row under the green centre and is
    matched.  gemini.py: the red shape in the left column overlaps the red
    zone in frame 150 and is matched. *)
Lemma C1_zone_row_resolution_witness :
  (In FirstArrival.shape (live_shapes (Stutter.after 315) (Stutter.frame_input 315)) /\
   ChatgptSpec.verdict
     (Chatgpt.collector (Chatgpt.handle_events (Stutter.frame_input 315) (Stutter.after 315)))
     FirstArrival.shape = Matched /\
   forall s', In s' (Chatgpt.shapes (Stutter.after 788)) ->
              Chatgpt.FallingShape.ident s' <> 0%nat) /\
  (first_zone (Gemini.zones (before_collisions (final None (one_left 150))
                               (quiet false RED 50))) red_on_the_left
   = Some {| Gemini.color := RED; Gemini.rect := Gemini.Rect.mk 0 750 200 50 |} /\
   exists st',
     Gemini.frame (final None (one_left 150)) (quiet false RED 50) = Ok st' /\
     forall s', In s' (Gemini.shapes st') -> value s' <> value red_on_the_left).
Proof.
  split.
  - assert (Hr : Chatgpt.reachable (Stutter.after 315))
      by (apply reachable_run; constructor).
    assert (Hg : Chatgpt.game_state
                   (Chatgpt.handle_events (Stutter.frame_input 315) (Stutter.after 315))
                 = Chatgpt.STATE_PLAYING) by (vm_compute; reflexivity).
    assert (Hin : In FirstArrival.shape
                     (live_shapes (Stutter.after 315) (Stutter.frame_input 315)))
      by (vm_compute; left; reflexivity).
    assert (Hz : Chatgpt.reaches_zone
                   (Chatgpt.collector
                      (Chatgpt.handle_events (Stutter.frame_input 315) (Stutter.after 315)))
                   FirstArrival.shape = true) by (vm_compute; reflexivity).
    assert (Hc : colour_eqb (Chatgpt.FallingShape.colour FirstArrival.shape)
                   (Chatgpt.CollectorZones.get_centre_colour
                      (Chatgpt.collector
                         (Chatgpt.handle_events (Stutter.frame_input 315)
                            (Stutter.after 315)))) = true) by (vm_compute; reflexivity).
    assert (Hrun : Chatgpt.run
                     (Chatgpt.frame (Stutter.after 315) (Stutter.frame_input 315))
                     (map Stutter.frame_input (seq 316 472))
                   = Stutter.after 788) by (vm_compute; reflexivity).
    destruct (proj1 C1_zone_row_resolution (Stutter.after 315) (Stutter.frame_input 315)
                FirstArrival.shape Hr Hg Hin Hz) as (_ & Hv & _ & _ & _ & Hnever).
    split; [exact Hin|]. split.
    + rewrite Hv, Hc. reflexivity.
    + intros s' Hs'. rewrite <- Hrun in Hs'.
      exact (Hnever _ s' Hs').
  - assert (E : GeminiRuns.play None (one_left 150) = Ok (final None (one_left 150)))
      by (vm_compute; reflexivity).
    pose proof (reachable_play _ _ _ E) as Hr.
    assert (Hin : In red_on_the_left
                     (Gemini.shapes (before_collisions (final None (one_left 150))
                                       (quiet false RED 50))))
      by (vm_compute; left; reflexivity).
    assert (Hy : Gemini.Rect.y (Gemini.s_rect red_on_the_left) <= Gemini.screen_height)
      by (vm_compute; discriminate).
    assert (Hz : first_zone (Gemini.zones (before_collisions (final None (one_left 150))
                                              (quiet false RED 50))) red_on_the_left
                 = Some {| Gemini.color := RED;
                           Gemini.rect := Gemini.Rect.mk 0 750 200 50 |})
      by (vm_compute; reflexivity).
    split; [exact Hz|].
    destruct (proj1 (proj2 C1_zone_row_resolution) _ (quiet false RED 50)
                red_on_the_left _ Hr Hin Hy Hz) as (_ & _ & st' & Hf & Hgone & _).
    exists st'. split; [exact Hf|exact Hgone].
Defined.

End ClaimC1Witness.

Section ClaimC6.
Import ChatgptSpec GeminiSpec GeminiRuns.

(** C6, counterexample.  gemini.py: the red shape spawned in frame 100, when
    the speed was 5, advances by 5 a frame up to frame 169 (305 to 310); the
    twentieth match in that frame raises the speed to 6, and in frame 170 the
    same shape advances by 6 (310 to 316). *)
Lemma C6_gemini_speed_up_is_retroactive :
  observe SpeedUp.view (GeminiRuns.play None (SpeedUp.inputs 101))
    = Ok (5, [(0%nat, 465); (1%nat, 460); (2%nat, 455); (3%nat, 450); (4%nat, 445); (5%nat, 440); (6%nat, 435);
              (7%nat, 430); (8%nat, 425); (9%nat, 420); (10%nat, 415); (11%nat, 410); (12%nat, 405);
              (13%nat, 400); (14%nat, 395); (15%nat, 390); (16%nat, 385); (17%nat, 380); (18%nat, 375);
              (19%nat, 370); (20%nat, -35)]) /\
  observe SpeedUp.view (GeminiRuns.play None (SpeedUp.inputs 169))
    = Ok (5, [(19%nat, 710); (20%nat, 305)]) /\
  observe SpeedUp.view (GeminiRuns.play None (SpeedUp.inputs 170))
    = Ok (6, [(20%nat, 310)]) /\
  observe SpeedUp.view (GeminiRuns.play None (SpeedUp.inputs 171))
    = Ok (6, [(20%nat, 316)]).
Proof. by_evaluation. Qed.

Lemma gemini_before_collisions_shapes (st : Gemini.State) (inp : Gemini.Input) :
  Gemini.shapes (before_collisions st inp)
  = map (Gemini.fall (Gemini.shape_speed st))
      (Gemini.shapes st ++
       if Gemini.spawn_due inp
       then [ {| Gemini.obj := Gemini.fresh st; Gemini.s_type := Gemini.draw_type inp;
                 Gemini.s_color := Gemini.draw_color inp;
                 Gemini.s_rect := Gemini.Rect.mk (Gemini.draw_x inp)
                                    (0 - Gemini.shape_size)
                                    Gemini.shape_size Gemini.shape_size |} ]
       else []).
Proof.
  destruct (handle_events_fields (Gemini.events inp) st)
    as (_ & _ & _ & E4 & _ & E6 & _ & _ & E9 & _).
  cbv zeta in *. unfold before_collisions, Gemini.move_shapes, Gemini.spawn, Gemini.move_zones.
  destruct (Gemini.spawn_due inp); cbn; rewrite E4, E6, ?E9, ?app_nil_r; reflexivity.
Qed.

(** C6, amended.  chatgpt.py: a shape is created with the fall speed current
    at its spawn, [update] moves a shape by the speed stored in it and leaves
    that speed alone, and every shape a frame of play leaves is the moved copy
    of a shape that was live before (same speed) or of the shape spawned in
    this frame at the speed current after the events; so a raise of the
    current speed reaches only shapes spawned later.  gemini.py: shapes store
    no speed; the movement step of a frame advances every live shape, old or
    just spawned, by the current [shape_speed], so a raise applies to all live
    shapes from the next frame on. *)
Theorem C6_fall_speed_of_a_shape :
  ((forall (id : nat) (col : Colour) (k : ShapeType) (x0 : Z) (v : Q),
       Chatgpt.FallingShape.speed (Chatgpt.FallingShape.init id col k x0 v) = v) /\
   (forall s : Chatgpt.FallingShape.t,
       Chatgpt.FallingShape.speed (Chatgpt.FallingShape.update s)
         = Chatgpt.FallingShape.speed s /\
       Chatgpt.FallingShape.y (Chatgpt.FallingShape.update s)
         = (Chatgpt.FallingShape.y s + Chatgpt.FallingShape.speed s)%Q) /\
   (forall (st : Chatgpt.State) (inp : Chatgpt.Input) (s' : Chatgpt.FallingShape.t),
       Chatgpt.reachable st ->
       Chatgpt.game_state st = Chatgpt.STATE_PLAYING ->
       In s' (Chatgpt.shapes (Chatgpt.frame st inp)) ->
       (exists s0, In s0 (Chatgpt.shapes st) /\ s' = Chatgpt.FallingShape.update s0) \/
       ((Chatgpt.current_time inp - Chatgpt.last_spawn_time st
           >? Chatgpt.SHAPE_SPAWN_INTERVAL) = true /\
        s' = Chatgpt.FallingShape.update
               (Chatgpt.FallingShape.init (Chatgpt.fresh st) (Chatgpt.draw_colour inp)
                  (Chatgpt.draw_shape_type inp) (Chatgpt.draw_x inp)
                  (Chatgpt.current_fall_speed st))))) /\
  (forall (st : Gemini.State) (inp : Gemini.Input),
      Gemini.shapes (before_collisions st inp)
      = map (Gemini.fall (Gemini.shape_speed st))
          (Gemini.shapes st ++
           if Gemini.spawn_due inp
           then [ {| Gemini.obj := Gemini.fresh st; Gemini.s_type := Gemini.draw_type inp;
                     Gemini.s_color := Gemini.draw_color inp;
                     Gemini.s_rect := Gemini.Rect.mk (Gemini.draw_x inp)
                                        (0 - Gemini.shape_size)
                                        Gemini.shape_size Gemini.shape_size |} ]
           else []) /\
      forall s : Gemini.Shape,
        Gemini.Rect.y (Gemini.s_rect (Gemini.fall (Gemini.shape_speed st) s))
        = Gemini.Rect.y (Gemini.s_rect s) + Gemini.shape_speed st).
Proof.
  split; [split; [|split]|].
  - reflexivity.
  - intros s. split; reflexivity.
  - intros st inp s' Hr Hplay Hin.
    pose proof (reachable_invariant st Hr) as (Hd & _).
    destruct (handle_events_playing st inp Hplay)
      as (Hg0 & _ & _ & _ & _ & _ & _ & Hv0 & _).
    assert (Hls : Chatgpt.last_spawn_time (Chatgpt.handle_events inp st)
                  = Chatgpt.last_spawn_time st).
    { clear - Hplay. unfold Chatgpt.handle_events. generalize (Chatgpt.events inp) as evs.
      intros evs; revert st Hplay; induction evs as [|ev evs IH]; cbn; intros st Hplay; auto.
      assert (H : Chatgpt.game_state
                    (Chatgpt.handle_event (Chatgpt.ticks_at_events inp) st ev)
                  = Chatgpt.STATE_PLAYING /\
                  Chatgpt.last_spawn_time
                    (Chatgpt.handle_event (Chatgpt.ticks_at_events inp) st ev)
                  = Chatgpt.last_spawn_time st).
      { destruct ev as [|key|]; cbn; rewrite ?Hplay; auto. destruct key; cbn; auto. }
      destruct H as [Hg Hl]. rewrite <- Hl. now apply IH. }
    destruct (frame_shapes_origin st inp s' Hd Hin) as [[Hn _]|[_ H]].
    + cbv zeta in Hn. congruence.
    + cbv zeta in H. rewrite Hv0, Hls in H. exact H.
  - intros st inp. split; [apply gemini_before_collisions_shapes|reflexivity].
Qed.

(** C6, witness.  chatgpt.py: frame 568 of the game with one slow frame spawns
    a shape at the raised speed 3.5 while the four shapes in flight keep
    speed 3. *)
Lemma C6_fall_speed_of_a_shape_witness :
  Chatgpt.game_state (Stutter.after 568) = Chatgpt.STATE_PLAYING /\
  In SpeedUp.newcomer (Chatgpt.shapes (Chatgpt.frame (Stutter.after 568)
                                         (Stutter.frame_input 568))) /\
  ((exists s0, In s0 (Chatgpt.shapes (Stutter.after 568)) /\
               SpeedUp.newcomer = Chatgpt.FallingShape.update s0) \/
   ((Chatgpt.current_time (Stutter.frame_input 568)
       - Chatgpt.last_spawn_time (Stutter.after 568)
       >? Chatgpt.SHAPE_SPAWN_INTERVAL) = true /\
    SpeedUp.newcomer
    = Chatgpt.FallingShape.update
        (Chatgpt.FallingShape.init (Chatgpt.fresh (Stutter.after 568))
           (Chatgpt.draw_colour (Stutter.frame_input 568))
           (Chatgpt.draw_shape_type (Stutter.frame_input 568))
           (Chatgpt.draw_x (Stutter.frame_input 568))
           (Chatgpt.current_fall_speed (Stutter.after 568))))).
Proof.
  assert (Hr : Chatgpt.reachable (Stutter.after 568))
    by (apply reachable_run; constructor).
  assert (Hp : Chatgpt.game_state (Stutter.after 568) = Chatgpt.STATE_PLAYING)
    by (vm_compute; reflexivity).
  assert (Hin : In SpeedUp.newcomer
                   (Chatgpt.shapes (Chatgpt.frame (Stutter.after 568)
                                      (Stutter.frame_input 568))))
    by (vm_compute; tauto).
  split; [exact Hp|]. split; [exact Hin|].
  exact (proj2 (proj2 (proj1 C6_fall_speed_of_a_shape))
           (Stutter.after 568) (Stutter.frame_input 568) SpeedUp.newcomer Hr Hp Hin).
Defined.

End ClaimC6.

Section ClaimC10.
Import GeminiSpec GeminiRuns ZoneRowContract Rotation.

(** C10.  gemini.py resolves a shape that is not below the screen against the
    first zone, in list order, whose rectangle its own rectangle overlaps: that
    zone's colour alone decides between the matching and the wrong-match
    branch of the loop body.  So a shape can match a zone that is not in the
    centre: with the zones never rotated and green in the centre, the red
    shape that comes down at x = 50 overlaps the red zone at the left edge
    (x = 0) and scores, and so does the green shape at x = 250 under the green
    centre zone. *)
Theorem C10_gemini_matches_the_overlapped_zone :
  (forall (st st1 : Gemini.State) (s : Gemini.Shape) (zone : Gemini.Zone),
      Gemini.Rect.y (Gemini.s_rect s) <= Gemini.screen_height ->
      first_zone (Gemini.zones st) s = Some zone ->
      In zone (Gemini.zones st) /\
      Gemini.Rect.colliderect (Gemini.s_rect s) (Gemini.rect zone) = true /\
      GeminiSpec.verdict (Gemini.zones st) s
      = (if colour_eqb (Gemini.s_color s) (Gemini.color zone)
         then Matched else Mismatched) /\
      (Gemini.collide st s = Ok st1 ->
       if colour_eqb (Gemini.s_color s) (Gemini.color zone)
       then Gemini.score st1 = Gemini.score st + 1 /\ Gemini.lives st1 = Gemini.lives st
       else Gemini.score st1 = Gemini.score st /\ Gemini.lives st1 = Gemini.lives st - 1)) /\
  (let st := final None (one_left 150) in
   let inp := quiet false RED 50 in
   Gemini.reachable st /\
   Gemini.zone_position (before_collisions st inp) = 1 /\
   centre_colour (before_collisions st inp) = Some GREEN /\
   Gemini.shapes (before_collisions st inp) = [red_on_the_left] /\
   first_zone (Gemini.zones (before_collisions st inp)) red_on_the_left
   = Some {| Gemini.color := RED; Gemini.rect := Gemini.Rect.mk 0 750 200 50 |} /\
   Gemini.frame st inp = Ok (next st inp) /\
   Gemini.score (next st inp) = Gemini.score st + 1 /\
   Gemini.lives (next st inp) = Gemini.lives st) /\
  (let st := final None (one_right 150) in
   let inp := quiet false GREEN 250 in
   Gemini.reachable st /\
   Gemini.zone_position (before_collisions st inp) = 1 /\
   Gemini.shapes (before_collisions st inp) = [green_in_the_middle] /\
   first_zone (Gemini.zones (before_collisions st inp)) green_in_the_middle
   = Some {| Gemini.color := GREEN; Gemini.rect := Gemini.Rect.mk 200 750 200 50 |} /\
   Gemini.frame st inp = Ok (next st inp) /\
   Gemini.score (next st inp) = Gemini.score st + 1 /\
   Gemini.lives (next st inp) = Gemini.lives st).
Proof.
  split; [|split].
  - intros st st1 s zone Hy Hz.
    destruct (gemini_verdict_at_zone (Gemini.zones st) s zone Hy Hz) as (Hv & Hc & Hin).
    split; [exact Hin|]. split; [exact Hc|]. split; [exact Hv|].
    intros Hcol. pose proof (gemini_collide_at_zone st st1 s zone Hy Hz Hcol) as H.
    destruct (colour_eqb _ _); tauto.
  - cbv zeta. split.
    + apply (reachable_play None (one_left 150)). vm_compute. reflexivity.
    + by_evaluation.
  - cbv zeta. split.
    + apply (reachable_play None (one_right 150)). vm_compute. reflexivity.
    + by_evaluation.
Qed.

(** C10, witness: the general statement at the red shape in the left
    column. *)
Lemma C10_gemini_matches_the_overlapped_zone_witness :
  Gemini.Rect.y (Gemini.s_rect red_on_the_left) <= Gemini.screen_height /\
  first_zone (Gemini.zones (before_collisions (final None (one_left 150))
                              (quiet false RED 50))) red_on_the_left
  = Some {| Gemini.color := RED; Gemini.rect := Gemini.Rect.mk 0 750 200 50 |} /\
  GeminiSpec.verdict (Gemini.zones (before_collisions (final None (one_left 150))
                                      (quiet false RED 50))) red_on_the_left
  = Matched.
Proof.
  assert (Hy : Gemini.Rect.y (Gemini.s_rect red_on_the_left) <= Gemini.screen_height)
    by (vm_compute; discriminate).
  assert (Hz : first_zone (Gemini.zones (before_collisions (final None (one_left 150))
                                            (quiet false RED 50))) red_on_the_left
               = Some {| Gemini.color := RED;
                         Gemini.rect := Gemini.Rect.mk 0 750 200 50 |})
    by (vm_compute; reflexivity).
  split; [exact Hy|]. split; [exact Hz|].
  destruct (proj1 C10_gemini_matches_the_overlapped_zone
              (before_collisions (final None (one_left 150)) (quiet false RED 50))
              (before_collisions (final None (one_left 150)) (quiet false RED 50))
              red_on_the_left _ Hy Hz) as (_ & _ & Hv & _).
  exact Hv.
Defined.

End ClaimC10.

(** * Further properties of the two programs *)

(** ** The text of the high-score file *)

Lemma digits_acc (d : Decimal.uint) (acc : positive) :
  digits (chars d) (Zpos acc) true = Some (Zpos (Pos.of_uint_acc d acc)).
Proof.
  revert acc; induction d; intros acc; cbn [chars NilEmpty.string_of_uint list_ascii_of_string];
    try reflexivity; fold (chars d); cbn [digits];
    match goal with |- context [digit_of ?c] =>
      let v := eval vm_compute in (digit_of c) in change (digit_of c) with v end;
    cbv iota beta; cbn [Pos.of_uint_acc];
    match goal with |- digits _ ?z true = _ =>
      match goal with |- _ = Some (Zpos (Pos.of_uint_acc _ ?p)) =>
        replace z with (Zpos p) by lia end end; apply IHd.
Qed.

Lemma digits_from_zero (d : Decimal.uint) (b : bool) :
  b = true \/ d <> Decimal.Nil ->
  digits (chars d) 0 b = Some (Z.of_N (Pos.of_uint d)).
Proof.
  revert b; induction d; intros b Hb;
    cbn [chars NilEmpty.string_of_uint list_ascii_of_string];
    try (fold (chars d); cbn [digits];
         match goal with |- context [digit_of ?c] =>
           let v := eval vm_compute in (digit_of c) in change (digit_of c) with v end;
         cbv iota beta; cbn [Pos.of_uint Z.mul Z.add Z.of_N]).
  - destruct Hb as [->|Hb]; [reflexivity|congruence].
  - apply IHd. now left.
  - apply (digits_acc d 1).
  - apply (digits_acc d 2).
  - apply (digits_acc d 3).
  - apply (digits_acc d 4).
  - apply (digits_acc d 5).
  - apply (digits_acc d 6).
  - apply (digits_acc d 7).
  - apply (digits_acc d 8).
  - apply (digits_acc d 9).
Qed.

Lemma chars_digits (d : Decimal.uint) : forallb is_digit (chars d) = true.
Proof.
  induction d; cbn [chars NilEmpty.string_of_uint list_ascii_of_string forallb];
    try reflexivity; fold (chars d); rewrite IHd; reflexivity.
Qed.

Lemma is_digit_not_space (c : ascii) : is_digit c = true -> is_space c = false.
Proof.
  unfold is_digit, digit_of, is_space.
  destruct (Nat.leb 48 _ && _)%bool eqn:E; [intros _|discriminate].
  apply andb_true_iff in E as [E1 E2].
  apply Nat.leb_le in E1, E2.
  repeat match goal with |- (_ || _)%bool = false => apply orb_false_iff; split end;
    try apply andb_false_iff; try (apply Nat.eqb_neq; lia);
    try (right; apply Nat.leb_gt; lia).
Qed.

Lemma lstrip_head (c : ascii) (l : list ascii) :
  is_space c = false -> lstrip (c :: l) = c :: l.
Proof. intros H. cbn. now rewrite H. Qed.

(** Text without white space is left alone by [strip]. *)
Lemma lstrip_kept (l : list ascii) :
  (forall c, In c l -> is_space c = false) -> lstrip l = l.
Proof.
  destruct l as [|c l]; [reflexivity|]. intros H. apply lstrip_head, H. now left.
Qed.

Lemma strip_kept (l : list ascii) :
  (forall c, In c l -> is_space c = false) -> strip l = l.
Proof.
  intros H. unfold strip. rewrite (lstrip_kept l H), lstrip_kept.
  - apply rev_involutive.
  - intros c Hc. apply H. now apply in_rev.
Qed.

Lemma chars_no_space (d : Decimal.uint) (c : ascii) :
  In c (chars d) -> is_space c = false.
Proof.
  intros H. apply is_digit_not_space.
  pose proof (chars_digits d) as Hd. rewrite forallb_forall in Hd. now apply Hd.
Qed.

(** [int(str(n))] is [n]. *)
Lemma py_int_py_str (n : Z) : py_int (py_str n) = Some n.
Proof.
  unfold py_int, py_str. destruct n as [|p|p]; [reflexivity| |].
  - cbn [Z.to_int NilZero.string_of_int].
    pose proof (DecimalPos.Unsigned.to_uint_nonnil p) as Hn.
    pose proof (DecimalPos.Unsigned.of_to p) as Hp.
    pose proof (digits_from_zero (Pos.to_uint p) false (or_intror Hn)) as Hd.
    pose proof (strip_kept _ (chars_no_space (Pos.to_uint p))) as Hs.
    rewrite Hp in Hd. cbn [Z.of_N] in Hd.
    destruct (Pos.to_uint p) eqn:E; [congruence|..];
      cbn [NilZero.string_of_uint]; fold (chars (Pos.to_uint p)) in *;
      unfold chars in *; cbn [NilEmpty.string_of_uint list_ascii_of_string] in *;
      rewrite Hs; exact Hd.
  - cbn [Z.to_int NilZero.string_of_int list_ascii_of_string].
    pose proof (DecimalPos.Unsigned.to_uint_nonnil p) as Hn.
    pose proof (DecimalPos.Unsigned.of_to p) as Hp.
    pose proof (digits_from_zero (Pos.to_uint p) false (or_intror Hn)) as Hd.
    rewrite Hp in Hd. cbn [Z.of_N] in Hd.
    assert (Hs : strip ("-"%char :: list_ascii_of_string (NilZero.string_of_uint (Pos.to_uint p)))
                 = "-"%char :: chars (Pos.to_uint p)).
    { replace (NilZero.string_of_uint (Pos.to_uint p))
        with (NilEmpty.string_of_uint (Pos.to_uint p))
        by (destruct (Pos.to_uint p); [congruence|reflexivity..]).
      apply strip_kept. intros c [<-|Hc]; [reflexivity|].
      now apply (chars_no_space (Pos.to_uint p)). }
    rewrite Hs, Hd. reflexivity.
Qed.

Lemma py_strip_py_str (n : Z) : py_strip (py_str n) = py_str n.
Proof.
  unfold py_strip.
  assert (H : strip (list_ascii_of_string (py_str n)) = list_ascii_of_string (py_str n)).
  { unfold py_str. destruct n as [|p|p]; [reflexivity| |];
      cbn [Z.to_int NilZero.string_of_int list_ascii_of_string];
      pose proof (DecimalPos.Unsigned.to_uint_nonnil p) as Hn;
      replace (NilZero.string_of_uint (Pos.to_uint p))
        with (NilEmpty.string_of_uint (Pos.to_uint p))
        by (destruct (Pos.to_uint p); [congruence|reflexivity..]);
      apply strip_kept.
    - apply (chars_no_space (Pos.to_uint p)).
    - intros c [<-|Hc]; [reflexivity|]. now apply (chars_no_space (Pos.to_uint p)). }
  rewrite H. apply string_of_list_ascii_of_string.
Qed.







Lemma chatgpt_load_saved (n : Z) : Chatgpt.load_high_score (Some (py_str n)) = n.
Proof.
  unfold Chatgpt.load_high_score. now rewrite py_strip_py_str, py_int_py_str.
Qed.






(** ** chatgpt.py: what [main] keeps true *)

Section ChatgptMore.
Import Chatgpt ChatgptSpec ChatgptInv More.

(** An event changes neither the high score nor the file, and it leaves score
    and fall speed alone or resets both. *)
Lemma handle_event_store (ticks : Z) (st : State) (ev : Event) :
  let st' := handle_event ticks st ev in
  high_score st' = high_score st /\ file st' = file st /\
  ((score st' = score st /\ current_fall_speed st' = current_fall_speed st) \/
   (score st' = 0 /\ current_fall_speed st' = SHAPE_FALL_SPEED)).
Proof.
  cbv zeta. destruct ev as [|key|]; cbn; auto.
  destruct (game_state st); [cbn; auto| |]; destruct key; cbn; auto.
Qed.

Lemma speed_of_next (s : Z) :
  chatgpt_speed_of (s + 1)
  == (if (s + 1) mod SPEED_INCREMENT_INTERVAL =? 0
      then chatgpt_speed_of s + SPEED_INCREMENT_AMOUNT else chatgpt_speed_of s).
Proof.
  unfold chatgpt_speed_of, SPEED_INCREMENT_INTERVAL, SPEED_INCREMENT_AMOUNT, SHAPE_FALL_SPEED.
  destruct (_ =? 0) eqn:E.
  - apply Z.eqb_eq in E.
    replace ((s + 1) / 5) with (s / 5 + 1)
      by (Z.to_euclidean_division_equations; lia).
    rewrite inject_Z_plus. ring.
  - apply Z.eqb_neq in E.
    replace ((s + 1) / 5) with (s / 5)
      by (Z.to_euclidean_division_equations; lia).
    reflexivity.
Qed.

Lemma check_shape_speed (c : CollectorZones.t) (a : Tally) (shape : FallingShape.t) :
  t_speed a == chatgpt_speed_of (t_score a) ->
  t_speed (check_shape c a shape) == chatgpt_speed_of (t_score (check_shape c a shape)).
Proof.
  intros H. unfold check_shape.
  destruct (reaches_zone c shape); [destruct (colour_eqb _ _)|
                                     destruct (FallingShape.is_off_screen shape)];
    cbn [t_speed t_score]; auto.
  rewrite speed_of_next. destruct (_ =? 0); [rewrite H|]; auto. reflexivity.
Qed.

Lemma collision_loop_speed (c : CollectorZones.t) (l : list FallingShape.t) (a : Tally) :
  t_speed a == chatgpt_speed_of (t_score a) ->
  t_speed (fold_left (check_shape c) l a)
  == chatgpt_speed_of (t_score (fold_left (check_shape c) l a)).
Proof.
  revert a; induction l as [|shape l IH]; intros a H; cbn [fold_left]; auto.
  apply IH. now apply check_shape_speed.
Qed.

Lemma handle_events_in_step (inp : Input) (st : State) :
  in_step st -> in_step (handle_events inp st).
Proof.
  unfold handle_events. generalize (events inp) as evs.
  intros evs; revert st; induction evs as [|ev evs IH]; cbn [fold_left]; intros st H; auto.
  apply IH. destruct H as [Hf Hv].
  destruct (handle_event_store (ticks_at_events inp) st ev) as (Hh & Hfile & Hcase).
  cbv zeta in *. split; [now rewrite Hfile, Hh|].
  destruct Hcase as [[-> ->]|[-> ->]]; [exact Hv|]. reflexivity.
Qed.

Lemma spawn_in_step (inp : Input) (st : State) : in_step st -> in_step (spawn inp st).
Proof. unfold spawn. destruct (_ >? _); auto. Qed.

Lemma check_game_over_in_step (st : State) : in_step st -> in_step (check_game_over st).
Proof.
  intros [Hf Hv]. unfold check_game_over.
  destruct (lives st <=? 0); [|split; assumption].
  split; cbn [file high_score score current_fall_speed]; [|exact Hv].
  destruct (score st >? high_score st); [apply chatgpt_load_saved|exact Hf].
Qed.

Lemma frame_in_step (st : State) (inp : Input) : in_step st -> in_step (frame st inp).
Proof.
  intros H. apply (handle_events_in_step inp) in H.
  unfold frame, update_logic. destruct (game_state _); auto.
  apply check_game_over_in_step. apply (spawn_in_step inp) in H.
  destruct H as [Hf Hv]. split; [exact Hf|].
  unfold resolve_shapes, update_shapes; cbn [score current_fall_speed shapes collector
                                             lives sounds].
  apply collision_loop_speed. exact Hv.
Qed.

Lemma reachable_in_step (st : State) : reachable st -> in_step st.
Proof.
  induction 1 as [f ticks|st inp _ IH _].
  - split; reflexivity.
  - now apply frame_in_step.
Qed.

End ChatgptMore.

Section ChatgptMoreInvariants.
Import Chatgpt ChatgptSpec ChatgptInv More.

(** X4 (chatgpt.py, [main] with [load_high_score] and [save_high_score]): at
    the top of every iteration of the loop the high-score file, read again
    with [load_high_score], gives the value of the variable [high_score]:
    the program never holds a high score that it has not written. *)
Theorem X4_chatgpt_file_agrees_with_high_score (st : State) :
  reachable st -> load_high_score (file st) = high_score st.
Proof. intros Hr. now destruct (reachable_in_step st Hr). Qed.

(** X4, witness: the state after the 788 frames of the game with one slow
    frame, which ended with a new high score of 6. *)
Lemma X4_chatgpt_file_agrees_with_high_score_witness :
  load_high_score (file (Stutter.after 788)) = high_score (Stutter.after 788) /\
  high_score (Stutter.after 788) = 6.
Proof.
  split.
  - apply X4_chatgpt_file_agrees_with_high_score. apply reachable_run. constructor.
  - vm_compute. reflexivity.
Defined.

(** X5 (chatgpt.py, [main]): at the top of every iteration the current fall
    speed is [SHAPE_FALL_SPEED + SPEED_INCREMENT_AMOUNT * (score // 5)]: the
    speed is a function of the score, whatever the order of matches and
    misses, and a new game starts again from 3. *)
Theorem X5_chatgpt_fall_speed_follows_score (st : State) :
  reachable st ->
  current_fall_speed st
  == SHAPE_FALL_SPEED
     + inject_Z (score st / SPEED_INCREMENT_INTERVAL) * SPEED_INCREMENT_AMOUNT.
Proof. intros Hr. now destruct (reachable_in_step st Hr). Qed.

(** X5, witness: the same game, which ended with score 6 and speed 3.5. *)
Lemma X5_chatgpt_fall_speed_follows_score_witness :
  current_fall_speed (Stutter.after 788)
  == SHAPE_FALL_SPEED
     + inject_Z (score (Stutter.after 788) / SPEED_INCREMENT_INTERVAL)
       * SPEED_INCREMENT_AMOUNT /\
  score (Stutter.after 788) = 6.
Proof.
  split.
  - apply X5_chatgpt_fall_speed_follows_score. apply reachable_run. constructor.
  - vm_compute. reflexivity.
Defined.

(** The test [shape.y + shape.size >= collector.y] reads the collector's [y]
    only. *)
Lemma reaches_zone_row (c c' : CollectorZones.t) (shape : FallingShape.t) :
  CollectorZones.y c = CollectorZones.y c' -> reaches_zone c shape = reaches_zone c' shape.
Proof. unfold reaches_zone. now intros ->. Qed.

Lemma live_shapes_size (st : State) (inp : Input) :
  geometry st -> Forall (fun s => FallingShape.size s = 30) (live_shapes st inp).
Proof.
  intros Hgeo. destruct (handle_events_geometry inp st Hgeo) as [_ Hs].
  rewrite live_shapes_spec. cbv zeta. rewrite Forall_forall. intros s Hin.
  apply in_map_iff in Hin as (s0 & <- & Hin0). cbn.
  apply in_app_or in Hin0 as [Hin0|Hin0].
  - rewrite Forall_forall in Hs. now apply Hs.
  - destruct (_ >? _); [|contradiction]. now destruct Hin0 as [<-|[]].
Qed.

Lemma no_shape_missed_below (st : State) (inp : Input) :
  geometry st ->
  forall s, In s (live_shapes st inp) ->
            verdict_eqb (verdict (collector (handle_events inp st)) s) MissedBelow = false.
Proof.
  intros Hgeo s Hin.
  pose proof (live_shapes_size st inp Hgeo) as Hsize.
  rewrite Forall_forall in Hsize. specialize (Hsize s Hin).
  destruct (handle_events_geometry inp st Hgeo) as [Hy _].
  unfold verdict.
  destruct (reaches_zone _ s) eqn:Hz; [now destruct (colour_eqb _ _)|].
  destruct (FallingShape.is_off_screen s) eqn:Ho; [|reflexivity].
  rewrite (below_is_at_zone_row _ s Hy Hsize Ho) in Hz. discriminate.
Qed.

Lemma tally_none (v : Verdict) (c : CollectorZones.t) (l : list FallingShape.t) :
  (forall s, In s l -> verdict_eqb (verdict c s) v = false) -> tally v c l = 0.
Proof.
  intros H. unfold tally.
  induction l as [|s l IH]; [reflexivity|]. cbn [filter].
  rewrite (H s) by now left. apply IH. intros s' Hs'. apply H. now right.
Qed.

(** X6 (chatgpt.py, the [elif shape.is_off_screen()] branch of [main]): in no
    frame the program can reach does a shape take the off-screen branch.  The
    collector row is at 750 and every shape has size 30, so a shape with
    [y - 30 > 800] has [y + 30 >= 750] and is taken by the first [if]; every
    life lost in a frame of play is a wrong colour at the zone row. *)
Theorem X6_chatgpt_off_screen_branch_is_dead (st : State) (inp : Input) :
  reachable st ->
  let c := collector (handle_events inp st) in
  (forall s, In s (live_shapes st inp) ->
             FallingShape.is_off_screen s = true -> reaches_zone c s = true) /\
  tally MissedBelow c (live_shapes st inp) = 0 /\
  (game_state st = STATE_PLAYING ->
   lives (frame st inp) = lives st - tally Mismatched c (live_shapes st inp)).
Proof.
  intros Hr. cbv zeta.
  pose proof (reachable_geometry st Hr) as Hgeo.
  pose proof (reachable_invariant st Hr) as (Hd & _).
  assert (H0 : tally MissedBelow (collector (handle_events inp st)) (live_shapes st inp) = 0)
    by (apply tally_none, no_shape_missed_below; exact Hgeo).
  split; [|split; [exact H0|]].
  - intros s Hin Ho.
    pose proof (live_shapes_size st inp Hgeo) as Hsize.
    rewrite Forall_forall in Hsize.
    destruct (handle_events_geometry inp st Hgeo) as [Hy _].
    apply below_is_at_zone_row; auto.
  - intros Hplay.
    destruct (handle_events_playing st inp Hplay) as (Hg0 & _ & Hl0 & _).
    destruct (frame_playing st inp Hd Hg0) as (_ & Hl & _).
    cbv zeta in *. rewrite Hl, Hl0, H0. lia.
Qed.

(** X6, witness: frame 787 of the game with one slow frame, in which two
    wrong matches take the last life and one more. *)
Lemma X6_chatgpt_off_screen_branch_is_dead_witness :
  tally MissedBelow
    (collector (handle_events (Stutter.frame_input 787) (Stutter.after 787)))
    (live_shapes (Stutter.after 787) (Stutter.frame_input 787)) = 0 /\
  tally Mismatched
    (collector (handle_events (Stutter.frame_input 787) (Stutter.after 787)))
    (live_shapes (Stutter.after 787) (Stutter.frame_input 787)) = 2.
Proof.
  split.
  - apply (X6_chatgpt_off_screen_branch_is_dead (Stutter.after 787) (Stutter.frame_input 787)).
    apply reachable_run. constructor.
  - vm_compute. reflexivity.
Defined.

Lemma frame_collector (st : State) (inp : Input) :
  collector (frame st inp) = collector (handle_events inp st).
Proof.
  unfold frame, update_logic. destruct (game_state (handle_events inp st)); auto.
  destruct (check_game_over_keeps
              (resolve_shapes (update_shapes (spawn inp (handle_events inp st)))))
    as (_ & _ & -> & _).
  change (collector (resolve_shapes (update_shapes (spawn inp (handle_events inp st)))))
    with (collector (spawn inp (handle_events inp st))).
  now destruct (spawn_keeps inp (handle_events inp st)) as (_ & -> & _).
Qed.

Lemma frame_above_row (st : State) (inp : Input) :
  distinct_objects st -> geometry st ->
  Forall (fun s => reaches_zone (collector st) s = false) (shapes st) ->
  Forall (fun s => reaches_zone (collector (frame st inp)) s = false) (shapes (frame st inp)).
Proof.
  intros Hd Hgeo Habove.
  destruct (handle_events_geometry inp st Hgeo) as [Hy _].
  destruct Hgeo as [Hy0 _].
  destruct (handle_events_shapes inp st) as [Hsh _]. cbv zeta in Hsh.
  rewrite frame_collector.
  assert (Hidle : frame st inp = handle_events inp st ->
                  Forall (fun s => reaches_zone (collector (handle_events inp st)) s = false)
                         (shapes (frame st inp))).
  { intros ->. destruct Hsh as [->| ->]; [|constructor].
    rewrite Forall_forall in *. intros s Hin.
    rewrite (reaches_zone_row _ (collector st)) by congruence. now apply Habove. }
  destruct (game_state (handle_events inp st)) eqn:Hg.
  - apply Hidle. unfold frame, update_logic. now rewrite Hg.
  - destruct (frame_playing st inp Hd Hg) as (_ & _ & -> & _).
    rewrite Forall_forall. intros s Hin.
    apply filter_In in Hin as [_ Hres].
    unfold resolved, verdict in Hres.
    destruct (reaches_zone _ s); [|reflexivity].
    now destruct (colour_eqb _ _).
  - apply Hidle. unfold frame, update_logic. now rewrite Hg.
Qed.

(** X7 (chatgpt.py, the collision and removal loops of [main]): at the top of
    every iteration, and so in every picture the program draws, each shape in
    the live list is still above the collector row, [y + size < collector.y]:
    a shape that reached the row in a frame is gone by the end of that
    frame. *)
Theorem X7_chatgpt_live_shapes_are_above_the_row (st : State) :
  reachable st ->
  forall s, In s (shapes st) ->
            reaches_zone (collector st) s = false /\
            (FallingShape.y s + inject_Z (FallingShape.size s) < inject_Z (HEIGHT - BOTTOM_MARGIN))%Q.
Proof.
  intros Hr.
  assert (H : Forall (fun s => reaches_zone (collector st) s = false) (shapes st)).
  { induction Hr as [f ticks|st inp Hr IH _]; [constructor|].
    apply frame_above_row; auto.
    - now destruct (reachable_invariant st Hr).
    - now apply reachable_geometry. }
  intros s Hin. rewrite Forall_forall in H. specialize (H s Hin).
  split; [exact H|].
  destruct (reachable_geometry st Hr) as [Hy _].
  unfold reaches_zone, Qge_bool in H. rewrite Hy in H.
  apply Qnot_le_lt. intros Hle. apply Qle_bool_iff in Hle. congruence.
Qed.

(** X7, witness: 315 frames into the game with one slow frame the oldest
    shape is at 718, with its lower edge two pixels above the row. *)
Lemma X7_chatgpt_live_shapes_are_above_the_row_witness :
  reaches_zone (collector (Stutter.after 315))
               (nth 0 (shapes (Stutter.after 315)) FirstArrival.shape) = false /\
  FallingShape.y (nth 0 (shapes (Stutter.after 315)) FirstArrival.shape) = 718%Q.
Proof.
  split; [|vm_compute; reflexivity].
  apply (X7_chatgpt_live_shapes_are_above_the_row (Stutter.after 315)).
  - apply reachable_run. constructor.
  - vm_compute. left. reflexivity.
Defined.

End ChatgptMoreInvariants.

(** ** chatgpt.py: what [CollectorZones.draw] shows *)

Section ChatgptCollectorDrawn.
Import Chatgpt ChatgptDraw.

Lemma move_well_placed (c : CollectorZones.t) :
  well_placed c ->
  well_placed (CollectorZones.move_left c) /\ well_placed (CollectorZones.move_right c).
Proof.
  intros (Hc & Hx & Hy & Hi).
  split; (split; [exact Hc|split; [exact Hx|split; [exact Hy|]]]); cbn;
    apply Z.mod_pos_bound; lia.
Qed.

Lemma handle_event_well_placed (ticks : Z) (st : State) (ev : Event) :
  well_placed (collector st) -> well_placed (collector (handle_event ticks st ev)).
Proof.
  intros H. destruct (move_well_placed _ H) as [Hl Hr].
  assert (H0 : well_placed CollectorZones.init)
    by (unfold well_placed; cbn; repeat split; lia).
  destruct ev as [|key|]; cbn; auto.
  destruct (game_state st); [cbn; auto| |]; destruct key; cbn; auto.
Qed.

Lemma reachable_well_placed (st : State) : reachable st -> well_placed (collector st).
Proof.
  induction 1 as [f ticks|st inp _ IH _].
  - unfold well_placed; cbn; repeat split; lia.
  - rewrite frame_collector. unfold handle_events.
    generalize (events inp) as evs. revert IH. generalize st as s.
    intros s Hs evs; revert s Hs.
    induction evs as [|ev evs IHe]; cbn [fold_left]; intros s Hs; auto.
    apply IHe. now apply handle_event_well_placed.
Qed.

(** X8 (chatgpt.py, [CollectorZones.draw] and [get_centre_colour]): whenever
    [main] draws the collector it makes three calls, for rectangles 100 wide
    and 50 high at x = 200, 300 and 400 on the row y = 750; the colour of the
    middle one is the colour [get_centre_colour] compares shapes with, and
    the three colours are red, green and blue in some order, each once. *)
Theorem X8_chatgpt_draw_shows_the_centre_colour (st : State) :
  reachable st ->
  exists l r : Colour,
    draw (collector st)
    = [ mkRectCall l 200 750 100 50;
        mkRectCall (CollectorZones.get_centre_colour (collector st)) 300 750 100 50;
        mkRectCall r 400 750 100 50 ] /\
    Permutation [l; CollectorZones.get_centre_colour (collector st); r] COLOUR_LIST.
Proof.
  intros Hr. destruct (reachable_well_placed st Hr) as (Hc & Hx & Hy & Hi).
  unfold draw, CollectorZones.get_centre_colour. cbn [map].
  rewrite Hc, Hx, Hy.
  assert (E : CollectorZones.index (collector st) = 0 \/
              CollectorZones.index (collector st) = 1 \/
              CollectorZones.index (collector st) = 2) by lia.
  destruct E as [->|[->| ->]]; do 2 eexists; (split; [reflexivity|]); cbn.
  - apply Permutation_refl.
  - apply Permutation_sym, (Permutation_cons_app [GREEN; BLUE] []), Permutation_refl.
  - apply (Permutation_cons_app [RED; GREEN] []), Permutation_refl.
Qed.

(** X8, witness: the collector after a game has started and RIGHT has been
    pressed once shows green, blue, red. *)
Lemma X8_chatgpt_draw_shows_the_centre_colour_witness :
  (exists l r : Colour,
     draw (collector (run (initial None 0)
                        [mkInput [KEYDOWN K_SPACE; KEYDOWN K_RIGHT] 0 0 RED circle 300]))
     = [ mkRectCall l 200 750 100 50;
         mkRectCall (CollectorZones.get_centre_colour
                       (collector (run (initial None 0)
                          [mkInput [KEYDOWN K_SPACE; KEYDOWN K_RIGHT] 0 0 RED circle 300])))
                    300 750 100 50;
         mkRectCall r 400 750 100 50 ] /\
     Permutation
       [l; CollectorZones.get_centre_colour
             (collector (run (initial None 0)
                [mkInput [KEYDOWN K_SPACE; KEYDOWN K_RIGHT] 0 0 RED circle 300])); r]
       COLOUR_LIST) /\
  map fill (draw (collector (run (initial None 0)
                    [mkInput [KEYDOWN K_SPACE; KEYDOWN K_RIGHT] 0 0 RED circle 300])))
  = [GREEN; BLUE; RED].
Proof.
  split.
  - apply X8_chatgpt_draw_shows_the_centre_colour. apply reachable_run. constructor.
  - vm_compute. reflexivity.
Defined.

(** X9 (chatgpt.py, [move_left], [move_right] and [draw]): whatever the index,
    after [move_right] the three drawn colours are the old ones shifted one
    slot to the left, the old left colour reappearing on the right, and
    [move_left] shifts them one slot to the right; the rectangles stay where
    they are. *)
Theorem X9_chatgpt_moves_shift_the_drawn_colours (c : CollectorZones.t) (a b d : Colour) :
  map fill (draw c) = [a; b; d] ->
  map fill (draw (CollectorZones.move_right c)) = [b; d; a] /\
  map fill (draw (CollectorZones.move_left c)) = [d; a; b] /\
  map (fun r => (left r, top r, width r, height r)) (draw (CollectorZones.move_right c))
  = map (fun r => (left r, top r, width r, height r)) (draw c) /\
  map (fun r => (left r, top r, width r, height r)) (draw (CollectorZones.move_left c))
  = map (fun r => (left r, top r, width r, height r)) (draw c).
Proof.
  unfold draw. cbn [map fill CollectorZones.move_right CollectorZones.move_left
                    CollectorZones.index CollectorZones.colours CollectorZones.x
                    CollectorZones.y left top width height].
  intros H. injection H as Ha Hb Hd.
  split; [|split; [|split; reflexivity]].
  - rewrite <- Ha, <- Hb, <- Hd.
    repeat match goal with
           | |- _ :: _ = _ :: _ => f_equal
           | |- nth _ _ _ = nth _ _ _ => f_equal; f_equal
           end; Z.to_euclidean_division_equations; lia.
  - rewrite <- Ha, <- Hb, <- Hd.
    repeat match goal with
           | |- _ :: _ = _ :: _ => f_equal
           | |- nth _ _ _ = nth _ _ _ => f_equal; f_equal
           end; Z.to_euclidean_division_equations; lia.
Qed.

(** X9, witness: the collector as [__init__] makes it shows red, green,
    blue. *)
Lemma X9_chatgpt_moves_shift_the_drawn_colours_witness :
  map fill (draw (CollectorZones.move_right CollectorZones.init)) = [GREEN; BLUE; RED] /\
  map fill (draw (CollectorZones.move_left CollectorZones.init)) = [BLUE; RED; GREEN].
Proof.
  destruct (X9_chatgpt_moves_shift_the_drawn_colours CollectorZones.init RED GREEN BLUE)
    as (H1 & H2 & _); [reflexivity|].
  split; assumption.
Defined.

End ChatgptCollectorDrawn.

(** ** gemini.py: what [game_loop] keeps true *)

Section GeminiMore.
Import Gemini GeminiSpec GeminiRel More.

Lemma gemini_speed_next (s : Z) :
  gemini_speed_of (s + 1)
  = (if (s + 1) mod speed_increase_interval =? 0
     then gemini_speed_of s + 1 else gemini_speed_of s).
Proof.
  unfold gemini_speed_of, speed_increase_interval.
  destruct (_ =? 0) eqn:E; [apply Z.eqb_eq in E|apply Z.eqb_neq in E];
    Z.to_euclidean_division_equations; lia.
Qed.

Lemma collide_speed (st st1 : State) (shape : Shape) :
  collide st shape = Ok st1 ->
  shape_speed st = gemini_speed_of (score st) ->
  shape_speed st1 = gemini_speed_of (score st1).
Proof.
  rewrite collide_cases. intros H Hv.
  destruct (verdict (zones st) shape).
  - destruct (list_remove _ _); cbn in H; [|discriminate].
    injection H as <-. unfold score_point; cbn [shape_speed score].
    rewrite gemini_speed_next, Hv. reflexivity.
  - destruct (list_remove _ _); cbn in H; [|discriminate].
    injection H as <-. exact Hv.
  - destruct (list_remove _ _); cbn in H; [|discriminate].
    injection H as <-. exact Hv.
  - injection H as <-. exact Hv.
Qed.

Lemma collisions_speed (rest : list Shape) (st st' : State) :
  collisions st rest = Ok st' ->
  shape_speed st = gemini_speed_of (score st) ->
  shape_speed st' = gemini_speed_of (score st').
Proof.
  revert st; induction rest as [|shape rest IH]; cbn; intros st H Hv.
  - now injection H as <-.
  - destruct (collide st shape) as [st1|e] eqn:E; cbn in H; [|discriminate].
    eapply IH; [exact H|]. eapply collide_speed; eauto.
Qed.

(** Placing the zones again forgets where they were. *)
Lemma place_zones_again (p q i : Z) (zs : list Zone) :
  place_zones p i (place_zones q i zs) = place_zones p i zs.
Proof. revert i; induction zs as [|z zs IH]; intros i; cbn; [reflexivity|now rewrite IH]. Qed.

Lemma before_collisions_fields (st : State) (inp : Input) :
  let st0 := before_collisions st inp in
  score st0 = score st /\ shape_speed st0 = shape_speed st /\
  zone_position st0 = zone_position (fold_left handle_event (events inp) st) /\
  zones st0 = place_zones (zone_position st0) 0 (zones st).
Proof.
  cbv zeta.
  destruct (handle_events_fields (events inp) st) as (E1 & _ & _ & E4 & E5 & _).
  cbv zeta in *. unfold before_collisions, move_shapes, spawn, move_zones.
  destruct (spawn_due inp); cbn; rewrite E1, E4, E5; auto.
Qed.

Lemma frame_laid_out (st st' : State) (inp : Input) :
  frame st inp = Ok st' -> laid_out st -> laid_out st'.
Proof.
  unfold frame. fold (before_collisions st inp). intros H [Hv Hz].
  destruct (before_collisions_fields st inp) as (B1 & B2 & _ & B4). cbv zeta in *.
  destruct (collisions_carries_on _ _ _ H) as (C1 & C2 & _).
  split.
  - eapply collisions_speed; [exact H|]. now rewrite B1, B2.
  - rewrite C1, C2, B4, Hz. apply place_zones_again.
Qed.

Lemma reachable_laid_out (st : State) : reachable st -> laid_out st.
Proof.
  induction 1 as [f st Hentry|st inp st' _ IH _ Hframe].
  - unfold game_loop_entry in Hentry.
    destruct (load_high_score f); cbn in Hentry; [|discriminate].
    injection Hentry as <-. split; reflexivity.
  - eapply frame_laid_out; eauto.
Qed.

(** X10 (gemini.py, [game_loop]): at the top of every iteration
    [shape_speed] is [5 + score // 20]: one more for every twenty points, in
    whatever order points and lives went. *)
Theorem X10_gemini_speed_follows_score (st : State) :
  reachable st -> shape_speed st = 5 + score st / speed_increase_interval.
Proof. intros Hr. now destruct (reachable_laid_out st Hr). Qed.

(** X10, witness: the game with twenty green shapes, after its twentieth
    match in frame 169. *)
Lemma X10_gemini_speed_follows_score_witness :
  shape_speed (GeminiRuns.final None (SpeedUp.inputs 170))
  = 5 + score (GeminiRuns.final None (SpeedUp.inputs 170)) / speed_increase_interval /\
  score (GeminiRuns.final None (SpeedUp.inputs 170)) = 20.
Proof.
  assert (E : GeminiRuns.play None (SpeedUp.inputs 170)
              = Ok (GeminiRuns.final None (SpeedUp.inputs 170)))
    by (vm_compute; reflexivity).
  split; [|vm_compute; reflexivity].
  apply X10_gemini_speed_follows_score. exact (reachable_play _ _ _ E).
Defined.

(** How a shape in the zone row meets one zone. *)
Lemma collide_zone (x0 y0 zx : Z) :
  710 < y0 < 800 ->
  Rect.colliderect (Rect.mk x0 y0 40 40) (Rect.mk zx 750 200 50)
  = ((zx - 40 <? x0) && (x0 <? zx + 200))%bool.
Proof.
  intros Hy. unfold Rect.colliderect. cbn.
  rewrite !Z.gtb_ltb.
  rewrite (Z.min_l x0), (Z.max_r x0), (Z.min_l y0), (Z.max_r y0),
          (Z.min_l zx), (Z.max_r zx) by lia.
  destruct (Z.ltb_spec (zx - 40) x0), (Z.ltb_spec x0 (zx + 200)),
           (Z.ltb_spec x0 (zx + 200)), (Z.ltb_spec zx (x0 + 40)),
           (Z.ltb_spec y0 800), (Z.ltb_spec 750 (y0 + 40)); cbn; try reflexivity; lia.
Qed.

Lemma zones_at_rows :
  zones_at 0 = [mkZone RED (Rect.mk (-200) 750 200 50); mkZone GREEN (Rect.mk 0 750 200 50);
                mkZone BLUE (Rect.mk 200 750 200 50)] /\
  zones_at 1 = [mkZone RED (Rect.mk 0 750 200 50); mkZone GREEN (Rect.mk 200 750 200 50);
                mkZone BLUE (Rect.mk 400 750 200 50)] /\
  zones_at 2 = [mkZone RED (Rect.mk 200 750 200 50); mkZone GREEN (Rect.mk 400 750 200 50);
                mkZone BLUE (Rect.mk 600 750 200 50)].
Proof. by_evaluation. Qed.

Lemma zone_under_spec (position : Z) (shape : Shape) :
  0 <= position <= 2 -> in_the_row shape ->
  option_map color (first_zone (zones_at position) shape)
  = zone_under position (Rect.x (s_rect shape)).
Proof.
  intros Hp Hrow.
  destruct zones_at_rows as (Z0 & Z1 & Z2).
  assert (E : position = 0 \/ position = 1 \/ position = 2) by lia.
  unfold first_zone.
  destruct E as [->|[->| ->]]; rewrite ?Z0, ?Z1, ?Z2; clear Z0 Z1 Z2;
    destruct Hrow as (Hw & Hh & Hx & Hy);
    destruct shape as [o t c [x0 y0 w h]]; cbn in *;
    unfold shape_size, screen_width, screen_height, zone_height in *; subst w h;
    rewrite !collide_zone by lia; unfold zone_under;
    repeat match goal with
           | |- context [?a <? ?b] => destruct (Z.ltb_spec a b)
           | |- context [?a <=? ?b] => destruct (Z.leb_spec a b)
           end; cbn; try reflexivity; lia.
Qed.

(** X11 (gemini.py, the zone placement and [colliderect] in [game_loop]): in
    every frame the zone that judges a shape in the zone row is given by the
    zone position and the shape's left edge alone.  In the middle position
    red, green and blue stand under x < 200, x < 400 and the rest; a shape
    that straddles two zones is judged by the left one; with the zones
    moved to the left end no zone stands under x >= 400, and moved to the
    right end none stands under x <= 160, so shapes there are not judged at
    the row at all. *)
Theorem X11_gemini_zone_under_a_shape (st : State) (inp : Input) (shape : Shape) :
  reachable st ->
  in_the_row shape ->
  let st0 := before_collisions st inp in
  0 <= zone_position st0 <= 2 /\
  option_map color (first_zone (zones st0) shape)
  = zone_under (zone_position st0) (Rect.x (s_rect shape)).
Proof.
  intros Hr Hrow. cbv zeta.
  destruct (reachable_laid_out st Hr) as [_ Hz].
  destruct (reachable_invariant_g st Hr) as (_ & _ & _ & _ & Hlen & Hpos & _).
  destruct (handle_events_fields (events inp) st)
    as (_ & _ & _ & _ & _ & _ & _ & _ & _ & _ & E11).
  destruct (before_collisions_fields st inp) as (_ & _ & B3 & B4). cbv zeta in *.
  assert (Hp : 0 <= zone_position (before_collisions st inp) <= 2)
    by (rewrite B3; now apply E11).
  split; [exact Hp|].
  rewrite B4, Hz. unfold zones_at at 1. rewrite place_zones_again.
  now apply zone_under_spec.
Qed.

(** X11, witness: in the first frame of a game, with LEFT pressed, a red
    square at x = 450 in the row has no zone under it. *)
Lemma X11_gemini_zone_under_a_shape_witness :
  zone_position (before_collisions (GeminiRuns.final None [])
                   (Fallthrough.frame_input 0)) = 0 /\
  first_zone (zones (before_collisions (GeminiRuns.final None [])
                       (Fallthrough.frame_input 0)))
             (mkShape 7 square RED (Rect.mk 450 715 40 40)) = None.
Proof.
  assert (E : GeminiRuns.play None [] = Ok (GeminiRuns.final None []))
    by (vm_compute; reflexivity).
  assert (Hrow : in_the_row (mkShape 7 square RED (Rect.mk 450 715 40 40)))
    by (unfold in_the_row; cbn; repeat split; (reflexivity || lia || discriminate)).
  destruct (X11_gemini_zone_under_a_shape (GeminiRuns.final None [])
              (Fallthrough.frame_input 0) _ (reachable_play _ _ _ E) Hrow) as [_ H].
  split; [vm_compute; reflexivity|].
  destruct (first_zone _ _); [|reflexivity].
  revert H. vm_compute. discriminate.
Defined.



End GeminiMore.

(** ** gemini.py: the title screen and the sounds *)

Section GeminiIntroduction.
Import GeminiIntro.

Lemma with_sound_same (a : Audio) : with_sound a (sound_on a) = a.
Proof. now destruct a. Qed.

(** One batch of events, from any point of the loop. *)
Lemma intro_batch (evs : list Event) (a : Audio) (intro : bool) :
  fold_left intro_event evs (Showing a intro)
  = if existsb is_quit evs then Exited
    else Showing (with_sound a (xorb (sound_on a) (Nat.odd (presses_of_s evs))))
                 (intro && negb (existsb is_space_press evs)).
Proof.
  revert a intro; induction evs as [|ev evs IH]; intros a intro.
  - cbn. now rewrite xorb_false_r, andb_true_r, with_sound_same.
  - cbn [fold_left existsb].
    destruct ev as [|key|].
    + cbn. clear IH. induction evs as [|e evs IHe]; [reflexivity|exact IHe].
    + destruct key; cbn [intro_event is_quit orb];
        rewrite IH; destruct (existsb is_quit evs); try reflexivity;
        unfold presses_of_s; cbn [filter is_s is_space_press orb negb List.length
                                  with_sound sound_on match_sound wrong_match_sound
                                  game_over_sound];
        rewrite ?andb_false_r; try reflexivity.
      rewrite Nat.odd_succ, <- Nat.negb_odd.
      now destruct (sound_on a), (Nat.odd _).
    + cbn [intro_event is_quit orb]. rewrite IH. reflexivity.
Qed.

Lemma presses_of_s_app (l1 l2 : list Event) :
  Nat.odd (presses_of_s (l1 ++ l2))
  = xorb (Nat.odd (presses_of_s l1)) (Nat.odd (presses_of_s l2)).
Proof.
  unfold presses_of_s. now rewrite filter_app, length_app, Nat.odd_add.
Qed.

Lemma game_intro_spec (batches : list (list Event)) (a : Audio) :
  game_intro a batches
  = if existsb is_quit (handled batches) then Exited
    else Showing (with_sound a (xorb (sound_on a) (Nat.odd (presses_of_s (handled batches)))))
                 (negb (existsb is_space_press (handled batches))).
Proof.
  revert a; induction batches as [|evs rest IH]; intros a.
  - cbn. now rewrite xorb_false_r, with_sound_same.
  - cbn [game_intro handled]. rewrite intro_batch. cbn [andb].
    destruct (existsb is_space_press evs) eqn:Hsp; cbv iota.
    + rewrite ?Hsp. now destruct (existsb is_quit evs).
    + rewrite !existsb_app, Hsp, presses_of_s_app. cbn [negb orb].
      destruct (existsb is_quit evs); [reflexivity|]. cbn [orb].
      rewrite IH. destruct (existsb is_quit (handled rest)); [reflexivity|].
      cbn [with_sound sound_on match_sound wrong_match_sound game_over_sound].
      now rewrite xorb_assoc.
Qed.

(** X13 (gemini.py, [game_intro]): the title screen handles every batch of
    events to its end, up to and including the first batch with a press of
    SPACE.  A QUIT among these events ends the program, also when it comes
    after SPACE in the same batch.  Otherwise the loop is left exactly when
    SPACE was pressed, and [sound_on] has flipped once for every press of S,
    so an even number of presses leaves it as it was. *)
Theorem X13_gemini_intro_counts_presses (batches : list (list Event)) (a : Audio) :
  game_intro a batches
  = if existsb is_quit (handled batches) then Exited
    else Showing (with_sound a (xorb (sound_on a) (Nat.odd (presses_of_s (handled batches)))))
                 (negb (existsb is_space_press (handled batches))).
Proof. apply game_intro_spec. Qed.

(** X14 (gemini.py, the sound settings at import, [play_sound] and
    [game_intro]): the program never plays a sound.  The three sounds are
    loaded only if [sound_on] is true at import, where it has just been set
    to [False]; the S key of the title screen turns [sound_on] on but loads
    nothing, so [play_sound] always finds [None]. *)
Theorem X14_gemini_never_plays_a_sound
    (files_load : bool) (batches : list (list Event)) (a : Audio) (intro : bool) :
  game_intro (load_sounds files_load) batches = Showing a intro ->
  play_sound a (match_sound a) = [] /\
  play_sound a (wrong_match_sound a) = [] /\
  play_sound a (game_over_sound a) = [].
Proof.
  rewrite game_intro_spec. destruct (existsb is_quit _); [discriminate|].
  intros H; injection H as <- _.
  unfold play_sound, load_sounds, sound_on_at_import; cbn.
  now destruct (Nat.odd _).
Qed.

(** X14, witness: S and then SPACE on the title screen leave [sound_on] true
    and the intro loop finished, and still nothing is played. *)
Lemma X14_gemini_never_plays_a_sound_witness :
  game_intro (load_sounds true) [[KEYDOWN K_s]; [KEYDOWN K_SPACE]]
  = Showing (with_sound (load_sounds true) true) false /\
  play_sound (with_sound (load_sounds true) true)
             (match_sound (with_sound (load_sounds true) true)) = [].
Proof.
  split; [reflexivity|].
  apply (X14_gemini_never_plays_a_sound true [[KEYDOWN K_s]; [KEYDOWN K_SPACE]]
           (with_sound (load_sounds true) true) false).
  reflexivity.
Defined.

End GeminiIntroduction.

(** ** gemini.py: what [draw_collector_zones] shows *)

Section GeminiZonesDrawn.
Import Gemini GeminiSpec GeminiDraw More.

(** X15 (gemini.py, [draw_collector_zones] with the zone placement of
    [game_loop]): the zones are always drawn as red, green, blue from left to
    right, 200 wide and 50 high on the row y = 750, with the green one at
    200 times the zone position; moving the zones slides the whole row and
    never reorders the colours.  At position 0 the red zone lies left of the
    screen and at position 2 the blue one right of it. *)
Theorem X15_gemini_zones_slide_as_a_row (st : State) :
  reachable st ->
  0 <= zone_position st <= 2 /\
  draw_collector_zones (zones st)
  = [ (RED, Rect.mk ((zone_position st - 1) * 200) 750 200 50);
      (GREEN, Rect.mk (zone_position st * 200) 750 200 50);
      (BLUE, Rect.mk ((zone_position st + 1) * 200) 750 200 50) ].
Proof.
  intros Hr.
  destruct (reachable_laid_out st Hr) as [_ Hz].
  destruct (reachable_invariant_g st Hr) as (_ & _ & _ & _ & _ & Hpos & _).
  split; [exact Hpos|]. rewrite Hz.
  unfold draw_collector_zones, zones_at, initial_zones. cbn [place_zones map color rect].
  unfold Rect.set_x; cbn [Rect.y Rect.width Rect.height].
  unfold screen_height, zone_height, zone_width, screen_width.
  change (600 / 3) with 200. change (800 - 50) with 750.
  repeat (f_equal; try lia).
Qed.

(** X15, witness: the game in which LEFT is pressed in the first frame. *)
Lemma X15_gemini_zones_slide_as_a_row_witness :
  zone_position (GeminiRuns.final None (Fallthrough.inputs 1)) = 0 /\
  draw_collector_zones (zones (GeminiRuns.final None (Fallthrough.inputs 1)))
  = [ (RED, Rect.mk (-200) 750 200 50); (GREEN, Rect.mk 0 750 200 50);
      (BLUE, Rect.mk 200 750 200 50) ].
Proof.
  assert (E : GeminiRuns.play None (Fallthrough.inputs 1)
              = Ok (GeminiRuns.final None (Fallthrough.inputs 1)))
    by (vm_compute; reflexivity).
  assert (Hp : zone_position (GeminiRuns.final None (Fallthrough.inputs 1)) = 0)
    by (vm_compute; reflexivity).
  destruct (X15_gemini_zones_slide_as_a_row _ (reachable_play _ _ _ E)) as [_ H].
  split; [exact Hp|]. rewrite H, Hp. reflexivity.
Defined.

End GeminiZonesDrawn.

(** ** chatgpt.py: the high score over a run *)

Section ChatgptHighScore.
Import Chatgpt ChatgptSpec ChatgptInv.

Lemma handle_events_high_score (inp : Input) (st : State) :
  high_score (handle_events inp st) = high_score st.
Proof.
  unfold handle_events. generalize (events inp) as evs.
  intros evs; revert st; induction evs as [|ev evs IH]; cbn [fold_left]; intros st; auto.
  rewrite IH. now destruct (handle_event_store (ticks_at_events inp) st ev) as (-> & _).
Qed.

Lemma frame_high_score_grows (st : State) (inp : Input) :
  high_score st <= high_score (frame st inp).
Proof.
  rewrite <- (handle_events_high_score inp st).
  unfold frame, update_logic. destruct (game_state (handle_events inp st)); try lia.
  change (high_score (handle_events inp st))
    with (high_score (update_shapes (handle_events inp st))).
  assert (E : high_score (resolve_shapes (update_shapes (spawn inp (handle_events inp st))))
              = high_score (handle_events inp st)).
  { change (high_score (resolve_shapes (update_shapes (spawn inp (handle_events inp st)))))
      with (high_score (spawn inp (handle_events inp st))).
    now destruct (spawn_keeps inp (handle_events inp st)) as (_ & _ & _ & _ & _ & -> & _). }
  cbn [high_score update_shapes]. rewrite <- E.
  unfold check_game_over. destruct (_ <=? 0); [|lia]. cbn [high_score].
  destruct (_ >? _) eqn:Hgt; lia.
Qed.

(** Once a game is over its score is not above the high score. *)
Lemma handle_event_final_score (ticks : Z) (st : State) (ev : Event) :
  (game_state st = STATE_GAMEOVER -> score st <= high_score st) ->
  game_state (handle_event ticks st ev) = STATE_GAMEOVER ->
  score (handle_event ticks st ev) <= high_score (handle_event ticks st ev).
Proof.
  intros H. destruct ev as [|key|]; cbn; auto.
  destruct (game_state st) eqn:Hg; [cbn; discriminate| |];
    destruct key; cbn; rewrite ?Hg; auto; discriminate.
Qed.

Lemma frame_final_score (st : State) (inp : Input) :
  (game_state st = STATE_GAMEOVER -> score st <= high_score st) ->
  game_state (frame st inp) = STATE_GAMEOVER ->
  score (frame st inp) <= high_score (frame st inp).
Proof.
  intros H.
  assert (H0 : game_state (handle_events inp st) = STATE_GAMEOVER ->
               score (handle_events inp st) <= high_score (handle_events inp st)).
  { unfold handle_events. generalize (events inp) as evs. revert H. generalize st as s.
    intros s Hs evs; revert s Hs.
    induction evs as [|ev evs IHe]; cbn [fold_left]; intros s Hs; auto.
    apply IHe. now apply handle_event_final_score. }
  unfold frame, update_logic.
  destruct (game_state (handle_events inp st)) eqn:Hg;
    [intros E; congruence| |intros _; now apply H0].
  unfold check_game_over. destruct (_ <=? 0).
  - cbn [game_state score high_score]. intros _.
    destruct (_ >? _) eqn:Hgt; [lia|].
    rewrite Z.gtb_ltb in Hgt. apply Z.ltb_ge in Hgt. exact Hgt.
  - change (game_state (resolve_shapes (update_shapes (spawn inp (handle_events inp st)))))
      with (game_state (spawn inp (handle_events inp st))).
    destruct (spawn_keeps inp (handle_events inp st)) as (-> & _).
    rewrite Hg. discriminate.
Qed.

Lemma reachable_final_score (st : State) :
  reachable st -> game_state st = STATE_GAMEOVER -> score st <= high_score st.
Proof.
  induction 1 as [f ticks|st inp _ IH _]; [discriminate|].
  now apply frame_final_score.
Qed.

Lemma run_high_score_grows (inps : list Input) (st : State) :
  high_score st <= high_score (run st inps).
Proof.
  revert st; induction inps as [|inp inps IH]; cbn [run]; intros st; [lia|].
  destruct (running st); [|lia].
  pose proof (frame_high_score_grows st inp). specialize (IH (frame st inp)). lia.
Qed.

(** X16 (chatgpt.py, the game over check of [main]): over any frames the
    variable [high_score] never decreases, and whenever the program is in the
    game over state the score it shows as final is not above the high score
    it shows beside it. *)
Theorem X16_chatgpt_high_score_bounds_the_final_score (st : State) :
  reachable st ->
  (game_state st = STATE_GAMEOVER -> score st <= high_score st) /\
  (forall inps : list Input, high_score st <= high_score (run st inps)).
Proof.
  intros Hr. split; [now apply reachable_final_score|].
  intros inps. apply run_high_score_grows.
Qed.

(** X16, witness: the game with one slow frame ends with score 6 and, having
    started without a file, with high score 6. *)
Lemma X16_chatgpt_high_score_bounds_the_final_score_witness :
  game_state (Stutter.after 788) = STATE_GAMEOVER /\
  score (Stutter.after 788) <= high_score (Stutter.after 788) /\
  score (Stutter.after 788) = 6.
Proof.
  assert (Hg : game_state (Stutter.after 788) = STATE_GAMEOVER) by (vm_compute; reflexivity).
  split; [exact Hg|]. split; [|vm_compute; reflexivity].
  assert (Hr : reachable (Stutter.after 788)) by (apply reachable_run; constructor).
  exact (proj1 (X16_chatgpt_high_score_bounds_the_final_score (Stutter.after 788) Hr) Hg).
Defined.

End ChatgptHighScore.
